(** * Registro studenti: a shallow embedding of [registro_studenti_ai.py]

    The program keeps a roster of student records in one JSON file and
    offers four console operations: list the students with their grade
    average, add a student, add a grade, delete a student.

    The embedding follows the Python source function by function.  Python
    values are the values the [json] module can produce, text is a list of
    Unicode code points, the store file is a list of bytes, and the console
    is a list of pending input lines together with the log of what was
    printed.  A function of the source that reads the console or the file
    becomes a function from a [world] to either a raised exception or a
    result and a new world.

    Builtins of the interpreter ([str.strip], [str.isdigit], [int],
    [json.load], [json.dump], the UTF-8 codec, float arithmetic) are modelled
    as CPython 3.11 defines them, with the Unicode 14.0 character tables.
    Resource limits of the interpreter (recursion depth, memory, the digit
    limit of integer/string conversion) are outside the model, and so are
    operating-system failures other than a missing file. *)

From Stdlib Require Import ZArith List Bool Lia String Ascii.
From Stdlib Require Import SpecFloat.
From Stdlib Require DecimalPos.
Import ListNotations.
Local Open Scope Z_scope.
Set Warnings "-register-all".

(** ** Text *)

(** A Python [str] is a sequence of code points. *)
Definition codepoint := Z.
Definition pystr := list codepoint.

(** ASCII literals of the source, written as Rocq strings. *)
Definition lit (s : string) : pystr :=
  map (fun a => Z.of_N (N_of_ascii a)) (list_ascii_of_string s).

Definition in_range (lo hi c : Z) : bool := (lo <=? c) && (c <=? hi).

Fixpoint str_eqb (s t : pystr) : bool :=
  match s, t with
  | [], [] => true
  | c :: s', d :: t' => (c =? d) && str_eqb s' t'
  | _, _ => false
  end.

(** [str.isspace] on one character: the 29 whitespace code points. *)
Definition py_isspace (c : codepoint) : bool :=
  in_range 9 13 c || in_range 28 32 c || (c =? 133) || (c =? 160)
  || (c =? 5760) || in_range 8192 8202 c || (c =? 8232) || (c =? 8233)
  || (c =? 8239) || (c =? 8287) || (c =? 12288).

Fixpoint drop_while (p : codepoint -> bool) (s : pystr) : pystr :=
  match s with
  | c :: r => if p c then drop_while p r else s
  | [] => []
  end.

Definition strip_with (p : codepoint -> bool) (s : pystr) : pystr :=
  rev (drop_while p (rev (drop_while p s))).

(** [s.strip()] *)
Definition py_strip (s : pystr) : pystr := strip_with py_isspace s.

(** [s.split(sep)] for a one-character separator: never empty. *)
Fixpoint py_split (sep : codepoint) (s : pystr) : list pystr :=
  match s with
  | [] => [[]]
  | c :: r =>
      if c =? sep then [] :: py_split sep r
      else match py_split sep r with
           | p :: ps => (c :: p) :: ps
           | [] => [[c]]
           end
  end.

(** First code points of the runs of ten decimal digits (category Nd):
    the run starting at [s] holds the digits 0 to 9 in order. *)
Definition decimal_starts : list Z :=
  [ 48; 1632; 1776; 1984; 2406; 2534; 2662; 2790; 2918; 3046; 3174; 3302;
    3430; 3558; 3664; 3792; 3872; 4160; 4240; 6112; 6160; 6470; 6608; 6784;
    6800; 6992; 7088; 7232; 7248; 42528; 43216; 43264; 43472; 43504; 43600;
    44016; 65296; 66720; 68912; 69734; 69872; 69942; 70096; 70384; 70736;
    70864; 71248; 71360; 71472; 71904; 72016; 72784; 73040; 73120; 92768;
    92864; 93008; 120782; 120792; 120802; 120812; 120822; 123200; 123632;
    125264; 130032 ].

(** Characters with Numeric_Type=Digit that are not decimal: superscripts,
    subscripts, circled and parenthesised digits and the like. *)
Definition digit_only_ranges : list (Z * Z) :=
  [ (178, 179); (185, 185); (4969, 4977); (6618, 6618); (8304, 8304);
    (8308, 8313); (8320, 8329); (9312, 9320); (9332, 9340); (9352, 9360);
    (9450, 9450); (9461, 9469); (9471, 9471); (10102, 10110);
    (10112, 10120); (10122, 10130); (68160, 68163); (69216, 69224);
    (69714, 69722); (127232, 127242) ].

(** The value of a decimal digit, as [int] reads it. *)
Definition decimal_value (c : codepoint) : option Z :=
  match find (fun s => in_range s (s + 9) c) decimal_starts with
  | Some s => Some (c - s)
  | None => None
  end.

Definition is_decimal_char (c : codepoint) : bool :=
  match decimal_value c with Some _ => true | None => false end.

Definition is_digit_char (c : codepoint) : bool :=
  is_decimal_char c
  || existsb (fun r => in_range (fst r) (snd r) c) digit_only_ranges.

(** [s.isdigit()]: non-empty and every character a digit. *)
Definition py_isdigit (s : pystr) : bool :=
  match s with
  | [] => false
  | _ => forallb is_digit_char s
  end.

(** [int(s)] reads, in base ten, optional surrounding whitespace, an
    optional sign and decimal digits, with single underscores allowed
    between digits, and refuses a numeral of more than 4300 digits.
    [None] stands for [ValueError].  The whitespace [int] skips is that of
    [str.isspace] without the four separators U+001C to U+001F. *)
Definition int_isspace (c : codepoint) : bool :=
  py_isspace c && negb (in_range 28 31 c).

Fixpoint int_digits (s : pystr) (acc : Z) (after_digit : bool) : option Z :=
  match s with
  | [] => if after_digit then Some acc else None
  | c :: r =>
      if c =? 95 then
        if after_digit then int_digits r acc false else None
      else
        match decimal_value c with
        | Some d => int_digits r (10 * acc + d) true
        | None => None
        end
  end.

(** [sys.get_int_max_str_digits()]: the largest number of digits [int]
    converts, 4300 unless the interpreter is started otherwise.  Every
    digit counts, leading zeros too; underscores, the sign and the
    whitespace around do not. *)
Definition max_str_digits : Z := 4300.

Definition digit_count (s : pystr) : Z :=
  Z.of_nat (List.length (filter is_decimal_char s)).

Definition int_limited (s : pystr) : option Z :=
  if max_str_digits <? digit_count s then None else int_digits s 0 false.

Definition py_int (s : pystr) : option Z :=
  match strip_with int_isspace s with
  | c :: r =>
      if c =? 43 then int_limited r
      else if c =? 45 then option_map Z.opp (int_limited r)
      else int_limited (c :: r)
  | [] => None
  end.

(** [s.lower()] as far as the program observes it: the result is only
    compared with the one-letter string [s], and U+0053 is the only code
    point other than U+0073 whose lowercase form is that letter.  ASCII
    letters are mapped; the two non-ASCII code points whose lowercase form
    contains an ASCII letter are mapped as Python maps them; every other
    code point, whose lowercase form is never ASCII, is kept. *)
Definition lower_char (c : codepoint) : pystr :=
  if in_range 65 90 c then [c + 32]
  else if c =? 8490 then [107]
  else if c =? 304 then [105; 775]
  else [c].

Definition py_lower (s : pystr) : pystr := flat_map lower_char s.

(** ** Values, exceptions *)

(** A Python [float] is an IEEE 754 binary64 number. *)
Definition float := spec_float.
Definition prec : Z := 53.
Definition emax : Z := 1024.
Definition float_zero : float := S754_zero false.

(** The values [json.load] produces and the program builds.  A [dict]
    keeps its keys in insertion order, and its keys are strings. *)
Inductive value : Type :=
| VNone
| VBool (b : bool)
| VInt (n : Z)
| VFloat (x : float)
| VStr (s : pystr)
| VList (l : list value)
| VDict (d : list (pystr * value)).

Inductive exn : Type :=
| FileNotFoundError
| UnicodeDecodeError
| UnicodeEncodeError
| JSONDecodeError
| ValueError
| TypeError
| AttributeError
| KeyError
| IndexError
| OverflowError
| ZeroDivisionError
| EOFError.

Inductive result (A : Type) : Type :=
| Ok (a : A)
| Raise (e : exn).
Arguments Ok {A} a.
Arguments Raise {A} e.

Definition rbind {A B} (r : result A) (k : A -> result B) : result B :=
  match r with
  | Ok a => k a
  | Raise e => Raise e
  end.

(** ** Dictionaries *)

Fixpoint dict_get (d : list (pystr * value)) (k : pystr) : option value :=
  match d with
  | [] => None
  | (k', v) :: r => if str_eqb k' k then Some v else dict_get r k
  end.

(** [d[k] = v]: an existing key keeps its place. *)
Fixpoint dict_set (d : list (pystr * value)) (k : pystr) (v : value)
  : list (pystr * value) :=
  match d with
  | [] => [(k, v)]
  | (k', v') :: r =>
      if str_eqb k' k then (k', v) :: r else (k', v') :: dict_set r k v
  end.

(** [x.get(k, default)]: only a [dict] has the method. *)
Definition py_get (x : value) (k : pystr) (default : value) : result value :=
  match x with
  | VDict d =>
      match dict_get d k with
      | Some v => Ok v
      | None => Ok default
      end
  | _ => Raise AttributeError
  end.

(** [x[k]] for a string key, as the confirmation messages use it on a
    record that was found through [get]. *)
Definition py_getitem (x : value) (k : pystr) : result value :=
  match x with
  | VDict d =>
      match dict_get d k with
      | Some v => Ok v
      | None => Raise KeyError
      end
  | _ => Raise TypeError
  end.

(** [iter(x)]: a list yields its elements, a dict its keys, a string its
    characters; nothing else is iterable. *)
Definition py_iter (x : value) : result (list value) :=
  match x with
  | VList l => Ok l
  | VDict d => Ok (map (fun kv => VStr (fst kv)) d)
  | VStr s => Ok (map (fun c => VStr [c]) s)
  | _ => Raise TypeError
  end.

(** Truth value of [x], as [if not x] tests it. *)
Definition py_truthy (x : value) : bool :=
  match x with
  | VNone => false
  | VBool b => b
  | VInt n => negb (n =? 0)
  | VFloat (S754_zero _) => false
  | VFloat _ => true
  | VStr s => match s with [] => false | _ => true end
  | VList l => match l with [] => false | _ => true end
  | VDict d => match d with [] => false | _ => true end
  end.

(** [x == s] for a string [s]: only an equal string is equal to it. *)
Definition py_eq_str (x : value) (s : pystr) : bool :=
  match x with
  | VStr t => str_eqb t s
  | _ => false
  end.

(** ** Numbers *)

(** [float(n)]: the nearest double, ties to even; [OverflowError] when
    that would be an infinity. *)
Definition float_of_int (n : Z) : result float :=
  match binary_normalize prec emax n 0 false with
  | S754_infinity _ => Raise OverflowError
  | x => Ok x
  end.

(** [a / b] on integers: the correctly rounded quotient. *)
Definition int_truediv (a b : Z) : result float :=
  match a, b with
  | _, Z0 => Raise ZeroDivisionError
  | Z0, _ => Ok (S754_zero (b <? 0))
  | _, _ =>
      match SFdiv prec emax
              (S754_finite (a <? 0) (Z.to_pos (Z.abs a)) 0)
              (S754_finite (b <? 0) (Z.to_pos (Z.abs b)) 0) with
      | S754_infinity _ => Raise OverflowError
      | x => Ok x
      end
  end.

Definition int_of_bool (b : bool) : Z := if b then 1 else 0.

(** [isinstance(v, (int, float))]; [bool] is a subclass of [int]. *)
Definition is_int_or_float (v : value) : bool :=
  match v with
  | VBool _ | VInt _ | VFloat _ => true
  | _ => false
  end.

(** [x + y] on numbers: integers add exactly, a float operand makes the
    other one a float first. *)
Definition py_add (x y : value) : result value :=
  match x, y with
  | VInt a, VInt b => Ok (VInt (a + b))
  | VInt a, VBool b => Ok (VInt (a + int_of_bool b))
  | VBool a, VInt b => Ok (VInt (int_of_bool a + b))
  | VBool a, VBool b => Ok (VInt (int_of_bool a + int_of_bool b))
  | VFloat a, VFloat b => Ok (VFloat (SFadd prec emax a b))
  | VFloat a, VInt b =>
      rbind (float_of_int b) (fun fb => Ok (VFloat (SFadd prec emax a fb)))
  | VFloat a, VBool b =>
      rbind (float_of_int (int_of_bool b))
        (fun fb => Ok (VFloat (SFadd prec emax a fb)))
  | VInt a, VFloat b =>
      rbind (float_of_int a) (fun fa => Ok (VFloat (SFadd prec emax fa b)))
  | VBool a, VFloat b =>
      rbind (float_of_int (int_of_bool a))
        (fun fa => Ok (VFloat (SFadd prec emax fa b)))
  | _, _ => Raise TypeError
  end.

(** [sum(l)]: from the integer 0, left to right.  (CPython 3.12 and later
    compensate the rounding errors of float partial sums; sums of integers
    are exact in every version.) *)
Fixpoint py_sum_from (acc : value) (l : list value) : result value :=
  match l with
  | [] => Ok acc
  | v :: r => rbind (py_add acc v) (fun acc' => py_sum_from acc' r)
  end.

Definition py_sum (l : list value) : result value := py_sum_from (VInt 0) l.

(** [x / n] for the integer [n]. *)
Definition py_truediv (x : value) (n : Z) : result float :=
  match x with
  | VInt a => int_truediv a n
  | VBool a => int_truediv (int_of_bool a) n
  | VFloat a =>
      rbind (float_of_int n) (fun fn =>
        if n =? 0 then Raise ZeroDivisionError
        else Ok (SFdiv prec emax a fn))
  | _ => Raise TypeError
  end.

(** ** [calcola_media] *)

(** [[v for v in voti if isinstance(v, (int, float))]] *)
Definition voti_validi (items : list value) : list value :=
  filter is_int_or_float items.

Definition calcola_media (voti : value) : result float :=
  rbind (py_iter voti) (fun items =>
    let validi := voti_validi items in
    match validi with
    | [] => Ok float_zero
    | _ =>
        rbind (py_sum validi) (fun s =>
          py_truediv s (Z.of_nat (List.length validi)))
    end).

(** ** UTF-8 *)

(** [text.encode('utf-8')]: [None] stands for [UnicodeEncodeError], raised
    for a surrogate code point. *)
Definition utf8_encode_char (c : codepoint) : option (list Z) :=
  if in_range 0 127 c then Some [c]
  else if in_range 128 2047 c then Some [192 + c / 64; 128 + c mod 64]
  else if in_range 2048 65535 c then
    if in_range 55296 57343 c then None
    else Some [224 + c / 4096; 128 + (c / 64) mod 64; 128 + c mod 64]
  else if in_range 65536 1114111 c then
    Some [240 + c / 262144; 128 + (c / 4096) mod 64;
          128 + (c / 64) mod 64; 128 + c mod 64]
  else None.

Fixpoint utf8_encode (s : pystr) : option (list Z) :=
  match s with
  | [] => Some []
  | c :: r =>
      match utf8_encode_char c, utf8_encode r with
      | Some b, Some bs => Some (b ++ bs)
      | _, _ => None
      end
  end.

Definition is_cont (b : Z) : bool := in_range 128 191 b.

(** The second byte of a three-byte form: no overlong form, no surrogate. *)
Definition second_ok3 (b0 b1 : Z) : bool :=
  if b0 =? 224 then in_range 160 191 b1
  else if b0 =? 237 then in_range 128 159 b1
  else is_cont b1.

(** The second byte of a four-byte form: no overlong form, at most
    U+10FFFF. *)
Definition second_ok4 (b0 b1 : Z) : bool :=
  if b0 =? 240 then in_range 144 191 b1
  else if b0 =? 244 then in_range 128 143 b1
  else is_cont b1.

Definition cons_opt {A} (a : A) (o : option (list A)) : option (list A) :=
  match o with
  | Some l => Some (a :: l)
  | None => None
  end.

(** [bytes.decode('utf-8')], strict: [None] stands for
    [UnicodeDecodeError]. *)
Fixpoint utf8_decode (bs : list Z) : option pystr :=
  match bs with
  | [] => Some []
  | b0 :: r0 =>
      if in_range 0 127 b0 then cons_opt b0 (utf8_decode r0)
      else
        match r0 with
        | [] => None
        | b1 :: r1 =>
            if in_range 194 223 b0 then
              if is_cont b1
              then cons_opt ((b0 - 192) * 64 + (b1 - 128)) (utf8_decode r1)
              else None
            else
              match r1 with
              | [] => None
              | b2 :: r2 =>
                  if in_range 224 239 b0 then
                    if second_ok3 b0 b1 && is_cont b2
                    then cons_opt ((b0 - 224) * 4096 + (b1 - 128) * 64
                                   + (b2 - 128)) (utf8_decode r2)
                    else None
                  else
                    match r2 with
                    | [] => None
                    | b3 :: r3 =>
                        if in_range 240 244 b0 && second_ok4 b0 b1
                           && is_cont b2 && is_cont b3
                        then cons_opt ((b0 - 240) * 262144
                                       + (b1 - 128) * 4096
                                       + (b2 - 128) * 64 + (b3 - 128))
                                      (utf8_decode r3)
                        else None
                    end
              end
        end
  end.

(** ** Decimal text of numbers *)

Fixpoint uint_chars (d : Decimal.uint) : pystr :=
  match d with
  | Decimal.Nil => []
  | Decimal.D0 r => 48 :: uint_chars r
  | Decimal.D1 r => 49 :: uint_chars r
  | Decimal.D2 r => 50 :: uint_chars r
  | Decimal.D3 r => 51 :: uint_chars r
  | Decimal.D4 r => 52 :: uint_chars r
  | Decimal.D5 r => 53 :: uint_chars r
  | Decimal.D6 r => 54 :: uint_chars r
  | Decimal.D7 r => 55 :: uint_chars r
  | Decimal.D8 r => 56 :: uint_chars r
  | Decimal.D9 r => 57 :: uint_chars r
  end.

(** [repr(n)] of an integer. *)
Definition int_repr (n : Z) : pystr :=
  match n with
  | Z0 => [48]
  | Zpos p => uint_chars (Pos.to_uint p)
  | Zneg p => 45 :: uint_chars (Pos.to_uint p)
  end.

Definition is_ascii_digit (c : codepoint) : bool := in_range 48 57 c.

(** The number a run of ASCII digits denotes, most significant first. *)
Definition digits_value (ds : pystr) : Z :=
  fold_left (fun acc c => 10 * acc + (c - 48)) ds 0.

(** [float(text)] for the decimal numeral of significand [m] (sign apart)
    and decimal exponent [e]: the nearest double, ties to even; a numeral
    too large in magnitude is an infinity. *)
Definition float_of_decimal (neg : bool) (m e : Z) : float :=
  match m with
  | Zpos p =>
      if 0 <=? e
      then binary_normalize prec emax
             ((if neg then Z.opp else id) (m * 10 ^ e)) 0 false
      else SFdiv prec emax (S754_finite neg p 0)
             (S754_finite false (Z.to_pos (10 ^ (- e))) 0)
  | _ => S754_zero neg
  end.

(** The shortest decimal numeral that reads back as the positive double
    [m * 2 ^ e], as [repr] chooses it: its digits without trailing zeros,
    and the position [decpt] of the decimal point (the value is
    [0.d1d2... * 10 ^ decpt]). *)
Definition ratio_floor (n d : Z) : Z := n / d.

(** [floor (log10 (n / d))] for positive [n], [d]. *)
Fixpoint log10_adjust (fuel : nat) (n d k : Z) : Z :=
  match fuel with
  | O => k
  | S f =>
      (* 10^k <= n/d < 10^(k+1) ? *)
      let below := if 0 <=? k then n <? d * 10 ^ k else n * 10 ^ (- k) <? d in
      let above := if 0 <=? k + 1 then d * 10 ^ (k + 1) <=? n
                   else d <=? n * 10 ^ (- (k + 1)) in
      if below then log10_adjust f n d (k - 1)
      else if above then log10_adjust f n d (k + 1)
      else k
  end.

Definition floor_log10 (n d : Z) : Z :=
  log10_adjust 8 n d (((Z.log2 n - Z.log2 d) * 30103) / 100000).

Fixpoint strip_trailing_zeros_rev (r : pystr) : pystr :=
  match r with
  | c :: r' => if c =? 48 then strip_trailing_zeros_rev r' else r
  | [] => []
  end.

Definition shortest_candidate (x : float) (n d k : Z) (p : Z)
  : option (pystr * Z) :=
  let q := k - p + 1 in
  (* y = (n/d) / 10^q = yn / yd *)
  let yn := if 0 <=? q then n else n * 10 ^ (- q) in
  let yd := if 0 <=? q then d * 10 ^ q else d in
  let lo := yn / yd in
  let hi := lo + 1 in
  let ok c := match x, float_of_decimal false c q with
              | S754_finite _ mx ex, S754_finite _ my ey =>
                  (Z.pos mx =? Z.pos my) && (ex =? ey)
              | _, _ => false
              end in
  let pick c :=
    let ds := int_repr c in
    Some (rev (strip_trailing_zeros_rev (rev ds)),
          Z.of_nat (List.length ds) + q) in
  match ok lo, ok hi with
  | true, true =>
      (* the nearer one; on a tie the even one *)
      match Z.compare (2 * (yn - lo * yd)) yd with
      | Lt => pick lo
      | Gt => pick hi
      | Eq => if Z.even lo then pick lo else pick hi
      end
  | true, false => pick lo
  | false, true => pick hi
  | false, false => None
  end.

Fixpoint shortest_search (fuel : nat) (x : float) (n d k p : Z)
  : pystr * Z :=
  match fuel with
  | O => ([48], 1)
  | S f =>
      match shortest_candidate x n d k p with
      | Some r => r
      | None => shortest_search f x n d k (p + 1)
      end
  end.

Definition shortest_digits (m : positive) (e : Z) : pystr * Z :=
  let n := if 0 <=? e then Z.pos m * 2 ^ e else Z.pos m in
  let d := if 0 <=? e then 1 else 2 ^ (- e) in
  shortest_search 17 (S754_finite false m e) n d (floor_log10 n d) 1.

(** At least two exponent digits, as [repr] prints them. *)
Definition exponent_text (e : Z) : pystr :=
  (if e <? 0 then [45] else [43])
  ++ (if Z.abs e <? 10 then [48] else []) ++ int_repr (Z.abs e).

(** [repr(x)] of a float. *)
Definition float_repr (x : float) : pystr :=
  match x with
  | S754_nan => lit "nan"
  | S754_infinity s => (if s then [45] else []) ++ lit "inf"
  | S754_zero s => (if s then [45] else []) ++ lit "0.0"
  | S754_finite s m e =>
      let '(ds, decpt) := shortest_digits m e in
      let nd := Z.of_nat (List.length ds) in
      (if s then [45] else []) ++
      (if (decpt <=? -4) || (16 <? decpt) then
         firstn 1 ds
         ++ (match skipn 1 ds with [] => [] | fr => 46 :: fr end)
         ++ [101] ++ exponent_text (decpt - 1)
       else if decpt <=? 0 then
         lit "0." ++ repeat 48 (Z.to_nat (- decpt)) ++ ds
       else if nd <=? decpt then
         ds ++ repeat 48 (Z.to_nat (decpt - nd)) ++ lit ".0"
       else
         firstn (Z.to_nat decpt) ds ++ [46] ++ skipn (Z.to_nat decpt) ds)
  end.

(** ** [json.dump(v, file, ensure_ascii=False, indent=2)] *)

Definition hex_digit (n : Z) : codepoint := if n <? 10 then 48 + n else 87 + n.

(** The escapes of [json.encoder.ESCAPE_DCT]: the quote, the backslash and
    the control characters; everything else is written as it is. *)
Definition escape_char (c : codepoint) : pystr :=
  if c =? 34 then [92; 34]
  else if c =? 92 then [92; 92]
  else if c =? 10 then [92; 110]
  else if c =? 13 then [92; 114]
  else if c =? 9 then [92; 116]
  else if c =? 8 then [92; 98]
  else if c =? 12 then [92; 102]
  else if in_range 0 31 c
  then [92; 117; 48; 48; hex_digit (c / 16); hex_digit (c mod 16)]
  else [c].

Definition encode_basestring (s : pystr) : pystr :=
  34 :: flat_map escape_char s ++ [34].

(** [float.__repr__], with the three names JSON text uses for the values
    that have no numeral. *)
Definition encode_float (x : float) : pystr :=
  match x with
  | S754_nan => lit "NaN"
  | S754_infinity false => lit "Infinity"
  | S754_infinity true => lit "-Infinity"
  | _ => float_repr x
  end.

Definition newline_indent (level : nat) : pystr :=
  10 :: repeat 32 (2 * level).

(** The text of [v] at nesting depth [level]: an empty container on one
    line, otherwise one item per line, two spaces deeper, items separated by
    a comma at the end of the line, the key and its value by [": "]. *)
Fixpoint json_encode (level : nat) (v : value) : pystr :=
  match v with
  | VNone => lit "null"
  | VBool true => lit "true"
  | VBool false => lit "false"
  | VInt n => int_repr n
  | VFloat x => encode_float x
  | VStr s => encode_basestring s
  | VList [] => lit "[]"
  | VList (x :: xs) =>
      [91] ++ newline_indent (S level) ++ json_encode (S level) x
      ++ (fix items (l : list value) : pystr :=
            match l with
            | [] => []
            | y :: r =>
                [44] ++ newline_indent (S level) ++ json_encode (S level) y
                ++ items r
            end) xs
      ++ newline_indent level ++ [93]
  | VDict [] => lit "{}"
  | VDict ((k, x) :: xs) =>
      [123] ++ newline_indent (S level) ++ encode_basestring k ++ [58; 32]
      ++ json_encode (S level) x
      ++ (fix items (l : list (pystr * value)) : pystr :=
            match l with
            | [] => []
            | (k', y) :: r =>
                [44] ++ newline_indent (S level) ++ encode_basestring k'
                ++ [58; 32] ++ json_encode (S level) y ++ items r
            end) xs
      ++ newline_indent level ++ [125]
  end.

Definition json_dumps (v : value) : pystr := json_encode 0 v.

(** ** [json.load(file)] *)

Definition is_json_ws (c : codepoint) : bool :=
  (c =? 32) || (c =? 9) || (c =? 10) || (c =? 13).

Definition skip_ws (s : pystr) : pystr := drop_while is_json_ws s.

Definition hex_value (c : codepoint) : option Z :=
  if in_range 48 57 c then Some (c - 48)
  else if in_range 97 102 c then Some (c - 87)
  else if in_range 65 70 c then Some (c - 55)
  else None.

Definition hex4_value (a b c d : codepoint) : option Z :=
  match hex_value a, hex_value b, hex_value c, hex_value d with
  | Some x, Some y, Some z, Some w => Some (((x * 16 + y) * 16 + z) * 16 + w)
  | _, _, _, _ => None
  end.

(** The character a one-letter escape stands for. *)
Definition unescape (e : codepoint) : option codepoint :=
  if e =? 34 then Some 34
  else if e =? 92 then Some 92
  else if e =? 47 then Some 47
  else if e =? 98 then Some 8
  else if e =? 102 then Some 12
  else if e =? 110 then Some 10
  else if e =? 114 then Some 13
  else if e =? 116 then Some 9
  else None.

Definition cons_char (c : codepoint) (o : option (pystr * pystr))
  : option (pystr * pystr) :=
  match o with
  | Some (t, r) => Some (c :: t, r)
  | None => None
  end.

(** [scanstring], strict, from the character after the opening quote: the
    string and the text after its closing quote.  A [\uXXXX] escape of a
    high surrogate directly followed by one of a low surrogate is one
    character; a surrogate escape on its own is kept as it is. *)
Fixpoint scanstring (s : pystr) : option (pystr * pystr) :=
  match s with
  | [] => None
  | c :: r =>
      if c =? 34 then Some ([], r)
      else if c =? 92 then
        match r with
        | [] => None
        | e :: r1 =>
            if e =? 117 then
              match r1 with
              | h1 :: h2 :: h3 :: h4 :: r2 =>
                  match hex4_value h1 h2 h3 h4 with
                  | None => None
                  | Some u =>
                      if in_range 55296 56319 u then
                        match r2 with
                        | b :: l :: g1 :: g2 :: g3 :: g4 :: r3 =>
                            if (b =? 92) && (l =? 117) then
                              match hex4_value g1 g2 g3 g4 with
                              | None => None
                              | Some u2 =>
                                  if in_range 56320 57343 u2
                                  then cons_char
                                         (65536 + (u - 55296) * 1024
                                          + (u2 - 56320))
                                         (scanstring r3)
                                  else cons_char u (scanstring r2)
                              end
                            else cons_char u (scanstring r2)
                        | _ => cons_char u (scanstring r2)
                        end
                      else cons_char u (scanstring r2)
                  end
              | _ => None
              end
            else
              match unescape e with
              | Some x => cons_char x (scanstring r1)
              | None => None
              end
        end
      else if c <=? 31 then None
      else cons_char c (scanstring r)
  end.

Fixpoint span_digits (s : pystr) : pystr * pystr :=
  match s with
  | c :: r =>
      if is_ascii_digit c
      then let (ds, r') := span_digits r in (c :: ds, r')
      else ([], s)
  | [] => ([], [])
  end.

(** The fraction of a numeral, if there is one: a point and one or more
    digits. *)
Definition match_frac (s : pystr) : option (pystr * pystr) :=
  match s with
  | c :: d :: r =>
      if (c =? 46) && is_ascii_digit d
      then Some (span_digits (d :: r))
      else None
  | _ => None
  end.

(** The exponent of a numeral, if there is one: the letter e in either
    case, an optional sign, one or more digits. *)
Definition match_exp (s : pystr) : option (Z * pystr) :=
  match s with
  | c :: r =>
      if (c =? 101) || (c =? 69) then
        let '(neg, r1) :=
          match r with
          | sg :: r' =>
              if sg =? 45 then (true, r')
              else if sg =? 43 then (false, r')
              else (false, r)
          | [] => (false, r)
          end in
        match span_digits r1 with
        | ([], _) => None
        | (ds, r2) =>
            Some ((if neg then Z.opp else id) (digits_value ds), r2)
        end
      else None
  | [] => None
  end.

(** [_match_number]: an optional minus sign, then a zero or a non-zero
    digit followed by digits, then an optional fraction and an optional
    exponent; a numeral with a fraction or an exponent is a float, any
    other an integer. *)
Definition match_number (s : pystr) : result (value * pystr) :=
  let '(neg, s1) :=
    match s with
    | c :: r => if c =? 45 then (true, r) else (false, s)
    | [] => (false, s)
    end in
  let intpart :=
    match s1 with
    | c :: r =>
        if in_range 49 57 c
        then let (ds, r') := span_digits r in Some (c :: ds, r')
        else if c =? 48 then Some ([c], r)
        else None
    | [] => None
    end in
  match intpart with
  | None => Raise JSONDecodeError
  | Some (ip, s2) =>
      let '(frac, s3) :=
        match match_frac s2 with
        | Some (fr, r) => (Some fr, r)
        | None => (None, s2)
        end in
      let '(ex, s4) :=
        match match_exp s3 with
        | Some (e, r) => (Some e, r)
        | None => (None, s3)
        end in
      match frac, ex with
      | None, None =>
          Ok (VInt ((if neg then Z.opp else id) (digits_value ip)), s4)
      | _, _ =>
          let fr := match frac with Some f => f | None => [] end in
          let e := match ex with Some e => e | None => 0 end in
          Ok (VFloat (float_of_decimal neg (digits_value (ip ++ fr))
                        (e - Z.of_nat (List.length fr))), s4)
      end
  end.

Fixpoint starts_with (p s : pystr) : option pystr :=
  match p, s with
  | [], _ => Some s
  | a :: p', b :: s' => if a =? b then starts_with p' s' else None
  | _ :: _, [] => None
  end.

Definition dict_of_pairs (kvs : list (pystr * value)) : list (pystr * value) :=
  fold_left (fun d kv => dict_set d (fst kv) (snd kv)) kvs [].

(** [scan_once] and the loops of [_parse_array] and [_parse_object].  The
    decoder recurses on nested containers; [fuel] bounds the recursion, and
    [json_loads] passes more fuel than the text has characters. *)
Fixpoint scan_once (fuel : nat) (s : pystr) {struct fuel}
  : result (value * pystr) :=
  match fuel with
  | O => Raise JSONDecodeError
  | S f =>
      match s with
      | [] => Raise JSONDecodeError
      | c :: r =>
          if c =? 34 then
            match scanstring r with
            | Some (t, r') => Ok (VStr t, r')
            | None => Raise JSONDecodeError
            end
          else if c =? 123 then
            match skip_ws r with
            | c' :: r' =>
                if c' =? 125 then Ok (VDict [], r')
                else
                  match parse_object_items f (c' :: r') with
                  | Ok (kvs, rest) => Ok (VDict (dict_of_pairs kvs), rest)
                  | Raise e => Raise e
                  end
            | [] => Raise JSONDecodeError
            end
          else if c =? 91 then
            match skip_ws r with
            | c' :: r' =>
                if c' =? 93 then Ok (VList [], r')
                else
                  match parse_array_items f (c' :: r') with
                  | Ok (vs, rest) => Ok (VList vs, rest)
                  | Raise e => Raise e
                  end
            | [] => Raise JSONDecodeError
            end
          else
            match starts_with (lit "null") s with
            | Some r' => Ok (VNone, r')
            | None =>
            match starts_with (lit "true") s with
            | Some r' => Ok (VBool true, r')
            | None =>
            match starts_with (lit "false") s with
            | Some r' => Ok (VBool false, r')
            | None =>
            match starts_with (lit "NaN") s with
            | Some r' => Ok (VFloat S754_nan, r')
            | None =>
            match starts_with (lit "Infinity") s with
            | Some r' => Ok (VFloat (S754_infinity false), r')
            | None =>
            match starts_with (lit "-Infinity") s with
            | Some r' => Ok (VFloat (S754_infinity true), r')
            | None => match_number s
            end end end end end end
      end
  end

with parse_array_items (fuel : nat) (s : pystr) {struct fuel}
  : result (list value * pystr) :=
  match fuel with
  | O => Raise JSONDecodeError
  | S f =>
      match scan_once f s with
      | Raise e => Raise e
      | Ok (v, s1) =>
          match skip_ws s1 with
          | c :: r =>
              if c =? 93 then Ok ([v], r)
              else if c =? 44 then
                match parse_array_items f (skip_ws r) with
                | Ok (vs, rest) => Ok (v :: vs, rest)
                | Raise e => Raise e
                end
              else Raise JSONDecodeError
          | [] => Raise JSONDecodeError
          end
      end
  end

with parse_object_items (fuel : nat) (s : pystr) {struct fuel}
  : result (list (pystr * value) * pystr) :=
  match fuel with
  | O => Raise JSONDecodeError
  | S f =>
      match s with
      | q :: r0 =>
          if q =? 34 then
            match scanstring r0 with
            | None => Raise JSONDecodeError
            | Some (k, s1) =>
                match skip_ws s1 with
                | c1 :: r1 =>
                    if c1 =? 58 then
                      match scan_once f (skip_ws r1) with
                      | Raise e => Raise e
                      | Ok (v, s2) =>
                          match skip_ws s2 with
                          | c2 :: r2 =>
                              if c2 =? 125 then Ok ([(k, v)], r2)
                              else if c2 =? 44 then
                                match parse_object_items f (skip_ws r2) with
                                | Ok (kvs, rest) => Ok ((k, v) :: kvs, rest)
                                | Raise e => Raise e
                                end
                              else Raise JSONDecodeError
                          | [] => Raise JSONDecodeError
                          end
                      end
                    else Raise JSONDecodeError
                | [] => Raise JSONDecodeError
                end
            end
          else Raise JSONDecodeError
      | [] => Raise JSONDecodeError
      end
  end.

(** [json.loads(text)]: a byte order mark is refused, whitespace around the
    one value is skipped, anything after it is an error. *)
Definition json_loads (text : pystr) : result value :=
  match text with
  | 65279 :: _ => Raise JSONDecodeError
  | _ =>
      match scan_once (S (List.length text)) (skip_ws text) with
      | Raise e => Raise e
      | Ok (v, rest) =>
          match skip_ws rest with
          | [] => Ok v
          | _ :: _ => Raise JSONDecodeError
          end
      end
  end.

(** ** The console and the store *)

(** What [input] asks. *)
Inductive prompt : Type :=
| PromptStudentId          (* "Student ID: " *)
| PromptFirstName          (* "First name: " *)
| PromptLastName           (* "Last name: " *)
| PromptGrades             (* "Enter grades separated by commas ..." *)
| PromptMatricola          (* "Inserisci il numero di matricola: " *)
| PromptNuovoVoto          (* "Inserisci il nuovo voto: " *)
| PromptMatricolaCancella  (* "Inserisci il numero di matricola dello
                              studente da cancellare: " *)
| PromptConferma (nome cognome : value)
                           (* "Sei sicuro di voler cancellare lo studente
                              {nome} {cognome}? (s/n): " *)
| PromptScelta.            (* "Scelta: " *)

(** What the program writes to the console: one constructor per [print]
    of the source, holding the values the text is formatted from.  The
    formatting itself (of which the two decimals of the average are part)
    is not modelled. *)
Inductive message : Type :=
| MsgPrompt (p : prompt)
| MsgErroreLettura         (* "Error in JSON file or file not found." *)
| MsgStudentList           (* "Student list:" *)
| MsgStudentLine (matricola nome cognome : value) (media : float)
                           (* "[{matricola}] {nome} {cognome} - Grade
                              average: {media:.2f}" *)
| MsgEmptyStudentId        (* "Student ID cannot be empty. Try again." *)
| MsgEmptyFirstName        (* "First name cannot be empty. Try again." *)
| MsgEmptyLastName         (* "Last name cannot be empty. Try again." *)
| MsgNoValidGrades         (* "No valid grades entered (must be between 18
                              and 30). Student not added." *)
| MsgStudentAdded (nome cognome : pystr)
                           (* "Student {nome} {cognome} successfully
                              added." *)
| MsgStudentNotFound (matricola : pystr)
                           (* "Errore: Nessuno studente trovato con
                              matricola {matricola_input}" *)
| MsgInvalidGrade          (* "Errore: Il voto deve essere un numero intero
                              tra 18 e 30." *)
| MsgGradeAdded (voto : Z) (nome cognome : value)
                           (* "Voto {voto} aggiunto con successo a {nome}
                              {cognome}." *)
| MsgEmptyRoster           (* "Nessuno studente presente nel registro." *)
| MsgCancelled             (* "Operazione annullata." *)
| MsgStudentRemoved (nome cognome : value)
                           (* "Studente {nome_completo} rimosso con
                              successo dal registro." *)
| MsgMenu                  (* "Cosa vuoi fare?" and the five choices *)
| MsgExit                  (* "Uscita dal programma." *)
| MsgInvalidChoice.        (* "Scelta non valida. Riprova." *)

(** The files by path (each a sequence of bytes), the lines the user is
    still to type, and what was printed so far, oldest first. *)
Record world : Type := {
  files : string -> option (list Z);
  stdin : list pystr;
  stdout : list message
}.

(** A computation reads and changes the world, and returns or raises.
    What the world is after an uncaught exception is not modelled: no
    function of the program catches an exception after it has changed
    anything. *)
Definition M (A : Type) : Type := world -> result (A * world).

Definition ret {A} (a : A) : M A := fun w => Ok (a, w).

Definition bind {A B} (m : M A) (k : A -> M B) : M B :=
  fun w =>
    match m w with
    | Ok (a, w') => k a w'
    | Raise e => Raise e
    end.

Definition lift {A} (r : result A) : M A :=
  fun w =>
    match r with
    | Ok a => Ok (a, w)
    | Raise e => Raise e
    end.

Notation "x <- m ;; k" := (bind m (fun x => k))
  (at level 61, m at next level, right associativity).
Notation "m ;;; k" := (bind m (fun _ => k))
  (at level 61, right associativity).

(** [try: body except (e1, e2, ...): handler] *)
Definition try_except {A} (body : M A) (caught : exn -> bool) (handler : M A)
  : M A :=
  fun w =>
    match body w with
    | Ok r => Ok r
    | Raise e => if caught e then handler w else Raise e
    end.

Definition print (m : message) : M unit :=
  fun w =>
    Ok (tt, {| files := files w; stdin := stdin w;
               stdout := stdout w ++ [m] |}).

(** [input(p)]: the next line, without its end of line. *)
Definition input (p : prompt) : M pystr :=
  fun w =>
    match stdin w with
    | [] => Raise EOFError
    | l :: r =>
        Ok (l, {| files := files w; stdin := r;
                  stdout := stdout w ++ [MsgPrompt p] |})
    end.

(** [open(path, encoding='utf-8')] and [file.read()] *)
Definition read_text (path : string) : M pystr :=
  fun w =>
    match files w path with
    | None => Raise FileNotFoundError
    | Some bs =>
        match utf8_decode bs with
        | Some text => Ok (text, w)
        | None => Raise UnicodeDecodeError
        end
    end.

Definition set_file (path : string) (bs : list Z)
    (fs : string -> option (list Z)) : string -> option (list Z) :=
  fun p => if String.eqb p path then Some bs else fs p.

(** [open(path, "w", encoding="utf-8")] and [file.write(text)]: the file
    is replaced as a whole. *)
Definition write_text (path : string) (text : pystr) : M unit :=
  fun w =>
    match utf8_encode text with
    | Some bs =>
        Ok (tt, {| files := set_file path bs (files w); stdin := stdin w;
                   stdout := stdout w |})
    | None => Raise UnicodeEncodeError
    end.

(** ** The program *)

Definition is_json_or_missing (e : exn) : bool :=
  match e with
  | JSONDecodeError | FileNotFoundError => true
  | _ => false
  end.

Definition leggi_studenti_da_file (percorso_file : string) : M value :=
  try_except
    (text <- read_text percorso_file ;; lift (json_loads text))
    is_json_or_missing
    (print MsgErroreLettura ;;; ret (VList [])).

(** The block that saves the roster, three times in the source:
    [with open(percorso_file, "w", encoding="utf-8") as file:
       json.dump(studenti, file, ensure_ascii=False, indent=2)] *)
Definition salva_studenti (percorso_file : string) (studenti : value)
  : M unit :=
  write_text percorso_file (json_dumps studenti).

Definition n_d : value := VStr (lit "N/D").

Fixpoint stampa_righe (items : list value) : M unit :=
  match items with
  | [] => ret tt
  | studente :: rest =>
      matricola <- lift (py_get studente (lit "matricola") n_d) ;;
      nome <- lift (py_get studente (lit "nome") n_d) ;;
      cognome <- lift (py_get studente (lit "cognome") n_d) ;;
      voti <- lift (py_get studente (lit "voti") (VList [])) ;;
      media <- lift (calcola_media voti) ;;
      print (MsgStudentLine matricola nome cognome media) ;;;
      stampa_righe rest
  end.

Definition stampa_studenti (studenti : value) : M unit :=
  print MsgStudentList ;;;
  items <- lift (py_iter studenti) ;;
  stampa_righe items.

Definition esegui_processo (percorso_file : string) : M unit :=
  studenti <- leggi_studenti_da_file percorso_file ;;
  stampa_studenti studenti.

(** [while True: x = input(p).strip(); if x: break; print(avviso)], on the
    lines still to be typed: the loop ends at the first line that is not
    blank, or with [EOFError] when the input ends. *)
Fixpoint leggi_non_vuoto (p : prompt) (avviso : message)
    (lines : list pystr) (out : list message)
  : result (pystr * (list pystr * list message)) :=
  match lines with
  | [] => Raise EOFError
  | l :: r =>
      match py_strip l with
      | [] => leggi_non_vuoto p avviso r (out ++ [MsgPrompt p; avviso])
      | x => Ok (x, (r, out ++ [MsgPrompt p]))
      end
  end.

Definition chiedi (p : prompt) (avviso : message) : M pystr :=
  fun w =>
    match leggi_non_vuoto p avviso (stdin w) (stdout w) with
    | Ok (x, (r, out)) =>
        Ok (x, {| files := files w; stdin := r; stdout := out |})
    | Raise e => Raise e
    end.

(** The list comprehension of [aggiungi_studente] on the pieces between
    commas: a piece counts when, stripped, it is all digits and its integer
    is in 18..30.  [int] is applied to every piece of digits, and its
    [ValueError] ends the comprehension. *)
Fixpoint voti_da_pezzi (pezzi : list pystr) : result (list Z) :=
  match pezzi with
  | [] => Ok []
  | v :: rest =>
      if py_isdigit (py_strip v) then
        match py_int (py_strip v) with
        | None => Raise ValueError
        | Some n =>
            if (18 <=? n) && (n <=? 30)
            then rbind (voti_da_pezzi rest) (fun l => Ok (n :: l))
            else voti_da_pezzi rest
        end
      else voti_da_pezzi rest
  end.

(** [try: voti = [...] except ValueError: voti = []] *)
Definition parse_grade_list (voti_input : pystr) : result (list Z) :=
  match voti_da_pezzi (py_split 44 voti_input) with
  | Raise ValueError => Ok []
  | r => r
  end.

(** [studenti.append(x)]: only a list has the method. *)
Definition py_append (l x : value) : result value :=
  match l with
  | VList items => Ok (VList (items ++ [x]))
  | _ => Raise AttributeError
  end.

Definition aggiungi_studente (percorso_file : string) : M unit :=
  matricola <- chiedi PromptStudentId MsgEmptyStudentId ;;
  nome <- chiedi PromptFirstName MsgEmptyFirstName ;;
  cognome <- chiedi PromptLastName MsgEmptyLastName ;;
  voti_input <- input PromptGrades ;;
  voti <- lift (parse_grade_list voti_input) ;;
  match voti with
  | [] => print MsgNoValidGrades
  | _ =>
      let nuovo_studente :=
        VDict [ (lit "matricola", VStr matricola); (lit "nome", VStr nome);
                (lit "cognome", VStr cognome);
                (lit "voti", VList (map VInt voti)) ] in
      studenti <- leggi_studenti_da_file percorso_file ;;
      studenti' <- lift (py_append studenti nuovo_studente) ;;
      salva_studenti percorso_file studenti' ;;;
      print (MsgStudentAdded nome cognome)
  end.

(** [next((s for s in items if s.get("matricola") == matricola), None)]
    and the [enumerate] loop of [cancella_studente]: the first match with
    its index.  Items after the first match are not looked at; an item
    before it that is not a dict raises. *)
Fixpoint cerca_studente (matricola : pystr) (items : list value) (i : nat)
  : result (option (nat * value)) :=
  match items with
  | [] => Ok None
  | s :: rest =>
      rbind (py_get s (lit "matricola") VNone) (fun m =>
        if py_eq_str m matricola then Ok (Some (i, s))
        else cerca_studente matricola rest (S i))
  end.

(** [try: voto = int(voto_input); if not 18 <= voto <= 30: raise ValueError
     except ValueError: ...]: [None] when the handler runs. *)
Definition parse_single_grade (voto_input : pystr) : option Z :=
  match py_int voto_input with
  | Some voto => if (18 <=? voto) && (voto <=? 30) then Some voto else None
  | None => None
  end.

(** [studente.setdefault("voti", []).append(voto)] *)
Definition aggiungi_a_voti (studente : value) (voto : Z) : result value :=
  match studente with
  | VDict d =>
      match dict_get d (lit "voti") with
      | None => Ok (VDict (d ++ [(lit "voti", VList [VInt voto])]))
      | Some (VList l) =>
          Ok (VDict (dict_set d (lit "voti") (VList (l ++ [VInt voto]))))
      | Some _ => Raise AttributeError
      end
  | _ => Raise AttributeError
  end.

Fixpoint replace_nth {A} (i : nat) (x : A) (l : list A) : list A :=
  match l, i with
  | [], _ => []
  | _ :: r, O => x :: r
  | y :: r, S j => y :: replace_nth j x r
  end.

Fixpoint remove_nth {A} (i : nat) (l : list A) : list A :=
  match l, i with
  | [], _ => []
  | _ :: r, O => r
  | y :: r, S j => y :: remove_nth j r
  end.

(** The record found is an element of the list [studenti]: changing it
    changes the list. *)
Definition aggiorna_elemento (studenti : value) (i : nat) (s : value)
  : value :=
  match studenti with
  | VList l => VList (replace_nth i s l)
  | other => other
  end.

Definition aggiungi_voto (percorso_file : string) : M unit :=
  studenti <- leggi_studenti_da_file percorso_file ;;
  riga <- input PromptMatricola ;;
  let matricola_input := py_strip riga in
  items <- lift (py_iter studenti) ;;
  trovato <- lift (cerca_studente matricola_input items 0) ;;
  match trovato with
  | None => print (MsgStudentNotFound matricola_input)
  | Some (i, studente_trovato) =>
      if negb (py_truthy studente_trovato)
      then print (MsgStudentNotFound matricola_input)
      else
        riga_voto <- input PromptNuovoVoto ;;
        match parse_single_grade (py_strip riga_voto) with
        | None => print MsgInvalidGrade
        | Some voto =>
            aggiornato <- lift (aggiungi_a_voti studente_trovato voto) ;;
            salva_studenti percorso_file
              (aggiorna_elemento studenti i aggiornato) ;;;
            nome <- lift (py_getitem aggiornato (lit "nome")) ;;
            cognome <- lift (py_getitem aggiornato (lit "cognome")) ;;
            print (MsgGradeAdded voto nome cognome)
        end
  end.

(** [studenti[i]] *)
Definition py_index (x : value) (i : nat) : result value :=
  match x with
  | VList l =>
      match nth_error l i with
      | Some v => Ok v
      | None => Raise IndexError
      end
  | VStr s =>
      match nth_error s i with
      | Some c => Ok (VStr [c])
      | None => Raise IndexError
      end
  | VDict _ => Raise KeyError
  | _ => Raise TypeError
  end.

(** [studenti.pop(i)], for the list left behind. *)
Definition py_pop (x : value) (i : nat) : result value :=
  match x with
  | VList l =>
      match nth_error l i with
      | Some _ => Ok (VList (remove_nth i l))
      | None => Raise IndexError
      end
  | VDict _ => Raise KeyError
  | _ => Raise AttributeError
  end.

Definition cancella_studente (percorso_file : string) : M unit :=
  studenti <- leggi_studenti_da_file percorso_file ;;
  if negb (py_truthy studenti) then print MsgEmptyRoster
  else
    riga <- input PromptMatricolaCancella ;;
    let matricola_input := py_strip riga in
    items <- lift (py_iter studenti) ;;
    trovato <- lift (cerca_studente matricola_input items 0) ;;
    match trovato with
    | None => print (MsgStudentNotFound matricola_input)
    | Some (studente_index, _) =>
        studente <- lift (py_index studenti studente_index) ;;
        nome <- lift (py_get studente (lit "nome") n_d) ;;
        cognome <- lift (py_get studente (lit "cognome") n_d) ;;
        risposta <- input (PromptConferma nome cognome) ;;
        let conferma := py_lower (py_strip risposta) in
        if negb (str_eqb conferma (lit "s")) then print MsgCancelled
        else
          rimasti <- lift (py_pop studenti studente_index) ;;
          salva_studenti percorso_file rimasti ;;;
          print (MsgStudentRemoved nome cognome)
    end.

(** The menu of the main block.  Every turn reads at least one line, so
    the loop is given one more turn than there are lines to read. *)
Fixpoint menu (turns : nat) (file_path : string) : M unit :=
  match turns with
  | O => fun _ => Raise EOFError
  | S n =>
      print MsgMenu ;;;
      riga <- input PromptScelta ;;
      let scelta := py_strip riga in
      if str_eqb scelta (lit "1") then
        esegui_processo file_path ;;; menu n file_path
      else if str_eqb scelta (lit "2") then
        aggiungi_studente file_path ;;; menu n file_path
      else if str_eqb scelta (lit "3") then
        aggiungi_voto file_path ;;; menu n file_path
      else if str_eqb scelta (lit "4") then
        cancella_studente file_path ;;; menu n file_path
      else if str_eqb scelta (lit "0") then print MsgExit
      else print MsgInvalidChoice ;;; menu n file_path
  end.

Definition programma (file_path : string) : M unit :=
  fun w => menu (S (List.length (stdin w))) file_path w.

(** ** Definitions the statements use *)


(** The sum of a list of integers. *)
Definition somma (ns : list Z) : Z := fold_right Z.add 0 ns.

(** The pieces of a grade line: what is between the commas, stripped. *)
Definition pezzi (voti_input : pystr) : list pystr :=
  map py_strip (py_split 44 voti_input).

Definition all_decimal (p : pystr) : bool := forallb is_decimal_char p.

(** The number a run of decimal digits (of any script) denotes. *)
Definition decimal_number (p : pystr) : Z :=
  fold_left
    (fun acc c => 10 * acc + match decimal_value c with Some d => d | None => 0 end)
    p 0.

(** A run of digits [int] reads: decimal digits only, and no more than
    4300 of them. *)
Definition leggibile (p : pystr) : bool :=
  all_decimal p && (Z.of_nat (List.length p) <=? 4300).

(** A piece that [isdigit] accepts and [int] refuses: all digits, but one
    of them not decimal, or more than 4300 of them. *)
Definition pezzo_illeggibile (p : pystr) : bool :=
  py_isdigit p && negb (leggibile p).

(** A piece that counts: decimal digits only, no more than 4300 of them,
    denoting a number in 18..30. *)
Definition pezzo_conforme (p : pystr) : bool :=
  py_isdigit p && leggibile p
  && (18 <=? decimal_number p) && (decimal_number p <=? 30).

Definition voti_conformi (ps : list pystr) : list Z :=
  map decimal_number (filter pezzo_conforme ps).

(** The first phase of [aggiungi_studente]: the three mandatory fields
    and the line of grades. *)
Definition dati_studente : M (pystr * pystr * pystr * pystr) :=
  matricola <- chiedi PromptStudentId MsgEmptyStudentId ;;
  nome <- chiedi PromptFirstName MsgEmptyFirstName ;;
  cognome <- chiedi PromptLastName MsgEmptyLastName ;;
  voti_input <- input PromptGrades ;;
  ret (matricola, nome, cognome, voti_input).

(** A record is a dict. *)
Definition is_record (v : value) : bool :=
  match v with
  | VDict _ => true
  | _ => false
  end.

(** The record has the given identifier: its ["matricola"] is that
    string. *)
Definition ha_matricola (matricola : pystr) (r : value) : bool :=
  match r with
  | VDict d =>
      match dict_get d (lit "matricola") with
      | Some m => py_eq_str m matricola
      | None => false
      end
  | _ => false
  end.

(** The field [k] of a record, or [default] when the record has none. *)
Definition campo (r : value) (k : pystr) (default : value) : value :=
  match r with
  | VDict d =>
      match dict_get d k with
      | Some v => v
      | None => default
      end
  | _ => default
  end.

(** The listing as a projection: the line of one record, and the lines of
    a roster. *)
Definition riga_studente (r : value) : result message :=
  match r with
  | VDict _ =>
      rbind (calcola_media (campo r (lit "voti") (VList []))) (fun media =>
        Ok (MsgStudentLine (campo r (lit "matricola") n_d)
              (campo r (lit "nome") n_d) (campo r (lit "cognome") n_d) media))
  | _ => Raise AttributeError
  end.

Fixpoint righe (rs : list value) : result (list message) :=
  match rs with
  | [] => Ok []
  | r :: rest =>
      rbind (riga_studente r) (fun m =>
        rbind (righe rest) (fun ms => Ok (m :: ms)))
  end.

(** A code point of Unicode text: up to U+10FFFF and not a surrogate. *)
Definition valid_char (c : codepoint) : bool :=
  in_range 0 55295 c || in_range 57344 1114111 c.

Definition testo_ok (s : pystr) : bool := forallb valid_char s.

Fixpoint keys_distinct (d : list (pystr * value)) : bool :=
  match d with
  | [] => true
  | (k, _) :: r =>
      negb (existsb (fun kv => str_eqb k (fst kv)) r) && keys_distinct r
  end.

(** A value as the program builds and stores it when no float is involved:
    its strings are Unicode text and the keys of each dict are distinct (as
    they are in every Python dict). *)
Fixpoint json_plain (v : value) : bool :=
  match v with
  | VNone | VBool _ | VInt _ => true
  | VFloat _ => false
  | VStr s => testo_ok s
  | VList l => forallb json_plain l
  | VDict d =>
      keys_distinct d
      && forallb (fun kv => testo_ok (fst kv)) d
      && (fix all (l : list (pystr * value)) : bool :=
            match l with
            | [] => true
            | (_, x) :: r => json_plain x && all r
            end) d
  end.

(** A value whose strings are all Unicode text. *)
Fixpoint testo_valido (v : value) : bool :=
  match v with
  | VStr s => testo_ok s
  | VList l => forallb testo_valido l
  | VDict d =>
      forallb (fun kv => testo_ok (fst kv)) d
      && (fix all (l : list (pystr * value)) : bool :=
            match l with
            | [] => true
            | (_, x) :: r => testo_valido x && all r
            end) d
  | _ => true
  end.

Definition is_int_value (v : value) : bool :=
  match v with
  | VInt _ => true
  | _ => false
  end.

Definition is_text_value (v : value) : bool :=
  match v with
  | VStr s => testo_ok s
  | _ => false
  end.

(** A field of a valid record: the three names are text, the grades a
    list of integers. *)
Definition campo_valido (kv : pystr * value) : bool :=
  let (k, v) := kv in
  if str_eqb k (lit "voti") then
    match v with
    | VList l => forallb is_int_value l
    | _ => false
    end
  else if str_eqb k (lit "matricola") || str_eqb k (lit "nome")
          || str_eqb k (lit "cognome")
  then is_text_value v
  else false.

(** A valid record: a dict of exactly the four fields, in any order. *)
Definition record_valido (r : value) : bool :=
  match r with
  | VDict d =>
      keys_distinct d && forallb campo_valido d
      && (Nat.eqb (List.length d) 4)
  | _ => false
  end.

(** The items after the first of a list, and of a dict, as [json_encode]
    writes them. *)
Fixpoint encode_items (level : nat) (l : list value) : pystr :=
  match l with
  | [] => []
  | y :: r =>
      [44] ++ newline_indent (S level) ++ json_encode (S level) y
      ++ encode_items level r
  end.

Fixpoint encode_pairs (level : nat) (l : list (pystr * value)) : pystr :=
  match l with
  | [] => []
  | (k, y) :: r =>
      [44] ++ newline_indent (S level) ++ encode_basestring k ++ [58; 32]
      ++ json_encode (S level) y ++ encode_pairs level r
  end.

(** The bytes [salva_studenti] writes for a roster. *)
Definition registro_di (studenti : value) : list Z :=
  match utf8_encode (json_dumps studenti) with
  | Some bs => bs
  | None => []
  end.

(** Records of the examples. *)
Definition studente (matricola nome cognome : string) (voti : list Z) : value :=
  VDict [ (lit "matricola", VStr (lit matricola)); (lit "nome", VStr (lit nome));
          (lit "cognome", VStr (lit cognome));
          (lit "voti", VList (map VInt voti)) ].

Definition ana : value := studente "S1" "Ana" "Li" [20; 22].
Definition bruno : value := studente "S2" "Bruno" "Re" [30].

(** Worlds of the examples: one store file or none, and the lines typed. *)
Definition un_file (path : string) (bs : list Z) : string -> option (list Z) :=
  fun p => if String.eqb p path then Some bs else None.

Definition nessun_file : string -> option (list Z) := fun _ => None.

Definition mondo (fs : string -> option (list Z)) (lines : list pystr) : world :=
  {| files := fs; stdin := lines; stdout := [] |}.

(** Where the text after a numeral lets the numeral end: at the end of
    the text, or before a character that cannot continue a number. *)
Definition number_end (rest : pystr) : bool :=
  match rest with
  | [] => true
  | c :: _ =>
      negb (is_ascii_digit c || (c =? 46) || (c =? 101) || (c =? 69))
  end.

(** What is to be shown of every value: its text, followed by anything a
    numeral cannot run into, reads back as the value and leaves what
    follows. *)
Definition reads_back (v : value) : Prop :=
  json_plain v = true ->
  forall level rest fuel,
    (List.length (json_encode level v) <= fuel)%nat ->
    number_end rest = true ->
    scan_once fuel (json_encode level v ++ rest) = Ok (v, rest).

(** Text of ASCII characters, and text of Unicode characters. *)
Definition all_ascii (s : pystr) : Prop := forall c, In c s -> 0 <= c <= 127.

Definition all_valid (s : pystr) : Prop := forall c, In c s -> valid_char c = true.

(** Induction on values, with the hypothesis for every item of a list and
    every value of a dict. *)
Section value_induction.
Variable P : value -> Prop.
Hypothesis H_none : P VNone.
Hypothesis H_bool : forall b, P (VBool b).
Hypothesis H_int : forall n, P (VInt n).
Hypothesis H_float : forall x, P (VFloat x).
Hypothesis H_str : forall s, P (VStr s).
Hypothesis H_list : forall l, Forall P l -> P (VList l).
Hypothesis H_dict : forall d, Forall (fun kv => P (snd kv)) d -> P (VDict d).

Fixpoint value_induction (v : value) : P v :=
  match v with
  | VNone => H_none
  | VBool b => H_bool b
  | VInt n => H_int n
  | VFloat x => H_float x
  | VStr s => H_str s
  | VList l =>
      H_list l
        ((fix all (l : list value) : Forall P l :=
            match l with
            | [] => Forall_nil P
            | x :: r => Forall_cons x (value_induction x) (all r)
            end) l)
  | VDict d =>
      H_dict d
        ((fix all (d : list (pystr * value))
            : Forall (fun kv => P (snd kv)) d :=
            match d with
            | [] => Forall_nil _
            | kv :: r =>
                Forall_cons kv (value_induction (snd kv)) (all r)
            end) d)
  end.
End value_induction.

(** ** Definitions the further properties use *)

(** A line that leaves nothing when stripped. *)
Definition riga_vuota (l : pystr) : bool :=
  match py_strip l with
  | [] => true
  | _ => false
  end.

(** What the loop of a mandatory field prints for the blank lines it
    passes over: the prompt and the warning, once per line. *)
Definition avvisi (p : prompt) (avviso : message) (blanks : list pystr)
  : list message :=
  flat_map (fun _ => [MsgPrompt p; avviso]) blanks.

(** The record [aggiungi_studente] builds from its four inputs. *)
Definition nuovo_studente (matricola nome cognome : pystr) (voti : list Z)
  : value :=
  VDict [ (lit "matricola", VStr matricola); (lit "nome", VStr nome);
          (lit "cognome", VStr cognome);
          (lit "voti", VList (map VInt voti)) ].

(** The grades of a record before a grade is added: the list under
    ["voti"], or no grade when the record has no such key. *)
Definition voti_di (d : list (pystr * value)) : option (list value) :=
  match dict_get d (lit "voti") with
  | None => Some []
  | Some (VList l) => Some l
  | Some _ => None
  end.

(** A value that cannot make the average overflow: not a float, and not
    an integer above [2 ** 1022] in magnitude. *)
Definition intero_limitato (v : value) : bool :=
  match v with
  | VInt n => Z.abs n <=? 2 ^ 1022
  | VFloat _ => false
  | _ => true
  end.

(** A record the listing can print: a dict whose ["voti"], when it has
    any, can be iterated and cannot make the average overflow. *)
Definition record_elencabile (r : value) : bool :=
  match r with
  | VDict d =>
      match dict_get d (lit "voti") with
      | None => true
      | Some (VList l) => forallb intero_limitato l
      | Some (VStr _) | Some (VDict _) => true
      | Some _ => false
      end
  | _ => false
  end.

(** The line of the listing for a record and its average. *)
Definition riga_con_media (rm : value * float) : message :=
  MsgStudentLine (campo (fst rm) (lit "matricola") n_d)
    (campo (fst rm) (lit "nome") n_d) (campo (fst rm) (lit "cognome") n_d)
    (snd rm).

(** What one run may change of the world: no file other than the store,
    nothing of what was printed already, and of the input only its
    beginning, which it reads. *)
Definition passo (path : string) (w w' : world) : Prop :=
  (forall p, p <> path -> files w' p = files w p)
  /\ (exists out, stdout w' = stdout w ++ out)
  /\ (exists used, stdin w = used ++ stdin w').

Definition mantiene {A} (path : string) (m : M A) : Prop :=
  forall w a w', m w = Ok (a, w') -> passo path w w'.

(** A grade the program accepts: an integer in 18..30. *)
Definition voto_ammesso (v : value) : bool :=
  match v with
  | VInt n => (18 <=? n) && (n <=? 30)
  | _ => false
  end.

(** A mandatory field as the program stores it: Unicode text that is not
    empty and has no whitespace around it. *)
Definition campo_compilato (s : pystr) : bool :=
  testo_ok s && str_eqb (py_strip s) s && negb (riga_vuota s).

(** A record as the program writes it: the identifier, the first name and
    the last name, all filled in, and at least one grade, all grades
    accepted ones; the four keys in the order in which [aggiungi_studente]
    writes them. *)
Definition record_del_programma (r : value) : bool :=
  match r with
  | VDict [(k1, VStr m); (k2, VStr n); (k3, VStr c); (k4, VList voti)] =>
      str_eqb k1 (lit "matricola") && str_eqb k2 (lit "nome")
      && str_eqb k3 (lit "cognome") && str_eqb k4 (lit "voti")
      && campo_compilato m && campo_compilato n && campo_compilato c
      && forallb voto_ammesso voti
      && match voti with [] => false | _ => true end
  | _ => false
  end.

(** The store is in order: there is no file yet, or the file holds JSON
    text for a list of such records. *)
Definition registro_in_ordine (path : string) (w : world) : bool :=
  match files w path with
  | None => true
  | Some bs =>
      match utf8_decode bs with
      | Some text =>
          match json_loads text with
          | Ok (VList roster) => forallb record_del_programma roster
          | _ => false
          end
      | None => false
      end
  end.

(** An operation is safe when, on a store in order and lines of Unicode
    text, it ends with the store in order, or with the end of the input
    and in no other way. *)
Definition sicuro (path : string) (m : M unit) : Prop :=
  forall w,
    registro_in_ordine path w = true ->
    forallb testo_ok (stdin w) = true ->
    match m w with
    | Ok (_, w') => registro_in_ordine path w' = true
    | Raise e => e = EOFError
    end.

(** A line that is none of the five choices of the menu. *)
Definition scelta_ignota (riga : pystr) : bool :=
  negb (existsb (str_eqb (py_strip riga))
          [lit "1"; lit "2"; lit "3"; lit "4"; lit "0"]).

(** What the menu prints for the lines that are no choice: the menu, the
    prompt and the complaint, once per line. *)
Definition rifiuti (junk : list pystr) : list message :=
  flat_map (fun _ => [MsgMenu; MsgPrompt PromptScelta; MsgInvalidChoice])
    junk.

(** ** The path of the store *)

(** [os.path] on POSIX: the separator is the slash. *)
Definition is_sep (c : codepoint) : bool := c =? 47.

(** [p[:p.rfind('/') + 1]]: the path up to its last slash, the slash
    included; empty when there is none. *)
Definition path_head (p : pystr) : pystr :=
  rev (drop_while (fun c => negb (is_sep c)) (rev p)).

(** [head.rstrip('/')] *)
Definition rstrip_sep (head : pystr) : pystr :=
  rev (drop_while is_sep (rev head)).

(** [os.path.dirname(p)]: the head, without its trailing slashes unless it
    consists of slashes only. *)
Definition dirname (p : pystr) : pystr :=
  let head := path_head p in
  match head with
  | [] => head
  | _ => if forallb is_sep head then head else rstrip_sep head
  end.

Definition starts_with_sep (b : pystr) : bool :=
  match b with
  | c :: _ => is_sep c
  | [] => false
  end.

Definition ends_with_sep (a : pystr) : bool := starts_with_sep (rev a).

(** [os.path.join(a, b)] *)
Definition path_join (a b : pystr) : pystr :=
  if starts_with_sep b then b
  else if match a with [] => true | _ => ends_with_sep a end then a ++ b
  else a ++ [47] ++ b.

(** [main_dir = os.path.dirname(__file__)] and
    [file_path = os.path.join(main_dir, 'registro.txt')], for the path
    [file] of the script. *)
Definition main_dir (file : pystr) : pystr := dirname file.

Definition file_path (file : pystr) : pystr :=
  path_join (main_dir file) (lit "registro.txt").

(** * Properties *)

(** ** The average *)

Lemma voti_validi_idempotent (items : list value) :
  voti_validi (voti_validi items) = voti_validi items.
Proof.
  unfold voti_validi. induction items as [|v r IH]; simpl; auto.
  destruct (is_int_or_float v) eqn:E; simpl; rewrite ?E, IH; reflexivity.
Qed.

Lemma voti_validi_all (items : list value) :
  forallb is_int_or_float (voti_validi items) = true.
Proof.
  unfold voti_validi. induction items as [|v r IH]; simpl; auto.
  destruct (is_int_or_float v) eqn:E; simpl; rewrite ?E; auto.
Qed.

(** Non-numeric elements do not count: the average of a list is the
    average of its numeric elements. *)
Lemma calcola_media_drops_non_numeric (items : list value) :
  calcola_media (VList items) = calcola_media (VList (voti_validi items)).
Proof.
  unfold calcola_media; simpl. rewrite voti_validi_idempotent. reflexivity.
Qed.






(** Integers add exactly. *)
Lemma py_sum_from_ints (ns : list Z) (acc : Z) :
  py_sum_from (VInt acc) (map VInt ns) = Ok (VInt (acc + somma ns)).
Proof.
  revert acc. induction ns as [|n r IH]; simpl; intros acc.
  - f_equal. f_equal. lia.
  - rewrite IH. f_equal. f_equal. lia.
Qed.

(** On a list of integers the average is the correctly rounded quotient of
    their exact sum by their number. *)
Lemma calcola_media_ints (n : Z) (ns : list Z) :
  calcola_media (VList (map VInt (n :: ns)))
  = int_truediv (somma (n :: ns)) (Z.of_nat (List.length (n :: ns))).
Proof.
  unfold calcola_media, voti_validi. cbn [py_iter rbind].
  assert (F : forall l, filter is_int_or_float (map VInt l) = map VInt l).
  { induction l as [|x l IH]; simpl; congruence. }
  rewrite F. cbn [map]. unfold py_sum. rewrite <- (map_cons VInt).
  rewrite py_sum_from_ints. cbn [rbind py_truediv].
  rewrite length_map. reflexivity.
Qed.

(** *** No overflow below [2 ** 1023]

    The rounding of [SpecFloat] yields an infinity only for a magnitude of
    [2 ** 1024] or more (after rounding); the lemmas below bound the
    mantissa and the exponent through the shifts of [shr_fexp]. *)

Lemma digits2_size (p : positive) : digits2_pos p = Pos.size p.
Proof. induction p; simpl; congruence. Qed.

Lemma Zdigits2_bounds (p : positive) :
  2 ^ (Zdigits2 (Z.pos p) - 1) <= Z.pos p < 2 ^ Zdigits2 (Z.pos p).
Proof.
  cbn [Zdigits2]. rewrite digits2_size.
  pose proof (Pos.size_gt p) as G. pose proof (Pos.size_le p) as L.
  apply Pos2Z.pos_lt_pos in G. apply Pos2Z.pos_le_pos in L.
  rewrite Pos2Z.inj_pow in G, L.
  split; [|exact G].
  replace (Z.pos (Pos.size p)) with (Z.succ (Z.pos (Pos.size p) - 1)) in L by lia.
  rewrite Z.pow_succ_r in L by lia. lia.
Qed.

Lemma Zdigits2_le (m k : Z) : 0 <= m < 2 ^ k -> 0 <= k -> Zdigits2 m <= k.
Proof.
  intros [H0 H] K. destruct m as [|p|p]; [simpl; lia| |lia].
  pose proof (Zdigits2_bounds p) as [B _].
  assert (2 ^ (Zdigits2 (Z.pos p) - 1) < 2 ^ k) by lia.
  apply Z.pow_lt_mono_r_iff in H1; lia.
Qed.

Lemma Zdigits2_nonneg (m : Z) : 0 <= Zdigits2 m.
Proof. destruct m; simpl; lia. Qed.

Lemma Zdigits2_lt (m : Z) : 0 <= m -> m < 2 ^ Zdigits2 m.
Proof.
  intros H. destruct m as [|p|p]; [reflexivity| |lia].
  apply Zdigits2_bounds.
Qed.

Lemma shr_1_m (mrs : shr_record) :
  0 <= shr_m mrs -> 0 <= shr_m (shr_1 mrs) /\ 2 * shr_m (shr_1 mrs) <= shr_m mrs.
Proof.
  destruct mrs as [m r s]. simpl.
  destruct m as [|p|p]; simpl; try lia; destruct p; simpl; lia.
Qed.

Lemma iter_shr_1_m (p : positive) (mrs : shr_record) :
  0 <= shr_m mrs ->
  0 <= shr_m (iter_pos shr_1 p mrs)
  /\ 2 ^ Z.pos p * shr_m (iter_pos shr_1 p mrs) <= shr_m mrs.
Proof.
  revert mrs. induction p as [p IH|p IH|]; intros mrs H; simpl iter_pos.
  - destruct (shr_1_m mrs H) as [A1 A2].
    destruct (IH _ A1) as [B1 B2]. destruct (IH _ B1) as [C1 C2].
    split; [exact C1|].
    replace (Z.pos p~1) with (Z.pos p + Z.pos p + 1) by lia.
    rewrite !Z.pow_add_r, Z.pow_1_r by lia.
    assert (0 < 2 ^ Z.pos p) by (apply Z.pow_pos_nonneg; lia). nia.
  - destruct (IH _ H) as [B1 B2]. destruct (IH _ B1) as [C1 C2].
    split; [exact C1|].
    replace (Z.pos p~0) with (Z.pos p + Z.pos p) by lia.
    rewrite !Z.pow_add_r by lia.
    assert (0 < 2 ^ Z.pos p) by (apply Z.pow_pos_nonneg; lia). nia.
  - destruct (shr_1_m mrs H) as [A1 A2]. split; [exact A1|].
    change (2 ^ 1) with 2. exact A2.
Qed.

Lemma shr_record_of_loc_m (m : Z) (l : location) :
  shr_m (shr_record_of_loc m l) = m.
Proof. destruct l as [|[]]; reflexivity. Qed.

Lemma fexp_eq (e : Z) : fexp prec emax e = Z.max (e - 53) (-1074).
Proof. reflexivity. Qed.

(** After [shr_fexp] the mantissa has at most 53 bits, and the exponent is
    the larger of the old one and the one the format asks for. *)
Lemma shr_fexp_bound (m e : Z) (l : location) :
  0 <= m ->
  let '(mrs, e') := shr_fexp prec emax m e l in
  0 <= shr_m mrs < 2 ^ 53
  /\ e' = Z.max e (fexp prec emax (Zdigits2 m + e)).
Proof.
  intros H. unfold shr_fexp, shr.
  pose proof (Zdigits2_lt m H) as D. pose proof (Zdigits2_nonneg m) as D0.
  rewrite fexp_eq.
  destruct (Z.max (Zdigits2 m + e - 53) (-1074) - e) as [|p|p] eqn:E.
  - rewrite shr_record_of_loc_m. split; [|lia]. split; [lia|].
    eapply Z.lt_le_trans; [exact D|]. apply Z.pow_le_mono_r; lia.
  - pose proof (iter_shr_1_m p (shr_record_of_loc m l)) as I.
    rewrite shr_record_of_loc_m in I. destruct (I H) as [I1 I2].
    split; [|lia]. split; [exact I1|].
    set (x := shr_m (iter_pos shr_1 p (shr_record_of_loc m l))) in *.
    destruct (Z_lt_le_dec x (2 ^ 53)) as [|G]; [assumption|exfalso].
    assert (P : 2 ^ Z.pos p * 2 ^ 53 <= 2 ^ Z.pos p * x).
    { apply Z.mul_le_mono_nonneg_l; [apply Z.pow_nonneg; lia|exact G]. }
    rewrite <- Z.pow_add_r in P by lia.
    assert (Q : 2 ^ Zdigits2 m <= 2 ^ (Z.pos p + 53))
      by (apply Z.pow_le_mono_r; lia).
    lia.
  - rewrite shr_record_of_loc_m. split; [|lia]. split; [lia|].
    eapply Z.lt_le_trans; [exact D|]. apply Z.pow_le_mono_r; lia.
Qed.

Lemma round_nearest_even_bound (m : Z) (l : location) :
  m <= round_nearest_even m l <= m + 1.
Proof.
  unfold round_nearest_even. destruct l as [|[]]; try lia.
  destruct (Z.even m); lia.
Qed.

(** Rounding does not overflow when the number is below [2 ^ 1023]. *)
Lemma binary_round_aux_finite (s : bool) (m e : Z) (l : location) :
  0 <= m -> e <= 970 -> Zdigits2 m + e <= 1023 ->
  forall s', binary_round_aux prec emax s m e l <> S754_infinity s'.
Proof.
  intros H E D s'. unfold binary_round_aux.
  pose proof (shr_fexp_bound m e l H) as B1.
  destruct (shr_fexp prec emax m e l) as [mrs' e'].
  destruct B1 as [M1 E1].
  set (m2 := round_nearest_even (shr_m mrs') (loc_of_shr_record mrs')).
  pose proof (round_nearest_even_bound (shr_m mrs') (loc_of_shr_record mrs')) as R.
  fold m2 in R.
  assert (H2 : 0 <= m2) by lia.
  pose proof (shr_fexp_bound m2 e' loc_Exact H2) as B2.
  destruct (shr_fexp prec emax m2 e' loc_Exact) as [mrs'' e''].
  destruct B2 as [M2 E2].
  assert (D2 : Zdigits2 m2 <= 54).
  { apply Zdigits2_le; [|lia]. change (2 ^ 54) with (2 * 2 ^ 53). lia. }
  rewrite fexp_eq in E1, E2.
  destruct (shr_m mrs''); try discriminate.
  assert (L : (e'' <=? emax - prec) = true).
  { apply Z.leb_le. unfold emax, prec. lia. }
  rewrite L. discriminate.
Qed.

Lemma pos_iter_xO (m d : positive) :
  Z.pos (Pos.iter xO m d) = Z.pos m * 2 ^ Z.pos d.
Proof.
  induction d as [|d IH] using Pos.peano_ind.
  - simpl. lia.
  - rewrite Pos.iter_succ, Pos2Z.inj_succ, Z.pow_succ_r by lia.
    change (Z.pos (Pos.iter xO m d)~0) with (2 * Z.pos (Pos.iter xO m d)).
    rewrite IH. lia.
Qed.

(** [float(n)] returns when [|n| < 2 ** 1023]. *)
Lemma float_of_int_returns (n : Z) :
  Z.abs n < 2 ^ 1023 -> exists x, float_of_int n = Ok x.
Proof.
  intros B. unfold float_of_int.
  assert (F : forall s', binary_normalize prec emax n 0 false <> S754_infinity s').
  { unfold binary_normalize.
    assert (R : forall s m, Z.pos m < 2 ^ 1023 ->
                forall s', binary_round prec emax s m 0 <> S754_infinity s').
    { intros s m Hm s'. unfold binary_round, shl_align.
      pose proof (Zdigits2_le (Z.pos m) 1023 ltac:(lia) ltac:(lia)) as D.
      pose proof (Zdigits2_bounds m) as [_ U].
      cbn [Zdigits2] in D, U. rewrite fexp_eq.
      replace (Z.pos (digits2_pos m) + 0) with (Z.pos (digits2_pos m)) by lia.
      destruct (Z.max (Z.pos (digits2_pos m) - 53) (-1074) - 0) as [|p|p] eqn:E.
      - apply binary_round_aux_finite; cbn [Zdigits2]; lia.
      - apply binary_round_aux_finite; cbn [Zdigits2]; lia.
      - apply binary_round_aux_finite; try lia.
        assert (Z.pos p = - Z.max (Z.pos (digits2_pos m) - 53) (-1074)) by lia.
        assert (Zdigits2 (Z.pos (Pos.iter xO m p))
                <= Z.pos (digits2_pos m) + Z.pos p).
        { apply Zdigits2_le; [|lia]. rewrite pos_iter_xO.
          rewrite Z.pow_add_r by lia.
          assert (0 < 2 ^ Z.pos p) by (apply Z.pow_pos_nonneg; lia). nia. }
        lia. }
    destruct n as [|m|m]; [discriminate| |]; apply R; lia. }
  destruct (binary_normalize prec emax n 0 false); eauto.
  exfalso. eapply F. reflexivity.
Qed.

Lemma SFdiv_int_finite (s1 s2 : bool) (pa pb : positive) :
  Z.pos pa < 2 ^ 1023 ->
  forall s', SFdiv prec emax (S754_finite s1 pa 0) (S754_finite s2 pb 0)
             <> S754_infinity s'.
Proof.
  intros B s'. unfold SFdiv, SFdiv_core_binary.
  pose proof (Zdigits2_le (Z.pos pa) 1023 ltac:(lia) ltac:(lia)) as D1.
  pose proof (Zdigits2_lt (Z.pos pa) ltac:(lia)) as U1.
  pose proof (Zdigits2_nonneg (Z.pos pb)) as D2.
  pose proof (Zdigits2_nonneg (Z.pos pa)) as D0.
  rewrite fexp_eq.
  remember (Zdigits2 (Z.pos pa)) as d1 eqn:Hd1.
  remember (Zdigits2 (Z.pos pb)) as d2 eqn:Hd2.
  remember (Z.min (Z.max (d1 + 0 - (d2 + 0) - 53) (-1074)) (0 - 0)) as e' eqn:He.
  assert (E' : e' <= 0) by lia.
  remember (match 0 - 0 - e' with
            | 0 => Z.pos pa
            | Z.pos _ => Z.shiftl (Z.pos pa) (0 - 0 - e')
            | Z.neg _ => 0
            end) as m' eqn:Hm.
  assert (M' : 0 <= m' < 2 ^ (d1 - e')).
  { subst m'. destruct (0 - 0 - e') as [|p|p] eqn:E; try lia.
    - replace (d1 - e') with d1 by lia. lia.
    - rewrite Z.shiftl_mul_pow2 by lia.
      replace (d1 - e') with (d1 + Z.pos p) by lia.
      rewrite Z.pow_add_r by lia.
      assert (0 < 2 ^ Z.pos p) by (apply Z.pow_pos_nonneg; lia). nia. }
  pose proof (Z_div_mod m' (Z.pos pb) ltac:(lia)) as DM.
  destruct (Z.div_eucl m' (Z.pos pb)) as [q r].
  destruct DM as [DM1 DM2].
  assert (Q : 0 <= q <= m') by nia.
  apply binary_round_aux_finite; try lia.
  assert (Zdigits2 q <= d1 - e') by (apply Zdigits2_le; lia). lia.
Qed.

(** [a / b] on integers returns when [|a| < 2 ** 1023] and [b] is not
    zero. *)
Lemma int_truediv_returns (a b : Z) :
  Z.abs a < 2 ^ 1023 -> b <> 0 -> exists x, int_truediv a b = Ok x.
Proof.
  intros B Hb. unfold int_truediv.
  destruct a as [|pa|pa]; [destruct b; [congruence|eauto|eauto]| |].
  all: destruct b as [|pb|pb]; [congruence| |].
  all: cbn [Z.abs Z.to_pos].
  all: match goal with
       | |- context [SFdiv prec emax (S754_finite ?s1 ?m1 0) (S754_finite ?s2 ?m2 0)] =>
           pose proof (SFdiv_int_finite s1 s2 m1 m2 ltac:(simpl in B; lia)) as F;
           destruct (SFdiv prec emax (S754_finite s1 m1 0) (S754_finite s2 m2 0));
             eauto; exfalso; eapply F; reflexivity
       end.
Qed.

(** On a list of integers whose sum is below [2 ** 1023] in magnitude the
    average is returned: nothing overflows. *)
Lemma calcola_media_ints_returns (n : Z) (ns : list Z) :
  Z.abs (somma (n :: ns)) < 2 ^ 1023 ->
  exists m, calcola_media (VList (map VInt (n :: ns))) = Ok m.
Proof.
  intros B. rewrite calcola_media_ints.
  apply int_truediv_returns; [exact B|].
  simpl List.length. lia.
Qed.

(** The scenario of the specification: the grades 20, 22, 25 average to
    the double nearest to 67/3, which prints as 22.333333333333332. *)
Example calcola_media_scenario :
  calcola_media (VList [VInt 20; VInt 22; VInt 25])
  = Ok (S754_finite false 6286274479871317 (-48))
  /\ float_repr (S754_finite false 6286274479871317 (-48))
     = lit "22.333333333333332".
Proof. split; vm_compute; reflexivity. Qed.



(** A boolean is an instance of [int]: it counts as 0 or 1. *)
Example calcola_media_bool :
  calcola_media (VList [VBool true; VInt 30])
  = Ok (S754_finite false 8725724278030336 (-49)).
Proof. vm_compute. reflexivity. Qed.

(** ** Characters *)

Lemma in_range_spec (lo hi c : Z) : in_range lo hi c = true <-> lo <= c <= hi.
Proof. unfold in_range. rewrite andb_true_iff, !Z.leb_le. tauto. Qed.

Ltac bool_to_prop :=
  repeat match goal with
    | H : _ && _ = true |- _ => apply andb_true_iff in H; destruct H
    | H : _ || _ = true |- _ => apply orb_true_iff in H
    | H : in_range _ _ _ = true |- _ => apply in_range_spec in H
    | H : (_ =? _) = true |- _ => apply Z.eqb_eq in H
    | H : (_ <=? _) = true |- _ => apply Z.leb_le in H
    | H : (_ <? _) = true |- _ => apply Z.ltb_lt in H
    | H : (_ =? _) = false |- _ => apply Z.eqb_neq in H
    | H : (_ <=? _) = false |- _ => apply Z.leb_gt in H
    | H : (_ <? _) = false |- _ => apply Z.ltb_ge in H
    | H : negb _ = true |- _ => apply negb_true_iff in H
    end.

Ltac bool_cases :=
  bool_to_prop;
  repeat (match goal with H : _ \/ _ |- _ => destruct H end; bool_to_prop).

Lemma decimal_value_range (c d : Z) :
  decimal_value c = Some d ->
  0 <= d <= 9 /\ In (c - d) decimal_starts.
Proof.
  unfold decimal_value.
  destruct (find _ decimal_starts) as [s|] eqn:F; [|discriminate].
  intros [= <-]. apply find_some in F as [Hin Hr].
  apply in_range_spec in Hr. split; [lia|].
  replace (c - (c - s)) with s by lia. exact Hin.
Qed.

(** No digit is whitespace, a sign or an underscore. *)
Lemma digit_char_plain (c : Z) :
  is_digit_char c = true ->
  py_isspace c = false /\ c <> 43 /\ c <> 45 /\ c <> 95.
Proof.
  intros H.
  assert (R : 48 <= c <= 57 \/ 178 <= c <= 185 \/ 1632 <= c <= 4977
              \/ 6112 <= c <= 7257 \/ 8304 <= c <= 8329
              \/ 9312 <= c <= 10130 \/ 42528 <= c).
  { unfold is_digit_char in H. apply orb_true_iff in H as [H|H].
    - unfold is_decimal_char in H.
      destruct (decimal_value c) as [d|] eqn:D; [|discriminate].
      apply decimal_value_range in D as [Hd Hin].
      unfold decimal_starts in Hin. simpl in Hin.
      repeat (destruct Hin as [Hin|Hin]; [lia|]). contradiction.
    - apply existsb_exists in H as [[lo hi] [Hin Hr]].
      apply in_range_spec in Hr. simpl in Hr.
      unfold digit_only_ranges in Hin. simpl in Hin.
      repeat (destruct Hin as [Hin|Hin]; [inversion Hin; subst; lia|]).
      contradiction. }
  split; [|lia].
  apply not_true_is_false. intros S. unfold py_isspace in S.
  clear H. bool_cases; lia.
Qed.

(** ** Reading grades *)

Lemma drop_while_head (f : codepoint -> bool) (s : pystr) :
  match s with c :: _ => f c = false | [] => True end ->
  drop_while f s = s.
Proof. destruct s as [|c r]; simpl; [reflexivity|]. intros ->. reflexivity. Qed.

Lemma strip_with_none (f : codepoint -> bool) (s : pystr) :
  forallb (fun c => negb (f c)) s = true -> strip_with f s = s.
Proof.
  intros H. unfold strip_with.
  assert (A : forall t, forallb (fun c => negb (f c)) t = true ->
                        drop_while f t = t).
  { intros t Ht. apply drop_while_head. destruct t as [|c r]; [exact I|].
    simpl in Ht. apply andb_true_iff in Ht as [Hc _].
    now apply negb_true_iff in Hc. }
  rewrite (A s H). rewrite A.
  - apply rev_involutive.
  - apply forallb_forall. intros c Hc. apply in_rev in Hc.
    rewrite forallb_forall in H. auto.
Qed.

Lemma int_digits_of_digits (p : pystr) :
  forallb is_digit_char p = true ->
  forall acc b,
    int_digits p acc b
    = if all_decimal p
      then match p with
           | [] => if b then Some acc else None
           | _ =>
               Some (fold_left
                       (fun a c => 10 * a + match decimal_value c with
                                            | Some d => d
                                            | None => 0
                                            end) p acc)
           end
      else None.
Proof.
  unfold all_decimal.
  induction p as [|c r IH]; intros H acc b; simpl; [reflexivity|].
  simpl in H. apply andb_true_iff in H as [Hc Hr].
  destruct (digit_char_plain c Hc) as (_ & _ & _ & H95).
  apply Z.eqb_neq in H95. rewrite H95.
  unfold is_decimal_char at 1.
  destruct (decimal_value c) as [d|] eqn:D; simpl; [|reflexivity].
  rewrite (IH Hr). destruct (forallb is_decimal_char r); [|reflexivity].
  destruct r; reflexivity.
Qed.

Lemma filter_all {A} (f : A -> bool) (l : list A) :
  forallb f l = true -> filter f l = l.
Proof.
  induction l as [|x l IH]; [reflexivity|]. simpl. intros H.
  apply andb_true_iff in H as [Hx Hl]. rewrite Hx, (IH Hl). reflexivity.
Qed.

(** On a piece that [isdigit] accepts, [int] reads the decimal number when
    every digit is decimal and there are no more than 4300 of them, and
    raises otherwise. *)
Lemma py_int_of_digits (p : pystr) :
  py_isdigit p = true ->
  py_int p = if leggibile p then Some (decimal_number p) else None.
Proof.
  intros H. destruct p as [|c r]; [discriminate|].
  unfold py_isdigit in H.
  assert (Hc : is_digit_char c = true).
  { simpl in H. now apply andb_true_iff in H as [? _]. }
  unfold py_int. rewrite strip_with_none.
  - destruct (digit_char_plain c Hc) as (_ & H43 & H45 & _).
    apply Z.eqb_neq in H43, H45. rewrite H43, H45.
    unfold int_limited, leggibile. rewrite (int_digits_of_digits _ H).
    destruct (all_decimal (c :: r)) eqn:A;
      [|destruct (max_str_digits <? digit_count (c :: r)); reflexivity].
    unfold digit_count. rewrite (filter_all _ _ A). cbn [andb].
    unfold max_str_digits.
    destruct (Z.ltb_spec 4300 (Z.of_nat (List.length (c :: r)))),
      (Z.leb_spec (Z.of_nat (List.length (c :: r))) 4300);
      try lia; reflexivity.
  - apply forallb_forall. intros x Hx.
    rewrite forallb_forall in H. specialize (H x Hx).
    apply digit_char_plain in H as [Hs _].
    unfold int_isspace. rewrite Hs. reflexivity.
Qed.

Lemma voti_da_pezzi_spec (ps : list pystr) :
  voti_da_pezzi ps
  = if existsb pezzo_illeggibile (map py_strip ps)
    then Raise ValueError
    else Ok (voti_conformi (map py_strip ps)).
Proof.
  unfold voti_conformi.
  induction ps as [|v rest IH]; simpl; [reflexivity|].
  unfold pezzo_illeggibile at 1, pezzo_conforme at 1.
  destruct (py_isdigit (py_strip v)) eqn:D; simpl; [|exact IH].
  rewrite (py_int_of_digits _ D).
  destruct (leggibile (py_strip v)); simpl; [|reflexivity].
  destruct (18 <=? decimal_number (py_strip v)); simpl; [|exact IH].
  destruct (decimal_number (py_strip v) <=? 30); simpl; [|exact IH].
  rewrite IH. destruct (existsb pezzo_illeggibile (map py_strip rest));
    reflexivity.
Qed.

Lemma parse_grade_list_pezzi (voti_input : pystr) :
  parse_grade_list voti_input
  = Ok (if existsb pezzo_illeggibile (pezzi voti_input)
        then []
        else voti_conformi (pezzi voti_input)).
Proof.
  unfold parse_grade_list, pezzi. rewrite voti_da_pezzi_spec.
  destruct (existsb pezzo_illeggibile _); reflexivity.
Qed.



(** Without such a piece (on ASCII input with no piece longer than 4300
    characters, for one), every piece is judged by itself. *)
Lemma parse_grade_list_piecewise (voti_input : pystr) :
  existsb pezzo_illeggibile (pezzi voti_input) = false ->
  parse_grade_list voti_input = Ok (voti_conformi (pezzi voti_input))
  /\ forall n, In n (voti_conformi (pezzi voti_input)) <->
               exists p, In p (pezzi voti_input)
                         /\ pezzo_conforme p = true /\ decimal_number p = n.
Proof.
  intros H. pose proof (parse_grade_list_pezzi voti_input) as E.
  rewrite H in E. split; [exact E|].
  intros n. unfold voti_conformi. rewrite in_map_iff.
  split; intros (p & A & B).
  - apply filter_In in B as [B1 B2]. eauto.
  - destruct B as [B1 B2]. exists p. split; [assumption|].
    apply filter_In. auto.
Qed.

(** A line without any digit gives no grade. *)
Lemma py_strip_sublist (s : pystr) (c : Z) : In c (py_strip s) -> In c s.
Proof.
  assert (D : forall f t x, In x (drop_while f t) -> In x t).
  { intros f t x. induction t as [|y r IH]; simpl; [tauto|].
    destruct (f y); simpl; auto. }
  unfold py_strip, strip_with. intros H.
  apply in_rev in H. apply D in H. apply in_rev in H. apply D in H. exact H.
Qed.

Lemma py_split_sublist (sep : Z) (s p : pystr) (c : Z) :
  In p (py_split sep s) -> In c p -> In c s.
Proof.
  revert p. induction s as [|x r IH]; simpl; intros p Hp Hc.
  - destruct Hp as [<-|[]]. contradiction.
  - destruct (x =? sep).
    + destruct Hp as [<-|Hp]; [contradiction|]. right. eapply IH; eauto.
    + destruct (py_split sep r) as [|q qs] eqn:E.
      * destruct Hp as [<-|[]]. destruct Hc as [<-|[]]. now left.
      * destruct Hp as [<-|Hp].
        -- destruct Hc as [<-|Hc]; [now left|]. right.
           apply (IH q); [now left|assumption].
        -- right. apply (IH p); [now right|assumption].
Qed.

Lemma parse_grade_list_no_digit (voti_input : pystr) :
  forallb (fun c => negb (is_digit_char c)) voti_input = true ->
  parse_grade_list voti_input = Ok [].
Proof.
  intros H.
  assert (N : forall p, In p (pezzi voti_input) -> py_isdigit p = false).
  { intros p Hp. unfold pezzi in Hp. apply in_map_iff in Hp as (q & <- & Hq).
    destruct (py_strip q) as [|c r] eqn:E; [reflexivity|].
    assert (Hc : In c voti_input).
    { eapply py_split_sublist; [exact Hq|]. apply py_strip_sublist.
      rewrite E. now left. }
    rewrite forallb_forall in H. specialize (H c Hc).
    apply negb_true_iff in H. simpl. rewrite H. reflexivity. }
  rewrite (parse_grade_list_pezzi voti_input).
  assert (X : existsb pezzo_illeggibile (pezzi voti_input) = false).
  { apply not_true_is_false. intros T.
    apply existsb_exists in T as (p & Hp & T).
    unfold pezzo_illeggibile in T. rewrite (N p Hp) in T. discriminate. }
  rewrite X. unfold voti_conformi.
  assert (F : filter pezzo_conforme (pezzi voti_input) = []).
  { clear X. revert N. generalize (pezzi voti_input) as l.
    induction l as [|p ps IH]; intros N; [reflexivity|]. simpl.
    unfold pezzo_conforme at 1. rewrite (N p (or_introl eq_refl)). simpl.
    apply IH. intros q Hq. apply N. now right. }
  rewrite F. reflexivity.
Qed.

(** ** Adding a student without a valid grade *)

Lemma chiedi_files (p : prompt) (avviso : message) (w w' : world) (x : pystr) :
  chiedi p avviso w = Ok (x, w') -> files w' = files w.
Proof.
  unfold chiedi.
  destruct (leggi_non_vuoto p avviso (stdin w) (stdout w)) as [[y [r out]]|e];
    [|discriminate].
  intros [= _ <-]. reflexivity.
Qed.

Lemma input_files (p : prompt) (w w' : world) (x : pystr) :
  input p w = Ok (x, w') -> files w' = files w.
Proof.
  unfold input. destruct (stdin w); [discriminate|].
  intros [= _ <-]. reflexivity.
Qed.

Lemma dati_studente_files (w w1 : world) (d : pystr * pystr * pystr * pystr) :
  dati_studente w = Ok (d, w1) -> files w1 = files w.
Proof.
  unfold dati_studente, bind, ret.
  destruct (chiedi PromptStudentId MsgEmptyStudentId w) as [[m wa]|] eqn:A;
    [|discriminate].
  destruct (chiedi PromptFirstName MsgEmptyFirstName wa) as [[n wb]|] eqn:B;
    [|discriminate].
  destruct (chiedi PromptLastName MsgEmptyLastName wb) as [[c wc]|] eqn:C;
    [|discriminate].
  destruct (input PromptGrades wc) as [[v wd]|] eqn:D; [|discriminate].
  intros [= _ <-].
  apply chiedi_files in A, B, C. apply input_files in D. congruence.
Qed.

(** C5.  Whenever the grade line the user gives to [aggiungi_studente]
    yields no valid grade, the operation ends with the message that no
    valid grade was entered: it returns without reading or writing the
    store, so no record is added and every file is as it was. *)
Theorem aggiungi_studente_no_valid_grades
    (path : string) (w w1 : world) (matricola nome cognome voti_input : pystr) :
  dati_studente w = Ok ((matricola, nome, cognome, voti_input), w1) ->
  parse_grade_list voti_input = Ok [] ->
  aggiungi_studente path w
  = Ok (tt, {| files := files w; stdin := stdin w1;
               stdout := stdout w1 ++ [MsgNoValidGrades] |}).
Proof.
  intros H P. pose proof (dati_studente_files _ _ _ H) as F.
  revert H. unfold aggiungi_studente, dati_studente, bind, ret.
  destruct (chiedi PromptStudentId MsgEmptyStudentId w) as [[m wa]|];
    [|discriminate].
  destruct (chiedi PromptFirstName MsgEmptyFirstName wa) as [[n wb]|];
    [|discriminate].
  destruct (chiedi PromptLastName MsgEmptyLastName wb) as [[c wc]|];
    [|discriminate].
  destruct (input PromptGrades wc) as [[v wd]|]; [|discriminate].
  intros [= -> -> -> -> ->]. unfold lift. rewrite P. unfold print.
  rewrite F. reflexivity.
Qed.

(** A run of C5: after two blank answers, an identifier, a first and a
    last name, the grade line ["bad, 17"] adds nothing to the store. *)
Lemma aggiungi_studente_no_valid_grades_witness :
  aggiungi_studente "registro.txt"
    (mondo (un_file "registro.txt" (lit "[]"))
       [lit " "; []; lit " S1 "; lit "Ana"; lit "Li"; lit "bad, 17"])
  = Ok (tt, {| files := un_file "registro.txt" (lit "[]");
               stdin := [];
               stdout := [ MsgPrompt PromptStudentId; MsgEmptyStudentId;
                           MsgPrompt PromptStudentId; MsgEmptyStudentId;
                           MsgPrompt PromptStudentId;
                           MsgPrompt PromptFirstName;
                           MsgPrompt PromptLastName;
                           MsgPrompt PromptGrades; MsgNoValidGrades ] |}).
Proof.
  apply (aggiungi_studente_no_valid_grades "registro.txt"
           (mondo (un_file "registro.txt" (lit "[]"))
              [lit " "; []; lit " S1 "; lit "Ana"; lit "Li"; lit "bad, 17"])
           {| files := un_file "registro.txt" (lit "[]"); stdin := [];
              stdout := [ MsgPrompt PromptStudentId; MsgEmptyStudentId;
                          MsgPrompt PromptStudentId; MsgEmptyStudentId;
                          MsgPrompt PromptStudentId;
                          MsgPrompt PromptFirstName;
                          MsgPrompt PromptLastName;
                          MsgPrompt PromptGrades ] |}
           (lit "S1") (lit "Ana") (lit "Li") (lit "bad, 17")).
  - vm_compute. reflexivity.
  - vm_compute. reflexivity.
Defined.

(** The empty grade line of the specification. *)
Example aggiungi_studente_empty_grades :
  aggiungi_studente "registro.txt"
    (mondo nessun_file [lit "S1"; lit "Ana"; lit "Li"; []])
  = Ok (tt, {| files := nessun_file; stdin := [];
               stdout := [ MsgPrompt PromptStudentId;
                           MsgPrompt PromptFirstName;
                           MsgPrompt PromptLastName;
                           MsgPrompt PromptGrades; MsgNoValidGrades ] |}).
Proof. vm_compute. reflexivity. Qed.

(** ** Listing *)

Lemma py_get_campo (d : list (pystr * value)) (k : pystr) (default : value) :
  py_get (VDict d) k default = Ok (campo (VDict d) k default).
Proof. simpl. destruct (dict_get d k); reflexivity. Qed.

Lemma stampa_righe_step (r : value) (rest : list value) (w : world) :
  stampa_righe (r :: rest) w
  = match riga_studente r with
    | Ok m =>
        stampa_righe rest {| files := files w; stdin := stdin w;
                             stdout := stdout w ++ [m] |}
    | Raise e => Raise e
    end.
Proof.
  destruct r; try reflexivity.
  cbn [stampa_righe]. unfold bind, lift. rewrite !py_get_campo.
  unfold riga_studente.
  destruct (calcola_media (campo (VDict d) (lit "voti") (VList [])));
    reflexivity.
Qed.

Lemma stampa_righe_projection (rs : list value) (w : world) :
  stampa_righe rs w
  = match righe rs with
    | Ok lines =>
        Ok (tt, {| files := files w; stdin := stdin w;
                   stdout := stdout w ++ lines |})
    | Raise e => Raise e
    end.
Proof.
  revert w. induction rs as [|r rest IH]; intros w.
  - simpl. unfold ret. rewrite app_nil_r. destruct w; reflexivity.
  - rewrite stampa_righe_step. cbn [righe].
    destruct (riga_studente r) as [m|e]; cbn [rbind]; [|reflexivity].
    rewrite IH. cbn [files stdin stdout].
    destruct (righe rest); cbn [rbind]; [|reflexivity].
    rewrite <- app_assoc. reflexivity.
Qed.

(** C9, as amended.  On every list of records, the listing prints the
    header and then one line per record, in order: the record's
    identifier, first name and last name, each replaced by the string
    ["N/D"] when the record has none, and the average [calcola_media]
    computes from the record's grades (from no grade, when the record has
    none).  It changes no file and reads no input. *)
Theorem stampa_studenti_projection (rs : list value) (w : world) :
  stampa_studenti (VList rs) w
  = match righe rs with
    | Ok lines =>
        Ok (tt, {| files := files w; stdin := stdin w;
                   stdout := stdout w ++ MsgStudentList :: lines |})
    | Raise e => Raise e
    end.
Proof.
  unfold stampa_studenti, bind, print, lift. cbn [py_iter].
  rewrite stampa_righe_projection. cbn [files stdin stdout].
  destruct (righe rs); [|reflexivity].
  rewrite <- app_assoc. reflexivity.
Qed.

(** C9, the counterexample: a record without identifier and names is
    listed with the string ["N/D"] in their place, which is not the string
    ["N/A"]. *)
Lemma stampa_studenti_missing_fields :
  stampa_studenti (VList [VDict [(lit "voti", VList [VInt 30])]])
    (mondo nessun_file [])
  = Ok (tt, {| files := nessun_file; stdin := [];
               stdout := [ MsgStudentList;
                           MsgStudentLine (VStr (lit "N/D")) (VStr (lit "N/D"))
                             (VStr (lit "N/D"))
                             (S754_finite false 8444249301319680 (-48)) ] |})
  /\ str_eqb (lit "N/D") (lit "N/A") = false.
Proof. split; vm_compute; reflexivity. Qed.

(** ** Loading *)

Lemma leggi_missing (path : string) (w : world) :
  files w path = None ->
  leggi_studenti_da_file path w
  = Ok (VList [], {| files := files w; stdin := stdin w;
                     stdout := stdout w ++ [MsgErroreLettura] |}).
Proof.
  intros H. unfold leggi_studenti_da_file, try_except, bind, read_text.
  rewrite H. reflexivity.
Qed.

Lemma leggi_decoded (path : string) (w : world) (bs : list Z) (text : pystr) :
  files w path = Some bs ->
  utf8_decode bs = Some text ->
  leggi_studenti_da_file path w
  = match json_loads text with
    | Ok v => Ok (v, w)
    | Raise e =>
        if is_json_or_missing e
        then Ok (VList [], {| files := files w; stdin := stdin w;
                              stdout := stdout w ++ [MsgErroreLettura] |})
        else Raise e
    end.
Proof.
  intros H D. unfold leggi_studenti_da_file, try_except, bind, read_text, lift.
  rewrite H, D. destruct (json_loads text) as [v|e]; [reflexivity|].
  destruct (is_json_or_missing e); reflexivity.
Qed.

Lemma leggi_not_utf8 (path : string) (w : world) (bs : list Z) :
  files w path = Some bs ->
  utf8_decode bs = None ->
  leggi_studenti_da_file path w = Raise UnicodeDecodeError.
Proof.
  intros H D. unfold leggi_studenti_da_file, try_except, bind, read_text.
  rewrite H, D. reflexivity.
Qed.

(** Loading changes no file and reads no input; it prints at most its
    error message. *)
Lemma leggi_frame (path : string) (w w1 : world) (v : value) :
  leggi_studenti_da_file path w = Ok (v, w1) ->
  files w1 = files w /\ stdin w1 = stdin w
  /\ (stdout w1 = stdout w \/ stdout w1 = stdout w ++ [MsgErroreLettura]).
Proof.
  destruct (files w path) as [bs|] eqn:F.
  - destruct (utf8_decode bs) as [text|] eqn:D.
    + rewrite (leggi_decoded _ _ _ _ F D).
      destruct (json_loads text) as [x|e].
      * intros [= _ <-]. auto.
      * destruct (is_json_or_missing e); [|discriminate].
        intros [= _ <-]. simpl. auto.
    + rewrite (leggi_not_utf8 _ _ _ F D). discriminate.
  - rewrite (leggi_missing _ _ F). intros [= _ <-]. simpl. auto.
Qed.

(** C1, where it holds: a missing file, and a file of UTF-8 text that is
    not JSON, load as the empty roster, with the error message. *)
Lemma leggi_missing_or_malformed_text (path : string) (w : world) :
  (files w path = None
   \/ exists bs text, files w path = Some bs /\ utf8_decode bs = Some text
                      /\ json_loads text = Raise JSONDecodeError) ->
  leggi_studenti_da_file path w
  = Ok (VList [], {| files := files w; stdin := stdin w;
                     stdout := stdout w ++ [MsgErroreLettura] |}).
Proof.
  intros [H|(bs & text & H & D & J)].
  - apply leggi_missing, H.
  - rewrite (leggi_decoded _ _ _ _ H D), J. reflexivity.
Qed.

(** C1, where it fails: a store file that is not UTF-8 text, here the
    roster [["é"]] saved in Latin-1, is not valid JSON, and loading it
    raises [UnicodeDecodeError], which the handler does not catch. *)
Theorem leggi_studenti_da_file_latin1 :
  leggi_studenti_da_file "registro.txt"
    (mondo (un_file "registro.txt" [91; 34; 233; 34; 93]) [])
  = Raise UnicodeDecodeError.
Proof. vm_compute. reflexivity. Qed.

(** C10.  When the store file holds JSON text, loading returns the value
    it denotes as it is, whether or not that value is a list of records,
    and prints nothing; the listing then receives that same value. *)
Theorem leggi_returns_decoded_value
    (path : string) (w : world) (bs : list Z) (text : pystr) (v : value) :
  files w path = Some bs ->
  utf8_decode bs = Some text ->
  json_loads text = Ok v ->
  leggi_studenti_da_file path w = Ok (v, w)
  /\ esegui_processo path w = stampa_studenti v w.
Proof.
  intros H D J.
  assert (L : leggi_studenti_da_file path w = Ok (v, w)).
  { rewrite (leggi_decoded _ _ _ _ H D), J. reflexivity. }
  split; [exact L|]. unfold esegui_processo, bind. rewrite L. reflexivity.
Qed.

(** A run of C10: the store file holds the JSON object [{"a": 1}]; it is
    loaded as that dict, and the listing, which finds a string where it
    expects a record, raises [AttributeError]. *)
Lemma leggi_returns_decoded_value_witness :
  leggi_studenti_da_file "registro.txt"
    (mondo (un_file "registro.txt" [123; 34; 97; 34; 58; 32; 49; 125]) [])
  = Ok (VDict [(lit "a", VInt 1)],
        mondo (un_file "registro.txt" [123; 34; 97; 34; 58; 32; 49; 125]) [])
  /\ esegui_processo "registro.txt"
       (mondo (un_file "registro.txt" [123; 34; 97; 34; 58; 32; 49; 125]) [])
     = Raise AttributeError.
Proof.
  destruct (leggi_returns_decoded_value "registro.txt"
              (mondo (un_file "registro.txt"
                        [123; 34; 97; 34; 58; 32; 49; 125]) [])
              [123; 34; 97; 34; 58; 32; 49; 125]
              [123; 34; 97; 34; 58; 32; 49; 125]
              (VDict [(lit "a", VInt 1)])) as [A B];
    [reflexivity | reflexivity | reflexivity |].
  split; [exact A|]. rewrite B. reflexivity.
Defined.

(** Other values that are not lists: a string and a number load as
    themselves. *)
Example leggi_string_and_number :
  leggi_studenti_da_file "registro.txt"
    (mondo (un_file "registro.txt" (lit "7")) [])
  = Ok (VInt 7, mondo (un_file "registro.txt" (lit "7")) [])
  /\ leggi_studenti_da_file "registro.txt"
       (mondo (un_file "registro.txt" [34; 97; 34]) [])
     = Ok (VStr (lit "a"), mondo (un_file "registro.txt" [34; 97; 34]) []).
Proof. split; vm_compute; reflexivity. Qed.

(** ** Looking a student up *)

Lemma ha_matricola_record (matricola : pystr) (r : value) :
  ha_matricola matricola r = true -> is_record r = true /\ py_truthy r = true.
Proof.
  destruct r; try discriminate. simpl.
  destruct d; [discriminate|]. auto.
Qed.

Lemma cerca_studente_step (matricola : pystr) (r : value) (rest : list value)
    (i : nat) :
  is_record r = true ->
  cerca_studente matricola (r :: rest) i
  = if ha_matricola matricola r then Ok (Some (i, r))
    else cerca_studente matricola rest (S i).
Proof.
  destruct r; try discriminate. intros _. simpl.
  destruct (dict_get d (lit "matricola")); reflexivity.
Qed.

Lemma cerca_studente_none (matricola : pystr) (rs : list value) (i : nat) :
  forallb is_record rs = true ->
  existsb (ha_matricola matricola) rs = false ->
  cerca_studente matricola rs i = Ok None.
Proof.
  revert i. induction rs as [|r rest IH]; intros i R N; [reflexivity|].
  simpl in R, N. apply andb_true_iff in R as [R1 R2].
  apply orb_false_iff in N as [N1 N2].
  rewrite (cerca_studente_step _ _ _ _ R1), N1. auto.
Qed.

(** The search selects the first record with the identifier: the records
    before it are passed over, the records after it are not looked at. *)
Lemma cerca_studente_first (matricola : pystr) (pre post : list value)
    (r : value) (i : nat) :
  forallb is_record pre = true ->
  existsb (ha_matricola matricola) pre = false ->
  ha_matricola matricola r = true ->
  cerca_studente matricola (pre ++ r :: post) i
  = Ok (Some ((i + List.length pre)%nat, r)).
Proof.
  revert i. induction pre as [|x pre IH]; intros i R N H.
  - cbn [app]. destruct (ha_matricola_record _ _ H) as [Hr _].
    rewrite (cerca_studente_step _ _ _ _ Hr), H.
    cbn [List.length]. do 3 f_equal. lia.
  - simpl in R, N. apply andb_true_iff in R as [R1 R2].
    apply orb_false_iff in N as [N1 N2].
    cbn [app]. rewrite (cerca_studente_step _ _ _ _ R1), N1.
    rewrite (IH (S i) R2 N2 H). cbn [List.length]. do 3 f_equal. lia.
Qed.

(** ** UTF-8 round trip *)

Lemma in_range_false (lo hi c : Z) :
  c < lo \/ hi < c -> in_range lo hi c = false.
Proof.
  intros H. apply not_true_is_false. intros T. apply in_range_spec in T. lia.
Qed.

Lemma in_range_true (lo hi c : Z) : lo <= c <= hi -> in_range lo hi c = true.
Proof. apply in_range_spec. Qed.

Lemma utf8_char_roundtrip (c : Z) (rest : list Z) :
  valid_char c = true ->
  exists b, utf8_encode_char c = Some b
            /\ utf8_decode (b ++ rest) = cons_opt c (utf8_decode rest).
Proof.
  intros V.
  assert (Vp : 0 <= c <= 55295 \/ 57344 <= c <= 1114111).
  { unfold valid_char in V.
    apply orb_true_iff in V as [V|V]; apply in_range_spec in V; auto. }
  clear V. unfold utf8_encode_char.
  destruct (in_range 0 127 c) eqn:R1.
  { eexists; split; [reflexivity|]. simpl. rewrite R1. reflexivity. }
  destruct (in_range 128 2047 c) eqn:R2.
  { eexists; split; [reflexivity|]. apply in_range_spec in R2.
    cbn [app utf8_decode].
    rewrite (in_range_false 0 127), (in_range_true 194 223)
      by (Z.div_mod_to_equations; lia).
    unfold is_cont. rewrite in_range_true by (Z.div_mod_to_equations; lia).
    f_equal. Z.div_mod_to_equations; lia. }
  destruct (in_range 2048 65535 c) eqn:R3.
  { apply in_range_spec in R3.
    destruct (in_range 55296 57343 c) eqn:R4.
    { apply in_range_spec in R4. lia. }
    assert (R4' : ~ 55296 <= c <= 57343).
    { intros X. apply in_range_spec in X. congruence. }
    eexists; split; [reflexivity|]. cbn [app utf8_decode].
    rewrite (in_range_false 0 127), (in_range_false 194 223),
      (in_range_true 224 239) by (Z.div_mod_to_equations; lia).
    assert (S3 : second_ok3 (224 + c / 4096) (128 + (c / 64) mod 64) = true).
    { unfold second_ok3, is_cont.
      destruct (224 + c / 4096 =? 224) eqn:E1; bool_to_prop.
      - apply in_range_true. Z.div_mod_to_equations; lia.
      - destruct (224 + c / 4096 =? 237) eqn:E2; bool_to_prop;
          apply in_range_true; Z.div_mod_to_equations; lia. }
    rewrite S3. unfold is_cont.
    rewrite in_range_true by (Z.div_mod_to_equations; lia).
    cbn [andb]. f_equal. Z.div_mod_to_equations; lia. }
  destruct (in_range 65536 1114111 c) eqn:R5.
  { apply in_range_spec in R5.
    eexists; split; [reflexivity|]. cbn [app utf8_decode].
    rewrite (in_range_false 0 127), (in_range_false 194 223),
      (in_range_false 224 239), (in_range_true 240 244)
      by (Z.div_mod_to_equations; lia).
    assert (S4 : second_ok4 (240 + c / 262144) (128 + (c / 4096) mod 64) = true).
    { unfold second_ok4, is_cont.
      destruct (240 + c / 262144 =? 240) eqn:E1; bool_to_prop.
      - apply in_range_true. Z.div_mod_to_equations; lia.
      - destruct (240 + c / 262144 =? 244) eqn:E2; bool_to_prop;
          apply in_range_true; Z.div_mod_to_equations; lia. }
    rewrite S4. unfold is_cont.
    rewrite !in_range_true by (Z.div_mod_to_equations; lia).
    cbn [andb]. f_equal. Z.div_mod_to_equations; lia. }
  exfalso.
  assert (~ 0 <= c <= 127) by (intros X; apply in_range_spec in X; congruence).
  assert (~ 128 <= c <= 2047) by (intros X; apply in_range_spec in X; congruence).
  assert (~ 2048 <= c <= 65535) by (intros X; apply in_range_spec in X; congruence).
  assert (~ 65536 <= c <= 1114111) by (intros X; apply in_range_spec in X; congruence).
  lia.
Qed.

(** Unicode text can be encoded, and decodes to itself. *)
Lemma utf8_roundtrip (s : pystr) :
  testo_ok s = true ->
  exists bs, utf8_encode s = Some bs /\ utf8_decode bs = Some s.
Proof.
  unfold testo_ok. induction s as [|c r IH]; intros V.
  - exists []. split; reflexivity.
  - simpl in V. apply andb_true_iff in V as [Vc Vr].
    destruct (IH Vr) as (bs & E & D).
    destruct (utf8_char_roundtrip c bs Vc) as (b & Eb & Db).
    exists (b ++ bs). split.
    + simpl. rewrite Eb, E. reflexivity.
    + rewrite Db, D. reflexivity.
Qed.

(** ** JSON round trip: strings and numbers *)

Lemma str_eqb_refl (s : pystr) : str_eqb s s = true.
Proof. induction s; simpl; [reflexivity|]. rewrite Z.eqb_refl. assumption. Qed.

Lemma str_eqb_eq (s t : pystr) : str_eqb s t = true <-> s = t.
Proof.
  split; [|intros ->; apply str_eqb_refl].
  revert t. induction s as [|c s IH]; destruct t as [|d t]; simpl;
    try discriminate; auto.
  intros H. apply andb_true_iff in H as [H1 H2].
  apply Z.eqb_eq in H1. f_equal; auto.
Qed.

Lemma hex_value_digit (n : Z) :
  0 <= n < 16 -> hex_value (hex_digit n) = Some n.
Proof.
  intros H. unfold hex_digit, hex_value.
  destruct (n <? 10) eqn:E; bool_to_prop.
  - rewrite in_range_true by lia. f_equal. lia.
  - rewrite in_range_false, in_range_true by lia. f_equal. lia.
Qed.

Lemma scanstring_u00 (h3 h4 u : Z) (t : pystr) :
  hex4_value 48 48 h3 h4 = Some u ->
  in_range 55296 56319 u = false ->
  scanstring (92 :: 117 :: 48 :: 48 :: h3 :: h4 :: t)
  = cons_char u (scanstring t).
Proof.
  intros H1 H2. cbn [scanstring].
  change (92 =? 34) with false. change (92 =? 92) with true.
  change (117 =? 117) with true. cbv iota. rewrite H1, H2. reflexivity.
Qed.

Lemma scanstring_escape_char (c : Z) (t : pystr) :
  0 <= c ->
  scanstring (escape_char c ++ t) = cons_char c (scanstring t).
Proof.
  intros H. unfold escape_char.
  destruct (c =? 34) eqn:E1; [bool_to_prop; subst; reflexivity|].
  destruct (c =? 92) eqn:E2; [bool_to_prop; subst; reflexivity|].
  destruct (c =? 10) eqn:E3; [bool_to_prop; subst; reflexivity|].
  destruct (c =? 13) eqn:E4; [bool_to_prop; subst; reflexivity|].
  destruct (c =? 9) eqn:E5; [bool_to_prop; subst; reflexivity|].
  destruct (c =? 8) eqn:E6; [bool_to_prop; subst; reflexivity|].
  destruct (c =? 12) eqn:E7; [bool_to_prop; subst; reflexivity|].
  destruct (in_range 0 31 c) eqn:E8.
  - apply in_range_spec in E8. cbn [app].
    apply scanstring_u00; [|apply in_range_false; lia].
    unfold hex4_value. change (hex_value 48) with (Some 0).
    rewrite !hex_value_digit by (Z.div_mod_to_equations; lia).
    f_equal. Z.div_mod_to_equations; lia.
  - cbn [app scanstring]. rewrite E1, E2.
    assert (L : (c <=? 31) = false).
    { apply Z.leb_gt.
      destruct (Z_le_gt_dec c 31); [|lia].
      rewrite in_range_true in E8 by lia. discriminate. }
    rewrite L. reflexivity.
Qed.

(** The text of a string reads back as the string. *)
Lemma scanstring_encode (s rest : pystr) :
  forallb (fun c => 0 <=? c) s = true ->
  scanstring (flat_map escape_char s ++ 34 :: rest) = Some (s, rest).
Proof.
  induction s as [|c r IH]; intros H; [reflexivity|].
  simpl in H. apply andb_true_iff in H as [Hc Hr]. apply Z.leb_le in Hc.
  simpl flat_map. rewrite <- app_assoc, (scanstring_escape_char _ _ Hc).
  rewrite (IH Hr). reflexivity.
Qed.

Lemma testo_ok_nonneg (s : pystr) :
  testo_ok s = true -> forallb (fun c => 0 <=? c) s = true.
Proof.
  unfold testo_ok. intros H. apply forallb_forall. intros c Hc.
  rewrite forallb_forall in H. specialize (H c Hc).
  unfold valid_char in H. apply Z.leb_le. bool_cases; lia.
Qed.

Lemma uint_chars_digits (d : Decimal.uint) :
  forallb is_ascii_digit (uint_chars d) = true.
Proof. induction d; simpl; auto. Qed.

Lemma span_digits_all (ds rest : pystr) :
  forallb is_ascii_digit ds = true ->
  match rest with c :: _ => is_ascii_digit c = false | [] => True end ->
  span_digits (ds ++ rest) = (ds, rest).
Proof.
  induction ds as [|c r IH]; intros H E.
  - simpl. destruct rest as [|c r]; [reflexivity|]. simpl. rewrite E.
    reflexivity.
  - simpl in H. apply andb_true_iff in H as [Hc Hr]. simpl.
    rewrite Hc, (IH Hr E). reflexivity.
Qed.

Lemma digits_value_acc (d : Decimal.uint) (acc : positive) :
  fold_left (fun a c => 10 * a + (c - 48)) (uint_chars d) (Z.pos acc)
  = Z.pos (Pos.of_uint_acc d acc).
Proof.
  revert acc.
  induction d; intros acc; cbn [uint_chars fold_left Pos.of_uint_acc];
    try reflexivity; rewrite <- IHd; f_equal; lia.
Qed.

Lemma digits_value_uint (d : Decimal.uint) :
  digits_value (uint_chars d) = Z.of_N (Pos.of_uint d).
Proof.
  unfold digits_value.
  induction d; cbn [uint_chars fold_left Pos.of_uint]; try reflexivity;
    try assumption;
    match goal with
    | |- _ = Z.of_N (N.pos (Pos.of_uint_acc _ ?a)) =>
        change (Z.of_N (N.pos (Pos.of_uint_acc d a)))
          with (Z.pos (Pos.of_uint_acc d a));
        rewrite <- (digits_value_acc d a); f_equal
    end.
Qed.

Lemma digits_value_pos (p : positive) :
  digits_value (uint_chars (Pos.to_uint p)) = Z.pos p.
Proof. rewrite digits_value_uint, DecimalPos.Unsigned.of_to. reflexivity. Qed.

Lemma unorm_leading_zero (d e : Decimal.uint) :
  Decimal.unorm d = Decimal.D0 e -> e = Decimal.Nil.
Proof.
  induction d; simpl; intros H; try discriminate; auto.
  injection H as <-. reflexivity.
Qed.

(** The decimal text of a positive number starts with a digit that is not
    zero. *)
Lemma pos_chars_head (p : positive) :
  exists c r, uint_chars (Pos.to_uint p) = c :: r /\ 49 <= c <= 57.
Proof.
  assert (N : Decimal.unorm (Pos.to_uint p) = Pos.to_uint p).
  { rewrite <- (DecimalPos.Unsigned.to_of (Pos.to_uint p)).
    rewrite DecimalPos.Unsigned.of_to. reflexivity. }
  pose proof (DecimalPos.Unsigned.to_uint_nonzero p) as Z0.
  pose proof (DecimalPos.Unsigned.to_uint_nonnil p) as Z1.
  destruct (Pos.to_uint p) eqn:E; simpl; try (do 2 eexists; split;
    [reflexivity|lia]).
  - congruence.
  - apply unorm_leading_zero in N. subst. exfalso. apply Z0. reflexivity.
Qed.

Lemma match_frac_none (rest : pystr) :
  number_end rest = true -> match_frac rest = None.
Proof.
  destruct rest as [|c [|d r]]; try reflexivity. simpl.
  intros H. apply negb_true_iff in H.
  destruct (c =? 46); [|reflexivity].
  rewrite !orb_true_r in H. discriminate.
Qed.

Lemma match_exp_none (rest : pystr) :
  number_end rest = true -> match_exp rest = None.
Proof.
  destruct rest as [|c r]; try reflexivity. simpl.
  intros H. apply negb_true_iff in H.
  destruct (c =? 101); [rewrite !orb_true_r in H; discriminate|].
  destruct (c =? 69); [rewrite !orb_true_r in H; discriminate|].
  reflexivity.
Qed.

Lemma number_end_not_digit (rest : pystr) :
  number_end rest = true ->
  match rest with c :: _ => is_ascii_digit c = false | [] => True end.
Proof.
  destruct rest as [|c r]; [auto|]. simpl. intros H.
  apply negb_true_iff in H. apply orb_false_iff in H as [H _].
  apply orb_false_iff in H as [H _]. apply orb_false_iff in H as [H _].
  exact H.
Qed.

Lemma match_number_pos (p : positive) (neg : bool) (rest : pystr) :
  number_end rest = true ->
  match_number ((if neg then [45] else []) ++ uint_chars (Pos.to_uint p) ++ rest)
  = Ok (VInt (if neg then Z.neg p else Z.pos p), rest).
Proof.
  intros E. destruct (pos_chars_head p) as (c & r & Hcr & Hc).
  pose proof (uint_chars_digits (Pos.to_uint p)) as D.
  pose proof (digits_value_pos p) as V.
  rewrite Hcr in D, V |- *. simpl in D. apply andb_true_iff in D as [_ Dr].
  assert (C45 : (c =? 45) = false) by (apply Z.eqb_neq; lia).
  unfold match_number.
  destruct neg; simpl app; cbn [Z.eqb Pos.eqb]; rewrite ?C45;
    rewrite in_range_true by lia;
    rewrite (span_digits_all r rest Dr (number_end_not_digit _ E));
    rewrite (match_frac_none _ E), (match_exp_none _ E);
    rewrite V; reflexivity.
Qed.

(** The text of an integer reads back as the integer. *)
Lemma match_number_int_repr (n : Z) (rest : pystr) :
  number_end rest = true ->
  match_number (int_repr n ++ rest) = Ok (VInt n, rest).
Proof.
  intros E. destruct n as [|p|p].
  - change (int_repr 0 ++ rest) with (48 :: rest). unfold match_number.
    change (48 =? 45) with false. cbv iota.
    change (in_range 49 57 48) with false. change (48 =? 48) with true.
    cbv iota. rewrite (match_frac_none _ E), (match_exp_none _ E).
    reflexivity.
  - apply (match_number_pos p false rest E).
  - apply (match_number_pos p true rest E).
Qed.

(** ** JSON round trip: values *)

Lemma json_encode_list (level : nat) (x : value) (xs : list value) :
  json_encode level (VList (x :: xs))
  = [91] ++ newline_indent (S level) ++ json_encode (S level) x
    ++ encode_items level xs ++ newline_indent level ++ [93].
Proof.
  cbn [json_encode]. do 3 f_equal.
  induction xs as [|y r IH]; [reflexivity|].
  cbn [encode_items]. rewrite <- !app_assoc. do 3 f_equal. exact IH.
Qed.

Lemma json_encode_dict (level : nat) (k : pystr) (x : value)
    (xs : list (pystr * value)) :
  json_encode level (VDict ((k, x) :: xs))
  = [123] ++ newline_indent (S level) ++ encode_basestring k ++ [58; 32]
    ++ json_encode (S level) x ++ encode_pairs level xs
    ++ newline_indent level ++ [125].
Proof.
  cbn [json_encode]. do 5 f_equal.
  induction xs as [|[k' y] r IH]; [reflexivity|].
  cbn [encode_pairs]. rewrite <- !app_assoc. do 5 f_equal. exact IH.
Qed.

Lemma json_plain_dict (d : list (pystr * value)) :
  json_plain (VDict d)
  = keys_distinct d && forallb (fun kv => testo_ok (fst kv)) d
    && forallb (fun kv => json_plain (snd kv)) d.
Proof.
  cbn [json_plain]. f_equal.
  induction d as [|[k x] r IH]; [reflexivity|]. simpl. rewrite IH. reflexivity.
Qed.

Lemma skip_ws_indent (level : nat) (c : Z) (t : pystr) :
  is_json_ws c = false ->
  skip_ws (newline_indent level ++ c :: t) = c :: t.
Proof.
  intros H. unfold newline_indent, skip_ws. cbn [app drop_while].
  change (is_json_ws 10) with true. cbv iota.
  induction (2 * level)%nat as [|n IH]; simpl.
  - rewrite H. reflexivity.
  - exact IH.
Qed.

Lemma skip_ws_head (c : Z) (t : pystr) :
  is_json_ws c = false -> skip_ws (c :: t) = c :: t.
Proof. intros H. unfold skip_ws. simpl. rewrite H. reflexivity. Qed.

Lemma int_repr_head (n : Z) :
  exists c t, int_repr n = c :: t
              /\ (48 <= c <= 57
                  \/ (c = 45 /\ exists d t', t = d :: t' /\ 49 <= d <= 57)).
Proof.
  destruct n as [|p|p]; simpl.
  - exists 48, []. split; [reflexivity|lia].
  - destruct (pos_chars_head p) as (c & r & -> & H).
    exists c, r. split; [reflexivity|lia].
  - destruct (pos_chars_head p) as (c & r & -> & H).
    exists 45, (c :: r). split; [reflexivity|]. right. eauto.
Qed.

(** The text of a value starts with a character that is neither
    whitespace, nor a closing bracket, nor a byte order mark. *)
Lemma json_encode_head (level : nat) (v : value) :
  json_plain v = true ->
  exists c t, json_encode level v = c :: t
              /\ is_json_ws c = false /\ c <> 93 /\ c <> 65279.
Proof.
  intros H. destruct v; try discriminate.
  - exists 110, (lit "ull"). repeat split; lia.
  - destruct b; [exists 116, (lit "rue") | exists 102, (lit "alse")];
      repeat split; lia.
  - destruct (int_repr_head n) as (c & t & E & Hc). exists c, t.
    split; [exact E|].
    assert (R : 45 <= c <= 57) by (destruct Hc as [?|[-> _]]; lia).
    repeat split; try lia.
    unfold is_json_ws. apply not_true_is_false. intros T. bool_cases; lia.
  - eexists 34, _; repeat split; lia.
  - destruct l as [|x xs].
    + exists 91, [93]. repeat split; lia.
    + rewrite json_encode_list. eexists 91, _; repeat split; lia.
  - destruct d as [|[k x] xs].
    + exists 123, [125]. repeat split; lia.
    + rewrite json_encode_dict. eexists 123, _; repeat split; lia.
Qed.

Lemma dict_set_fresh (acc : list (pystr * value)) (k : pystr) (v : value) :
  existsb (fun kv => str_eqb (fst kv) k) acc = false ->
  dict_set acc k v = acc ++ [(k, v)].
Proof.
  induction acc as [|[k' v'] r IH]; simpl; intros H; [reflexivity|].
  apply orb_false_iff in H as [H1 H2]. rewrite H1, (IH H2). reflexivity.
Qed.

Lemma keys_distinct_app (acc : list (pystr * value)) (k : pystr) (v : value)
    (kvs : list (pystr * value)) :
  keys_distinct (acc ++ (k, v) :: kvs) = true ->
  existsb (fun kv => str_eqb (fst kv) k) acc = false.
Proof.
  induction acc as [|[k' v'] r IH]; simpl; intros H; [reflexivity|].
  apply andb_true_iff in H as [H1 H2]. apply negb_true_iff in H1.
  rewrite (IH H2), orb_false_r.
  rewrite existsb_app in H1. apply orb_false_iff in H1 as [_ H1].
  simpl in H1. apply orb_false_iff in H1 as [H1 _]. exact H1.
Qed.

(** Pairs with distinct keys make the dict that lists them. *)
Lemma dict_of_pairs_distinct (d : list (pystr * value)) :
  keys_distinct d = true -> dict_of_pairs d = d.
Proof.
  unfold dict_of_pairs.
  assert (G : forall kvs acc,
             keys_distinct (acc ++ kvs) = true ->
             fold_left (fun d kv => dict_set d (fst kv) (snd kv)) kvs acc
             = acc ++ kvs).
  { induction kvs as [|[k v] r IH]; intros acc H; simpl.
    - rewrite app_nil_r. reflexivity.
    - rewrite (dict_set_fresh _ _ _ (keys_distinct_app _ _ _ _ H)).
      rewrite IH; rewrite <- app_assoc; [reflexivity|exact H]. }
  intros H. apply (G d []). exact H.
Qed.

Lemma starts_with_head (a c : Z) (p s : pystr) :
  a <> c -> starts_with (a :: p) (c :: s) = None.
Proof. intros H. simpl. apply Z.eqb_neq in H. rewrite H. reflexivity. Qed.

(** A text that starts as a numeral is read as a number. *)
Lemma scan_once_number (f : nat) (c : Z) (r : pystr) :
  (48 <= c <= 57 \/ (c = 45 /\ exists d t', r = d :: t' /\ 49 <= d <= 57)) ->
  scan_once (S f) (c :: r) = match_number (c :: r).
Proof.
  intros H. cbn [scan_once].
  assert (E1 : (c =? 34) = false) by (apply Z.eqb_neq; lia).
  assert (E2 : (c =? 123) = false) by (apply Z.eqb_neq; lia).
  assert (E3 : (c =? 91) = false) by (apply Z.eqb_neq; lia).
  rewrite E1, E2, E3.
  change (lit "null") with (110 :: lit "ull").
  change (lit "true") with (116 :: lit "rue").
  change (lit "false") with (102 :: lit "alse").
  change (lit "NaN") with (78 :: lit "aN").
  change (lit "Infinity") with (73 :: lit "nfinity").
  change (lit "-Infinity") with (45 :: 73 :: lit "nfinity").
  rewrite !starts_with_head by lia.
  destruct H as [H|(-> & d & t' & -> & Hd)].
  - rewrite starts_with_head by lia. reflexivity.
  - cbn [starts_with]. change (45 =? 45) with true. cbv iota.
    assert (E : (73 =? d) = false) by (apply Z.eqb_neq; lia).
    rewrite E. reflexivity.
Qed.

Lemma number_end_indent (level : nat) (t : pystr) :
  number_end (newline_indent level ++ t) = true.
Proof. reflexivity. Qed.

Lemma length_encode_pos (level : nat) (v : value) :
  json_plain v = true -> (1 <= List.length (json_encode level v))%nat.
Proof.
  intros H. destruct (json_encode_head level v H) as (c & t & -> & _).
  simpl. lia.
Qed.

Lemma parse_array_items_encode (xs : list value) :
  Forall reads_back xs ->
  forallb json_plain xs = true ->
  forall x level rest f,
    reads_back x ->
    json_plain x = true ->
    (List.length (json_encode (S level) x)
     + List.length (encode_items level xs) < f)%nat ->
    parse_array_items f
      (json_encode (S level) x ++ encode_items level xs
       ++ newline_indent level ++ 93 :: rest)
    = Ok (x :: xs, rest).
Proof.
  induction xs as [|y ys IH]; intros F A x level rest f Rx Px B.
  - destruct f as [|f]; [lia|]. cbn [parse_array_items encode_items app].
    rewrite (Rx Px) by (simpl in B; try lia; reflexivity).
    rewrite skip_ws_indent by reflexivity.
    change (93 =? 93) with true. reflexivity.
  - destruct f as [|f]; [lia|].
    inversion F as [|? ? Ry Rys]; subst.
    simpl in A. apply andb_true_iff in A as [Py Pys].
    cbn [parse_array_items]. cbn [encode_items] in B |- *.
    rewrite !length_app in B. cbn [List.length] in B.
    rewrite (Rx Px) by (try lia; reflexivity).
    cbn [app]. rewrite skip_ws_head by reflexivity.
    change (44 =? 93) with false. change (44 =? 44) with true. cbv iota.
    destruct (json_encode_head (S level) y Py) as (c & t & E & W & _).
    rewrite <- !app_assoc.
    assert (Sk : skip_ws (newline_indent (S level)
                          ++ json_encode (S level) y
                          ++ encode_items level ys
                          ++ newline_indent level ++ 93 :: rest)
                = json_encode (S level) y ++ encode_items level ys
                  ++ newline_indent level ++ 93 :: rest).
    { rewrite E. cbn [app]. apply skip_ws_indent. exact W. }
    rewrite Sk. rewrite (IH Rys Pys y level rest f Ry Py) by lia.
    reflexivity.
Qed.

Lemma skip_ws_space (c : Z) (t : pystr) :
  is_json_ws c = false -> skip_ws (32 :: c :: t) = c :: t.
Proof. intros H. unfold skip_ws. simpl. rewrite H. reflexivity. Qed.

Lemma parse_object_items_encode (xs : list (pystr * value)) :
  Forall (fun kv => reads_back (snd kv)) xs ->
  forallb (fun kv => testo_ok (fst kv)) xs = true ->
  forallb (fun kv => json_plain (snd kv)) xs = true ->
  forall k x level rest f,
    testo_ok k = true ->
    reads_back x ->
    json_plain x = true ->
    (List.length (json_encode (S level) x)
     + List.length (encode_pairs level xs) < f)%nat ->
    parse_object_items f
      (encode_basestring k ++ [58; 32] ++ json_encode (S level) x
       ++ encode_pairs level xs ++ newline_indent level ++ 125 :: rest)
    = Ok ((k, x) :: xs, rest).
Proof.
  induction xs as [|[k' y] ys IH]; intros F T A k x level rest f Tk Rx Px B.
  - destruct f as [|f]; [lia|].
    destruct (json_encode_head (S level) x Px) as (c & t & E & W & _).
    unfold encode_basestring. cbn [parse_object_items encode_pairs app].
    change (34 =? 34) with true. cbv iota.
    rewrite <- app_assoc. cbn [app].
    rewrite (scanstring_encode _ _ (testo_ok_nonneg _ Tk)).
    rewrite skip_ws_head by reflexivity.
    change (58 =? 58) with true. cbv iota.
    assert (Sk : forall u, skip_ws (32 :: json_encode (S level) x ++ u)
                          = json_encode (S level) x ++ u).
    { intros u. rewrite E. cbn [app]. apply skip_ws_space. exact W. }
    rewrite Sk. rewrite (Rx Px) by (simpl in B; try lia; reflexivity).
    rewrite skip_ws_indent by reflexivity.
    change (125 =? 125) with true. reflexivity.
  - destruct f as [|f]; [lia|].
    inversion F as [|? ? Ry Rys]; subst. cbn [snd] in Ry.
    simpl in T, A. apply andb_true_iff in T as [Tk' Tys].
    apply andb_true_iff in A as [Py Pys].
    destruct (json_encode_head (S level) x Px) as (c & t & E & W & _).
    unfold encode_basestring at 1.
    cbn [parse_object_items]. cbn [encode_pairs] in B |- *.
    rewrite !length_app in B. cbn [List.length] in B.
    cbn [app]. change (34 =? 34) with true. cbv iota.
    rewrite <- app_assoc. cbn [app].
    rewrite (scanstring_encode _ _ (testo_ok_nonneg _ Tk)).
    rewrite skip_ws_head by reflexivity.
    change (58 =? 58) with true. cbv iota.
    assert (Sk : forall u, skip_ws (32 :: json_encode (S level) x ++ u)
                          = json_encode (S level) x ++ u).
    { intros u. rewrite E. cbn [app]. apply skip_ws_space. exact W. }
    rewrite Sk. rewrite (Rx Px) by (try lia; reflexivity).
    rewrite skip_ws_head by reflexivity.
    change (44 =? 125) with false. change (44 =? 44) with true. cbv iota.
    rewrite <- !app_assoc.
    assert (Sk' : forall u, skip_ws (newline_indent (S level)
                                     ++ encode_basestring k' ++ u)
                           = encode_basestring k' ++ u).
    { intros u. unfold encode_basestring. cbn [app].
      apply skip_ws_indent. reflexivity. }
    rewrite Sk'.
    pose proof (IH Rys Tys Pys k' y level rest f Tk' Ry Py ltac:(lia)) as IH'.
    cbn [app] in IH' |- *. rewrite <- ?app_assoc.
    match goal with
    | |- match ?a with _ => _ end = _ =>
        replace a with (@Ok (list (pystr * value) * pystr) ((k', y) :: ys, rest))
          by (symmetry; exact IH')
    end.
    reflexivity.
Qed.

Lemma scan_once_encode (v : value) : reads_back v.
Proof.
  induction v using value_induction; unfold reads_back;
    intros Pv level rest fuel B E; try discriminate.
  - destruct fuel as [|f]; [simpl in B; lia|]. reflexivity.
  - destruct fuel as [|f]; [destruct b; simpl in B; lia|].
    destruct b; reflexivity.
  - cbn [json_encode] in *.
    destruct (int_repr_head n) as (c & t & En & Hc).
    destruct fuel as [|f]; [rewrite En in B; simpl in B; lia|].
    rewrite <- (match_number_int_repr n rest E). rewrite En. cbn [app].
    apply scan_once_number.
    destruct Hc as [Hc|(-> & d & t' & -> & Hd)]; [left; exact Hc|].
    right. split; [reflexivity|]. exists d, (t' ++ rest). auto.
  - cbn [json_encode json_plain] in *. unfold encode_basestring in *.
    destruct fuel as [|f]; [simpl in B; lia|].
    cbn [app scan_once]. change (34 =? 34) with true. cbv iota.
    rewrite <- app_assoc. cbn [app].
    rewrite (scanstring_encode _ _ (testo_ok_nonneg _ Pv)). reflexivity.
  - destruct l as [|x xs].
    + destruct fuel as [|f]; [simpl in B; lia|]. reflexivity.
    + inversion H as [|? ? Rx Rxs]; subst.
      cbn [json_plain forallb] in Pv. apply andb_true_iff in Pv as [Px Pxs].
      rewrite json_encode_list in B |- *.
      rewrite !length_app in B. cbn [List.length] in B.
      destruct fuel as [|f]; [lia|].
      destruct (json_encode_head (S level) x Px) as (c & t & Ex & W & N93 & _).
      cbn [app scan_once].
      change (91 =? 34) with false. change (91 =? 123) with false.
      change (91 =? 91) with true. cbv iota.
      rewrite <- !app_assoc.
      assert (Sk : forall u,
                 skip_ws (newline_indent (S level)
                            ++ json_encode (S level) x ++ u)
                 = c :: t ++ u).
      { intros u. rewrite Ex. cbn [app]. apply skip_ws_indent. exact W. }
      rewrite Sk. apply Z.eqb_neq in N93. rewrite N93.
      pose proof (parse_array_items_encode xs Rxs Pxs x level rest f Rx Px
                    ltac:(lia)) as A.
      rewrite Ex in A. cbn [app] in A.
      match goal with
      | |- match ?a with _ => _ end = _ =>
          replace a with (@Ok (list value * pystr) (x :: xs, rest))
            by (symmetry; exact A)
      end.
      reflexivity.
  - destruct d as [|[k x] xs].
    + destruct fuel as [|f]; [simpl in B; lia|]. reflexivity.
    + inversion H as [|? ? Rx Rxs]; subst. cbn [snd] in Rx.
      rewrite json_plain_dict in Pv.
      apply andb_true_iff in Pv as [Pv Pxs].
      apply andb_true_iff in Pv as [Kd Txs].
      cbn [forallb fst snd] in Pxs, Txs.
      apply andb_true_iff in Pxs as [Px Pxs].
      apply andb_true_iff in Txs as [Tk Txs].
      rewrite json_encode_dict in B |- *.
      rewrite !length_app in B. cbn [List.length] in B.
      destruct fuel as [|f]; [lia|].
      cbn [app scan_once].
      change (123 =? 34) with false. change (123 =? 123) with true. cbv iota.
      rewrite <- !app_assoc.
      assert (Sk : forall u,
                 skip_ws (newline_indent (S level)
                            ++ encode_basestring k ++ u)
                 = 34 :: (flat_map escape_char k ++ [34]) ++ u).
      { intros u. unfold encode_basestring. cbn [app].
        apply skip_ws_indent. reflexivity. }
      rewrite Sk. change (34 =? 125) with false. cbv iota.
      cbn [app]. rewrite <- ?app_assoc. cbn [app]. rewrite <- ?app_assoc.
      cbn [app].
      pose proof (parse_object_items_encode xs Rxs Txs Pxs k x level rest f
                    Tk Rx Px ltac:(lia)) as A.
      unfold encode_basestring in A at 1. cbn [app] in A.
      rewrite <- ?app_assoc in A. cbn [app] in A.
      match goal with
      | |- match ?a with _ => _ end = _ =>
          replace a with (@Ok (list (pystr * value) * pystr)
                            ((k, x) :: xs, rest))
            by (symmetry; exact A)
      end.
      rewrite (dict_of_pairs_distinct _ Kd). reflexivity.
Qed.

(** The text [json.dump] writes for a value without floats is read back
    by [json.load] as that value. *)
Lemma json_loads_dumps (v : value) :
  json_plain v = true -> json_loads (json_dumps v) = Ok v.
Proof.
  intros P. unfold json_loads, json_dumps.
  destruct (json_encode_head 0 v P) as (c & t & E & W & _ & Bom).
  pose proof (scan_once_encode v P 0%nat [] (S (List.length (json_encode 0 v)))
                ltac:(lia) eq_refl) as A.
  rewrite app_nil_r in A.
  assert (X : forall (T : Type) (a b : T),
             match json_encode 0 v with 65279 :: _ => a | _ => b end = b).
  { intros T a b. rewrite E. destruct c as [|p|p]; try reflexivity.
    repeat (destruct p as [p|p|]; try reflexivity). lia. }
  assert (W' : skip_ws (json_encode 0 v) = json_encode 0 v).
  { rewrite E. apply skip_ws_head. exact W. }
  rewrite X, W', A. reflexivity.
Qed.

(** ** The text of a value is Unicode text *)

Lemma all_ascii_app (s t : pystr) :
  all_ascii s -> all_ascii t -> all_ascii (s ++ t).
Proof. intros A B c H. apply in_app_or in H as [H|H]; auto. Qed.

Lemma all_ascii_sub (s t : pystr) :
  (forall c, In c t -> In c s) -> all_ascii s -> all_ascii t.
Proof. intros H A c Hc. auto. Qed.

Lemma all_ascii_lit (s : pystr) :
  forallb (in_range 0 127) s = true -> all_ascii s.
Proof.
  intros H c Hc. rewrite forallb_forall in H. apply in_range_spec. auto.
Qed.

Lemma all_ascii_int_repr (n : Z) : all_ascii (int_repr n).
Proof.
  assert (U : forall d, all_ascii (uint_chars d)).
  { intros d c Hc. pose proof (uint_chars_digits d) as D.
    rewrite forallb_forall in D. specialize (D c Hc).
    unfold is_ascii_digit in D. apply in_range_spec in D. lia. }
  destruct n; simpl.
  - intros c [<-|[]]. lia.
  - apply U.
  - intros c [<-|H]; [lia|]. apply (U _ c H).
Qed.

Lemma all_ascii_repeat (c : Z) (n : nat) :
  0 <= c <= 127 -> all_ascii (repeat c n).
Proof. intros H x Hx. apply repeat_spec in Hx. subst. exact H. Qed.

Lemma all_ascii_firstn (n : nat) (s : pystr) :
  all_ascii s -> all_ascii (firstn n s).
Proof.
  apply all_ascii_sub. intros c H. rewrite <- (firstn_skipn n s).
  apply in_or_app. now left.
Qed.

Lemma all_ascii_skipn (n : nat) (s : pystr) :
  all_ascii s -> all_ascii (skipn n s).
Proof.
  apply all_ascii_sub. intros c H. rewrite <- (firstn_skipn n s).
  apply in_or_app. now right.
Qed.

Lemma strip_trailing_zeros_sub (r : pystr) (c : Z) :
  In c (strip_trailing_zeros_rev r) -> In c r.
Proof.
  induction r as [|x r IH]; simpl; [tauto|].
  destruct (x =? 48); simpl; auto.
Qed.

Lemma all_ascii_shortest_candidate (x : float) (n d k p : Z) (ds : pystr)
    (decpt : Z) :
  shortest_candidate x n d k p = Some (ds, decpt) -> all_ascii ds.
Proof.
  unfold shortest_candidate.
  set (q := k - p + 1). set (yn := if 0 <=? q then n else n * 10 ^ (- q)).
  set (yd := if 0 <=? q then d * 10 ^ q else d). set (lo := yn / yd).
  assert (P : forall c r, Some (rev (strip_trailing_zeros_rev (rev (int_repr c))),
                                Z.of_nat (List.length (int_repr c)) + q)
                          = Some r -> all_ascii (fst r)).
  { intros c r [= <-]. simpl.
    apply (all_ascii_sub (int_repr c)); [|apply all_ascii_int_repr].
    intros y Hy. apply in_rev in Hy. apply strip_trailing_zeros_sub in Hy.
    apply in_rev in Hy. exact Hy. }
  intros H.
  repeat match type of H with
         | match ?b with _ => _ end = _ => destruct b
         end; try discriminate; apply P in H; exact H.
Qed.

Lemma all_ascii_shortest_search (fuel : nat) (x : float) (n d k p : Z) :
  all_ascii (fst (shortest_search fuel x n d k p)).
Proof.
  revert p. induction fuel as [|f IH]; intros p; simpl.
  - intros c [<-|[]]. lia.
  - destruct (shortest_candidate x n d k p) as [[ds decpt]|] eqn:E.
    + simpl. eapply all_ascii_shortest_candidate. exact E.
    + apply IH.
Qed.

Ltac ascii_parts :=
  repeat first
    [ assumption
    | apply all_ascii_app
    | apply all_ascii_firstn
    | apply all_ascii_skipn
    | apply all_ascii_int_repr
    | apply all_ascii_repeat; lia
    | apply all_ascii_lit; reflexivity
    | match goal with
      | |- all_ascii (if ?b then _ else _) => destruct b
      end ].

Lemma all_ascii_float_repr (x : float) : all_ascii (float_repr x).
Proof.
  destruct x as [s|s| |s m e].
  - destruct s; apply all_ascii_lit; reflexivity.
  - destruct s; apply all_ascii_lit; reflexivity.
  - apply all_ascii_lit; reflexivity.
  - unfold float_repr, shortest_digits.
    match goal with
    | |- context [shortest_search ?f ?x ?n ?d ?k ?p] =>
        pose proof (all_ascii_shortest_search f x n d k p) as A;
        destruct (shortest_search f x n d k p) as [ds decpt]
    end.
    cbn [fst] in A. unfold exponent_text.
    pose proof (all_ascii_skipn 1 ds A) as K.
    assert (K' : all_ascii (match skipn 1 ds with
                            | [] => []
                            | fr => 46 :: fr
                            end)).
    { destruct (skipn 1 ds) as [|y fr]; [intros c []|].
      intros c [<-|H]; [lia|]. apply K, H. }
    ascii_parts.
Qed.

Lemma all_ascii_encode_float (x : float) : all_ascii (encode_float x).
Proof.
  pose proof (all_ascii_float_repr x) as A. unfold encode_float.
  destruct x as [s|s| |s m e]; try exact A.
  - destruct s; apply all_ascii_lit; reflexivity.
  - apply all_ascii_lit; reflexivity.
Qed.

Lemma all_valid_ascii (s : pystr) : all_ascii s -> all_valid s.
Proof.
  intros A c H. specialize (A c H). unfold valid_char.
  rewrite in_range_true by lia. reflexivity.
Qed.

Lemma all_valid_app (s t : pystr) :
  all_valid s -> all_valid t -> all_valid (s ++ t).
Proof. intros A B c H. apply in_app_or in H as [H|H]; auto. Qed.

Lemma all_valid_testo_ok (s : pystr) : all_valid s <-> testo_ok s = true.
Proof. unfold all_valid, testo_ok. rewrite forallb_forall. tauto. Qed.

Lemma all_valid_indent (level : nat) : all_valid (newline_indent level).
Proof.
  apply all_valid_ascii. unfold newline_indent.
  intros c [<-|H]; [lia|]. apply repeat_spec in H. lia.
Qed.

Lemma escape_char_valid (x c : Z) :
  valid_char x = true -> In c (escape_char x) -> valid_char c = true.
Proof.
  intros T Hc. unfold escape_char in Hc.
  repeat match type of Hc with
         | In _ (if ?b then _ else _) => destruct b eqn:?
         end;
    simpl in Hc;
    repeat (destruct Hc as [<-|Hc]; [try reflexivity|]); try contradiction;
    try exact T.
  - apply in_range_spec in Heqb6. unfold hex_digit, valid_char.
    destruct (_ <? 10); rewrite in_range_true
      by (Z.div_mod_to_equations; lia); reflexivity.
  - apply in_range_spec in Heqb6. unfold hex_digit, valid_char.
    destruct (_ <? 10); rewrite in_range_true
      by (Z.div_mod_to_equations; lia); reflexivity.
Qed.

Lemma all_valid_basestring (s : pystr) :
  testo_ok s = true -> all_valid (encode_basestring s).
Proof.
  intros T. apply all_valid_testo_ok in T. unfold encode_basestring.
  assert (Q : all_valid [34]) by (intros c [<-|[]]; reflexivity).
  change (34 :: flat_map escape_char s ++ [34])
    with ([34] ++ flat_map escape_char s ++ [34]).
  repeat apply all_valid_app; auto.
  intros c H. apply in_flat_map in H as (x & Hx & Hc).
  apply (escape_char_valid x c (T x Hx) Hc).
Qed.

Lemma testo_valido_dict (d : list (pystr * value)) :
  testo_valido (VDict d)
  = forallb (fun kv => testo_ok (fst kv)) d
    && forallb (fun kv => testo_valido (snd kv)) d.
Proof.
  cbn [testo_valido]. f_equal.
  induction d as [|[k x] r IH]; [reflexivity|]. simpl. rewrite IH. reflexivity.
Qed.

Lemma all_valid_lit (s : pystr) :
  forallb (in_range 0 127) s = true -> all_valid s.
Proof. intros H. apply all_valid_ascii, all_ascii_lit, H. Qed.

(** The text of a value whose strings are Unicode text is Unicode text. *)
Lemma json_encode_valid (v : value) :
  testo_valido v = true -> forall level, all_valid (json_encode level v).
Proof.
  induction v using value_induction; intros T level.
  - apply all_valid_lit. reflexivity.
  - destruct b; apply all_valid_lit; reflexivity.
  - apply all_valid_ascii, all_ascii_int_repr.
  - apply all_valid_ascii, all_ascii_encode_float.
  - apply all_valid_basestring. exact T.
  - destruct l as [|x xs]; [apply all_valid_lit; reflexivity|].
    rewrite json_encode_list.
    inversion H as [|? ? Rx Rxs]; subst.
    cbn [testo_valido forallb] in T. apply andb_true_iff in T as [Tx Txs].
    repeat apply all_valid_app; auto using all_valid_indent;
      try (apply all_valid_lit; reflexivity).
    clear Rx Tx H. induction xs as [|y ys IH]; [intros c []|].
    inversion Rxs as [|? ? Ry Rys]; subst.
    simpl in Txs. apply andb_true_iff in Txs as [Ty Tys].
    cbn [encode_items].
    repeat apply all_valid_app; auto using all_valid_indent;
      try (apply all_valid_lit; reflexivity).
  - destruct d as [|[k x] xs]; [apply all_valid_lit; reflexivity|].
    rewrite json_encode_dict. rewrite testo_valido_dict in T.
    inversion H as [|? ? Rx Rxs]; subst. cbn [snd] in Rx.
    apply andb_true_iff in T as [Tk Tv]. cbn [forallb fst snd] in Tk, Tv.
    apply andb_true_iff in Tk as [Tk Tks].
    apply andb_true_iff in Tv as [Tx Txs].
    repeat apply all_valid_app;
      auto using all_valid_indent, all_valid_basestring;
      try (apply all_valid_lit; reflexivity).
    clear Rx Tx Tk H. induction xs as [|[k' y] ys IH]; [intros c []|].
    inversion Rxs as [|? ? Ry Rys]; subst. cbn [snd] in Ry.
    simpl in Tks, Txs. apply andb_true_iff in Tks as [Tk' Tks].
    apply andb_true_iff in Txs as [Ty Tys].
    cbn [encode_pairs].
    repeat apply all_valid_app;
      auto using all_valid_indent, all_valid_basestring;
      try (apply all_valid_lit; reflexivity).
Qed.

Lemma json_plain_testo_valido (v : value) :
  json_plain v = true -> testo_valido v = true.
Proof.
  induction v using value_induction; intros P; try reflexivity;
    try discriminate.
  - exact P.
  - cbn [json_plain testo_valido] in *.
    induction l as [|x xs IH]; [reflexivity|].
    inversion H; subst. simpl in P |- *.
    apply andb_true_iff in P as [Px Pxs].
    apply andb_true_iff. split; auto.
  - rewrite json_plain_dict in P. rewrite testo_valido_dict.
    apply andb_true_iff in P as [P Pv]. apply andb_true_iff in P as [_ Pk].
    rewrite Pk. simpl.
    induction d as [|[k x] xs IH]; [reflexivity|].
    inversion H; subst. simpl in Pv, Pk |- *.
    apply andb_true_iff in Pv as [Px Pxs].
    apply andb_true_iff in Pk as [_ Pks].
    apply andb_true_iff. split; auto.
Qed.

(** Saving a roster whose strings are Unicode text succeeds: the file then
    holds the UTF-8 bytes of the JSON text, and they decode to that text. *)
Lemma salva_studenti_ok (path : string) (studenti : value) (w : world) :
  testo_valido studenti = true ->
  salva_studenti path studenti w
  = Ok (tt, {| files := set_file path (registro_di studenti) (files w);
               stdin := stdin w; stdout := stdout w |})
  /\ utf8_encode (json_dumps studenti) = Some (registro_di studenti)
  /\ utf8_decode (registro_di studenti) = Some (json_dumps studenti).
Proof.
  intros T.
  destruct (utf8_roundtrip (json_dumps studenti)) as (bs & E & D).
  { apply all_valid_testo_ok, json_encode_valid, T. }
  unfold salva_studenti, write_text, registro_di. rewrite E. auto.
Qed.

Lemma set_file_same (path : string) (bs : list Z) fs :
  set_file path bs fs path = Some bs.
Proof. unfold set_file. rewrite String.eqb_refl. reflexivity. Qed.

Lemma set_file_other (path p : string) (bs : list Z) fs :
  p <> path -> set_file path bs fs p = fs p.
Proof.
  intros H. unfold set_file. apply String.eqb_neq in H. rewrite H.
  reflexivity.
Qed.

(** ** Saving and loading *)

Lemma campo_valido_plain (kv : pystr * value) :
  campo_valido kv = true ->
  testo_ok (fst kv) = true /\ json_plain (snd kv) = true.
Proof.
  destruct kv as [k v]. unfold campo_valido. cbn [fst snd].
  destruct (str_eqb k (lit "voti")) eqn:E1.
  - apply str_eqb_eq in E1. subst. split; [reflexivity|].
    destruct v; try discriminate. cbn [json_plain].
    induction l as [|x xs IH]; [reflexivity|]. simpl in H |- *.
    apply andb_true_iff in H as [Hx Hxs]. rewrite (IH Hxs), andb_true_r.
    destruct x; try discriminate. reflexivity.
  - destruct (_ || _) eqn:E2; [|discriminate].
    intros H. split.
    + apply orb_true_iff in E2 as [E2|E2];
        [apply orb_true_iff in E2 as [E2|E2]|];
        apply str_eqb_eq in E2; subst; reflexivity.
    + destruct v; try discriminate. exact H.
Qed.

Lemma record_valido_plain (r : value) :
  record_valido r = true -> json_plain r = true.
Proof.
  destruct r; try discriminate. unfold record_valido.
  intros H. apply andb_true_iff in H as [H _].
  apply andb_true_iff in H as [K F].
  rewrite json_plain_dict, K. cbn [andb].
  apply andb_true_iff. split; apply forallb_forall; intros kv Hkv;
    rewrite forallb_forall in F; apply campo_valido_plain; auto.
Qed.

(** C2.  For every roster of valid records (a dict each, of the three
    names, which are strings, and the grades, a list of integers), saving
    the roster with the encoder of the mutation operations succeeds, and
    loading the file afterwards returns the roster itself and prints
    nothing. *)
Theorem salva_leggi_roundtrip (path : string) (roster : list value) (w : world) :
  forallb record_valido roster = true ->
  let w' := {| files := set_file path (registro_di (VList roster)) (files w);
               stdin := stdin w; stdout := stdout w |} in
  salva_studenti path (VList roster) w = Ok (tt, w')
  /\ leggi_studenti_da_file path w' = Ok (VList roster, w').
Proof.
  intros V w'.
  assert (P : json_plain (VList roster) = true).
  { cbn [json_plain]. apply forallb_forall. intros r Hr.
    rewrite forallb_forall in V. apply record_valido_plain. auto. }
  destruct (salva_studenti_ok path (VList roster) w
              (json_plain_testo_valido _ P)) as (S1 & _ & D).
  split; [exact S1|].
  rewrite (leggi_decoded path w' _ _ (set_file_same _ _ _) D).
  rewrite (json_loads_dumps _ P). reflexivity.
Qed.

(** ** Deleting a student *)

Lemma remove_nth_middle {A} (pre post : list A) (r : A) :
  remove_nth (List.length pre) (pre ++ r :: post) = pre ++ post.
Proof. induction pre as [|x pre IH]; simpl; [reflexivity|]. now rewrite IH. Qed.

Lemma nth_error_middle {A} (pre post : list A) (r : A) :
  nth_error (pre ++ r :: post) (List.length pre) = Some r.
Proof. induction pre as [|x pre IH]; simpl; auto. Qed.

Lemma py_truthy_nonempty_list (x : value) (xs : list value) :
  py_truthy (VList (x :: xs)) = true.
Proof. reflexivity. Qed.

(** What [cancella_studente] does once the record is found: it asks for
    the confirmation, and removes the record only on the answer [s]. *)
Lemma cancella_studente_found
    (path : string) (w w1 : world) (pre post : list value) (r : value)
    (riga risposta : pystr) (rest : list pystr) :
  leggi_studenti_da_file path w = Ok (VList (pre ++ r :: post), w1) ->
  forallb is_record pre = true ->
  existsb (ha_matricola (py_strip riga)) pre = false ->
  ha_matricola (py_strip riga) r = true ->
  stdin w = riga :: risposta :: rest ->
  cancella_studente path w
  = let asked := stdout w1 ++ [ MsgPrompt PromptMatricolaCancella;
                                MsgPrompt (PromptConferma
                                             (campo r (lit "nome") n_d)
                                             (campo r (lit "cognome") n_d)) ] in
    if str_eqb (py_lower (py_strip risposta)) (lit "s") then
      match utf8_encode (json_dumps (VList (pre ++ post))) with
      | Some bs =>
          Ok (tt, {| files := set_file path bs (files w); stdin := rest;
                     stdout := asked ++ [ MsgStudentRemoved
                                            (campo r (lit "nome") n_d)
                                            (campo r (lit "cognome") n_d) ] |})
      | None => Raise UnicodeEncodeError
      end
    else
      Ok (tt, {| files := files w; stdin := rest;
                 stdout := asked ++ [MsgCancelled] |}).
Proof.
  intros L R N H I. destruct (leggi_frame _ _ _ _ L) as (F & S1 & _).
  destruct (ha_matricola_record _ _ H) as [Hr _].
  unfold cancella_studente, bind. rewrite L.
  assert (T : py_truthy (VList (pre ++ r :: post)) = true)
    by (destruct pre; reflexivity).
  rewrite T. cbn [negb]. unfold input at 1. rewrite S1, I.
  cbn [lift py_iter]. rewrite (cerca_studente_first _ _ _ _ 0%nat R N H).
  unfold lift. cbn [Nat.add py_index]. rewrite nth_error_middle.
  destruct r as [| | | | | |d]; try discriminate.
  rewrite !py_get_campo. unfold input. cbn [stdin files stdout].
  cbn zeta.
  destruct (str_eqb (py_lower (py_strip risposta)) (lit "s")); cbn [negb].
  - cbn [py_pop]. rewrite nth_error_middle, remove_nth_middle.
    unfold salva_studenti, write_text.
    destruct (utf8_encode (json_dumps (VList (pre ++ post)))); [|reflexivity].
    unfold print. cbn [stdin files stdout]. rewrite F, <- !app_assoc.
    reflexivity.
  - unfold print. cbn [stdin files stdout]. rewrite F, <- !app_assoc.
    reflexivity.
Qed.

(** C7, as amended.  After loading the roster, [cancella_studente] answers
    that the roster is empty when it is; on a roster of records none of
    which has the identifier typed, that no student was found; in both
    cases every file is as it was.  Otherwise it asks for confirmation, and
    when the answer is [s] it removes the first record with the identifier,
    at its place, keeps the other records in their order, and writes the
    remaining roster to the file.  Deleting the only record leaves the file
    holding the empty list. *)
Theorem cancella_studente_spec (path : string) (w w1 : world) (studenti : value) :
  leggi_studenti_da_file path w = Ok (studenti, w1) ->
  (py_truthy studenti = false ->
   cancella_studente path w
   = Ok (tt, {| files := files w; stdin := stdin w;
                stdout := stdout w1 ++ [MsgEmptyRoster] |}))
  /\ (forall records riga rest,
        studenti = VList records ->
        py_truthy studenti = true ->
        forallb is_record records = true ->
        stdin w = riga :: rest ->
        existsb (ha_matricola (py_strip riga)) records = false ->
        cancella_studente path w
        = Ok (tt, {| files := files w; stdin := rest;
                     stdout := stdout w1
                               ++ [ MsgPrompt PromptMatricolaCancella;
                                    MsgStudentNotFound (py_strip riga) ] |}))
  /\ (forall pre r post riga risposta rest,
        studenti = VList (pre ++ r :: post) ->
        forallb is_record pre = true ->
        existsb (ha_matricola (py_strip riga)) pre = false ->
        ha_matricola (py_strip riga) r = true ->
        stdin w = riga :: risposta :: rest ->
        py_lower (py_strip risposta) = lit "s" ->
        testo_valido (VList (pre ++ post)) = true ->
        cancella_studente path w
        = Ok (tt, {| files := set_file path (registro_di (VList (pre ++ post)))
                                (files w);
                     stdin := rest;
                     stdout := stdout w1
                               ++ [ MsgPrompt PromptMatricolaCancella;
                                    MsgPrompt (PromptConferma
                                                 (campo r (lit "nome") n_d)
                                                 (campo r (lit "cognome") n_d));
                                    MsgStudentRemoved
                                      (campo r (lit "nome") n_d)
                                      (campo r (lit "cognome") n_d) ] |})
        /\ utf8_decode (registro_di (VList (pre ++ post)))
           = Some (json_dumps (VList (pre ++ post))))
  /\ registro_di (VList ([] ++ [])) = [91; 93].
Proof.
  intros L. destruct (leggi_frame _ _ _ _ L) as (F & S1 & _).
  split; [|split; [|split; [|reflexivity]]].
  - intros T. unfold cancella_studente, bind. rewrite L, T. cbn [negb].
    unfold print. rewrite F, S1. reflexivity.
  - intros records riga rest -> T R I N.
    unfold cancella_studente, bind. rewrite L, T. cbn [negb].
    unfold input. rewrite S1, I. cbn [lift py_iter].
    rewrite (cerca_studente_none _ _ _ R N). unfold lift, print.
    cbn [files stdin stdout]. rewrite F, <- app_assoc. reflexivity.
  - intros pre r post riga risposta rest -> R N H I C T.
    rewrite (cancella_studente_found _ _ _ _ _ _ _ _ _ L R N H I).
    cbn zeta. rewrite C, str_eqb_refl.
    destruct (salva_studenti_ok path (VList (pre ++ post)) w T)
      as (_ & E & D).
    rewrite E, <- !app_assoc. auto.
Qed.

(** C7, the counterexample: the roster has one record, its identifier is
    the one typed, and the record is not removed, because the answer to the
    confirmation is [n]: the file is as it was. *)
Lemma cancella_studente_declined :
  cancella_studente "registro.txt"
    (mondo (un_file "registro.txt" (registro_di (VList [ana])))
       [lit "S1"; lit "n"])
  = Ok (tt, {| files := un_file "registro.txt" (registro_di (VList [ana]));
               stdin := [];
               stdout := [ MsgPrompt PromptMatricolaCancella;
                           MsgPrompt (PromptConferma (VStr (lit "Ana"))
                                        (VStr (lit "Li")));
                           MsgCancelled ] |}).
Proof. vm_compute. reflexivity. Qed.

(** A run of C7: of the two records with the identifier S1 the first is
    removed, the others stay in their order, and the file is rewritten. *)
Lemma cancella_studente_spec_witness :
  cancella_studente "registro.txt"
    (mondo (un_file "registro.txt"
              (registro_di (VList [bruno; ana; studente "S1" "Eva" "Po" [18]])))
       [lit " S1 "; lit " S "])
  = Ok (tt, {| files := set_file "registro.txt"
                          (registro_di
                             (VList ([bruno]
                                     ++ [studente "S1" "Eva" "Po" [18]])))
                          (un_file "registro.txt"
                             (registro_di
                                (VList [bruno; ana;
                                        studente "S1" "Eva" "Po" [18]])));
               stdin := [];
               stdout := [] ++ [ MsgPrompt PromptMatricolaCancella;
                                 MsgPrompt (PromptConferma
                                              (campo ana (lit "nome") n_d)
                                              (campo ana (lit "cognome") n_d));
                                 MsgStudentRemoved
                                   (campo ana (lit "nome") n_d)
                                   (campo ana (lit "cognome") n_d) ] |}).
Proof.
  pose (w := mondo (un_file "registro.txt"
                      (registro_di
                         (VList [bruno; ana; studente "S1" "Eva" "Po" [18]])))
               [lit " S1 "; lit " S "]).
  destruct (cancella_studente_spec "registro.txt" w w
              (VList [bruno; ana; studente "S1" "Eva" "Po" [18]]))
    as (_ & _ & H & _); [vm_compute; reflexivity|].
  destruct (H [bruno] ana [studente "S1" "Eva" "Po" [18]]
              (lit " S1 ") (lit " S ") []) as [R _];
    [vm_compute; reflexivity .. | exact R].
Defined.

(** ** The confirmation *)

Lemma py_lower_nil (t : pystr) : py_lower t = [] -> t = [].
Proof.
  destruct t as [|c r]; [reflexivity|]. simpl. unfold lower_char.
  destruct (in_range 65 90 c); [discriminate|].
  destruct (c =? 8490); [discriminate|].
  destruct (c =? 304); discriminate.
Qed.

(** The answers that confirm are, stripped, [s] and [S]. *)
Lemma py_lower_s (t : pystr) :
  py_lower t = lit "s" <-> t = lit "s" \/ t = lit "S".
Proof.
  split.
  - destruct t as [|c r]; [discriminate|]. simpl. unfold lower_char.
    destruct (in_range 65 90 c) eqn:E1.
    { intros [= Hc Hr]. apply py_lower_nil in Hr. subst r. right.
      assert (c = 83) by lia. subst. reflexivity. }
    destruct (c =? 8490); [discriminate|].
    destruct (c =? 304); [discriminate|].
    intros [= Hc Hr]. apply py_lower_nil in Hr. subst. now left.
  - intros [->| ->]; reflexivity.
Qed.

Lemma menu_scelta_4 (n : nat) (path : string) (w : world) (scelta : pystr)
    (others : list pystr) :
  stdin w = scelta :: others ->
  py_strip scelta = lit "4" ->
  menu (S n) path w
  = bind (cancella_studente path) (fun _ => menu n path)
      {| files := files w; stdin := others;
         stdout := stdout w ++ [MsgMenu; MsgPrompt PromptScelta] |}.
Proof.
  intros I E. cbn [menu]. unfold bind at 1, print at 1.
  unfold bind at 1, input at 1. cbn [files stdin stdout]. rewrite I, E.
  rewrite <- app_assoc. reflexivity.
Qed.

(** C8, as amended.  The confirmation is part of [cancella_studente]: once
    the record is found the operation itself asks for it, and unless the
    answer, stripped, is [s] or [S], it prints that the operation is
    cancelled and removes nothing, every file being as it was.  The menu
    asks nothing of its own: on the choice 4 it calls [cancella_studente]
    at once. *)
Theorem cancella_studente_asks_confirmation
    (path : string) (w w1 : world) (pre post : list value) (r : value)
    (riga risposta : pystr) (rest : list pystr) :
  leggi_studenti_da_file path w = Ok (VList (pre ++ r :: post), w1) ->
  forallb is_record pre = true ->
  existsb (ha_matricola (py_strip riga)) pre = false ->
  ha_matricola (py_strip riga) r = true ->
  stdin w = riga :: risposta :: rest ->
  (py_strip risposta <> lit "s" ->
   py_strip risposta <> lit "S" ->
   cancella_studente path w
   = Ok (tt, {| files := files w; stdin := rest;
                stdout := stdout w1
                          ++ [ MsgPrompt PromptMatricolaCancella;
                               MsgPrompt (PromptConferma
                                            (campo r (lit "nome") n_d)
                                            (campo r (lit "cognome") n_d));
                               MsgCancelled ] |}))
  /\ (forall n w0 scelta others,
        stdin w0 = scelta :: others ->
        py_strip scelta = lit "4" ->
        menu (S n) path w0
        = bind (cancella_studente path) (fun _ => menu n path)
            {| files := files w0; stdin := others;
               stdout := stdout w0 ++ [MsgMenu; MsgPrompt PromptScelta] |}).
Proof.
  intros L R N H I. split.
  - intros N1 N2.
    rewrite (cancella_studente_found _ _ _ _ _ _ _ _ _ L R N H I). cbn zeta.
    destruct (str_eqb (py_lower (py_strip risposta)) (lit "s")) eqn:E.
    + apply str_eqb_eq, py_lower_s in E. tauto.
    + rewrite <- app_assoc. reflexivity.
  - intros n w0 scelta others. apply menu_scelta_4.
Qed.

(** A run of C8: the answer [no] leaves both records in the file. *)
Lemma cancella_studente_asks_confirmation_witness :
  cancella_studente "registro.txt"
    (mondo (un_file "registro.txt" (registro_di (VList [ana; bruno])))
       [lit "S2"; lit "no"])
  = Ok (tt, {| files := un_file "registro.txt" (registro_di (VList [ana; bruno]));
               stdin := [];
               stdout := [] ++ [ MsgPrompt PromptMatricolaCancella;
                                 MsgPrompt (PromptConferma
                                              (campo bruno (lit "nome") n_d)
                                              (campo bruno (lit "cognome") n_d));
                                 MsgCancelled ] |}).
Proof.
  pose (w := mondo (un_file "registro.txt" (registro_di (VList [ana; bruno])))
               [lit "S2"; lit "no"]).
  destruct (cancella_studente_asks_confirmation "registro.txt" w w
              [ana] [] bruno (lit "S2") (lit "no") [])
    as [A _]; [vm_compute; reflexivity .. | ].
  apply A; vm_compute; discriminate.
Defined.

(** C8, the counterexample: the whole program is run; the user chooses 4,
    types the identifier of a record of the roster and then just presses
    Enter.  The delete operation has been invoked, on a roster that is not
    empty and with an identifier that matches, and it removes nothing: it
    asks for the confirmation itself and cancels. *)
Lemma programma_delete_not_confirmed :
  programma "registro.txt"
    (mondo (un_file "registro.txt" (registro_di (VList [ana; bruno])))
       [lit "4"; lit "S2"; []; lit "0"])
  = Ok (tt, {| files := un_file "registro.txt" (registro_di (VList [ana; bruno]));
               stdin := [];
               stdout := [ MsgMenu; MsgPrompt PromptScelta;
                           MsgPrompt PromptMatricolaCancella;
                           MsgPrompt (PromptConferma (VStr (lit "Bruno"))
                                        (VStr (lit "Re")));
                           MsgCancelled;
                           MsgMenu; MsgPrompt PromptScelta; MsgExit ] |}).
Proof. vm_compute. reflexivity. Qed.

(** ** Runs *)

(** A run of C2: a roster of two records, one of them with a quote, a
    backslash, a line feed, a letter outside ASCII and a character outside
    the basic plane in its names, and grades of any size and sign. *)
Lemma salva_leggi_roundtrip_witness :
  let roster :=
    [ ana;
      VDict [ (lit "voti", VList [VInt 30; VInt 0; VInt (-7); VInt (10 ^ 30)]);
              (lit "cognome", VStr [34; 92; 10; 233; 128512]);
              (lit "matricola", VStr []);
              (lit "nome", VStr (lit "Zoe")) ] ] in
  let w' := {| files := set_file "registro.txt" (registro_di (VList roster))
                          nessun_file;
               stdin := []; stdout := [] |} in
  salva_studenti "registro.txt" (VList roster) (mondo nessun_file [])
  = Ok (tt, w')
  /\ leggi_studenti_da_file "registro.txt" w' = Ok (VList roster, w').
Proof.
  intros roster w'.
  apply (salva_leggi_roundtrip "registro.txt" roster (mondo nessun_file [])).
  reflexivity.
Defined.

(** The successful run of [aggiungi_voto]: the grade goes to the first
    record with the identifier, the others are as they were, and the
    roster is saved. *)
Lemma aggiungi_voto_first_match
    (path : string) (w w1 : world) (pre post : list value) (r r' : value)
    (riga riga_voto : pystr) (rest : list pystr) (voto : Z)
    (nome cognome : value) :
  leggi_studenti_da_file path w = Ok (VList (pre ++ r :: post), w1) ->
  forallb is_record pre = true ->
  existsb (ha_matricola (py_strip riga)) pre = false ->
  ha_matricola (py_strip riga) r = true ->
  stdin w = riga :: riga_voto :: rest ->
  parse_single_grade (py_strip riga_voto) = Some voto ->
  aggiungi_a_voti r voto = Ok r' ->
  py_getitem r' (lit "nome") = Ok nome ->
  py_getitem r' (lit "cognome") = Ok cognome ->
  testo_valido (VList (pre ++ r' :: post)) = true ->
  aggiungi_voto path w
  = Ok (tt, {| files := set_file path (registro_di (VList (pre ++ r' :: post)))
                          (files w);
               stdin := rest;
               stdout := stdout w1 ++ [ MsgPrompt PromptMatricola;
                                        MsgPrompt PromptNuovoVoto;
                                        MsgGradeAdded voto nome cognome ] |}).
Proof.
  intros L R N H I G A Gn Gc T.
  destruct (leggi_frame _ _ _ _ L) as (F & S1 & _).
  destruct (ha_matricola_record _ _ H) as [_ Tr].
  unfold aggiungi_voto, bind. rewrite L. unfold input at 1. rewrite S1, I.
  cbn [lift py_iter]. rewrite (cerca_studente_first _ _ _ _ 0%nat R N H).
  unfold lift at 1. rewrite Tr. cbn [negb].
  unfold input. cbn [stdin files stdout]. rewrite G.
  unfold lift at 1. rewrite A. cbn [Nat.add aggiorna_elemento].
  assert (E : replace_nth (List.length pre) r' (pre ++ r :: post)
              = pre ++ r' :: post).
  { clear. induction pre as [|x pre IH]; simpl; [reflexivity|].
    now rewrite IH. }
  rewrite E.
  destruct (salva_studenti_ok path (VList (pre ++ r' :: post))
              {| files := files w1; stdin := rest;
                 stdout := (stdout w1 ++ [MsgPrompt PromptMatricola])
                           ++ [MsgPrompt PromptNuovoVoto] |} T) as (Sv & _).
  rewrite Sv. unfold lift. rewrite Gn, Gc. unfold print.
  cbn [files stdin stdout]. rewrite F, <- !app_assoc. reflexivity.
Qed.

(** The scenario of the specification: the roster holds Ana Li, S1, with
    the grades 20 and 22; the grade 25 is added; the record then has the
    grades 20, 22, 25, and the listing shows the average 67/3. *)
Example scenario_add_grade :
  let w := mondo (un_file "registro.txt" (registro_di (VList [ana])))
             [lit "S1"; lit "25"] in
  let ana' := studente "S1" "Ana" "Li" [20; 22; 25] in
  aggiungi_voto "registro.txt" w
  = Ok (tt, {| files := set_file "registro.txt" (registro_di (VList [ana']))
                          (files w);
               stdin := [];
               stdout := [ MsgPrompt PromptMatricola; MsgPrompt PromptNuovoVoto;
                           MsgGradeAdded 25 (VStr (lit "Ana"))
                             (VStr (lit "Li")) ] |})
  /\ esegui_processo "registro.txt"
       (mondo (un_file "registro.txt" (registro_di (VList [ana']))) [])
     = Ok (tt, {| files := un_file "registro.txt" (registro_di (VList [ana']));
                  stdin := [];
                  stdout := [ MsgStudentList;
                              MsgStudentLine (VStr (lit "S1")) (VStr (lit "Ana"))
                                (VStr (lit "Li"))
                                (S754_finite false 6286274479871317 (-48)) ] |}).
Proof. split; vm_compute; reflexivity. Qed.

(** Adding a student with a valid grade, on a store that does not exist
    yet: the file is created with the one record. *)
Example scenario_add_student :
  aggiungi_studente "registro.txt"
    (mondo nessun_file [lit "S1"; lit "Ana"; lit "Li"; lit "20, x, 22"])
  = Ok (tt, {| files := set_file "registro.txt" (registro_di (VList [ana]))
                          nessun_file;
               stdin := [];
               stdout := [ MsgPrompt PromptStudentId; MsgPrompt PromptFirstName;
                           MsgPrompt PromptLastName; MsgPrompt PromptGrades;
                           MsgErroreLettura;
                           MsgStudentAdded (lit "Ana") (lit "Li") ] |}).
Proof. vm_compute. reflexivity. Qed.

(** * Further properties *)

(** ** The mandatory fields *)

Lemma drop_while_head_false (f : codepoint -> bool) (s : pystr) (c : Z)
    (r : pystr) :
  drop_while f s = c :: r -> f c = false.
Proof.
  induction s as [|x s IH]; simpl; [discriminate|].
  destruct (f x) eqn:E; [exact IH|]. intros [= <- _]. exact E.
Qed.

Lemma drop_while_split (f : codepoint -> bool) (s : pystr) :
  exists ws, s = ws ++ drop_while f s /\ forallb f ws = true.
Proof.
  induction s as [|x s (ws & E & A)]; simpl.
  - exists []. auto.
  - destruct (f x) eqn:F.
    + exists (x :: ws). simpl. rewrite F, A. split; [congruence|reflexivity].
    + exists []. auto.
Qed.

Lemma drop_while_idempotent (f : codepoint -> bool) (s : pystr) :
  drop_while f (drop_while f s) = drop_while f s.
Proof.
  apply drop_while_head. destruct (drop_while f s) as [|c r] eqn:E; [exact I|].
  eapply drop_while_head_false, E.
Qed.

Lemma strip_with_idempotent (f : codepoint -> bool) (s : pystr) :
  strip_with f (strip_with f s) = strip_with f s.
Proof.
  unfold strip_with.
  remember (drop_while f s) as u eqn:Hu.
  remember (drop_while f (rev u)) as v eqn:Hv.
  assert (A : drop_while f (rev v) = rev v).
  { apply drop_while_head. destruct (rev v) as [|c r] eqn:E; [exact I|].
    destruct (drop_while_split f (rev u)) as (ws & Eu & _).
    rewrite <- Hv in Eu. apply (f_equal (@rev Z)) in Eu.
    rewrite rev_involutive, rev_app_distr, E in Eu.
    rewrite Eu in Hu. symmetry in Hu. cbn [app] in Hu.
    eapply drop_while_head_false, Hu. }
  rewrite A, rev_involutive. f_equal.
  rewrite Hv. apply drop_while_idempotent.
Qed.

Lemma py_strip_idempotent (s : pystr) : py_strip (py_strip s) = py_strip s.
Proof. apply strip_with_idempotent. Qed.

Lemma leggi_non_vuoto_blanks (p : prompt) (avviso : message)
    (blanks tail : list pystr) (out : list message) :
  forallb riga_vuota blanks = true ->
  leggi_non_vuoto p avviso (blanks ++ tail) out
  = leggi_non_vuoto p avviso tail (out ++ avvisi p avviso blanks).
Proof.
  revert out. induction blanks as [|b bs IH]; intros out H.
  - simpl. rewrite app_nil_r. reflexivity.
  - simpl in H. apply andb_true_iff in H as [Hb Hbs].
    unfold riga_vuota in Hb. cbn [app leggi_non_vuoto].
    destruct (py_strip b); [|discriminate].
    rewrite (IH _ Hbs). unfold avvisi. cbn [flat_map].
    rewrite <- app_assoc. reflexivity.
Qed.

(** X1.  The loop of a mandatory field ([while True: x = input(p).strip();
    if x: break; print(warning)]): every blank line is answered with the
    warning and asked again; the first line that is not blank ends the loop,
    and the field is that line stripped, which is neither empty nor has
    whitespace around it; no file changes.  When every line left is blank
    the loop ends with [EOFError]. *)
Theorem chiedi_skips_blank_lines
    (p : prompt) (avviso : message) (w : world) (blanks : list pystr) :
  forallb riga_vuota blanks = true ->
  (stdin w = blanks -> chiedi p avviso w = Raise EOFError)
  /\ (forall l rest,
        stdin w = blanks ++ l :: rest ->
        riga_vuota l = false ->
        chiedi p avviso w
        = Ok (py_strip l,
              {| files := files w; stdin := rest;
                 stdout := stdout w ++ avvisi p avviso blanks
                           ++ [MsgPrompt p] |})
        /\ py_strip l <> []
        /\ py_strip (py_strip l) = py_strip l).
Proof.
  intros B. split.
  - intros E. unfold chiedi. rewrite E.
    rewrite <- (app_nil_r blanks), (leggi_non_vuoto_blanks _ _ _ _ _ B).
    reflexivity.
  - intros l rest E N. unfold riga_vuota in N.
    split; [|split; [|apply py_strip_idempotent]].
    + unfold chiedi. rewrite E, (leggi_non_vuoto_blanks _ _ _ _ _ B).
      cbn [leggi_non_vuoto].
      destruct (py_strip l); [discriminate|].
      rewrite <- app_assoc. reflexivity.
    + destruct (py_strip l); [discriminate|]. discriminate.
Qed.

(** A run of X1: two blank answers, then a first name with spaces around it;
    and two blank answers with nothing after them. *)
Lemma chiedi_skips_blank_lines_witness :
  chiedi PromptFirstName MsgEmptyFirstName
    (mondo nessun_file [lit "  "; []; lit " Ana "; lit "Li"])
  = Ok (lit "Ana",
        {| files := nessun_file; stdin := [lit "Li"];
           stdout := [ MsgPrompt PromptFirstName; MsgEmptyFirstName;
                       MsgPrompt PromptFirstName; MsgEmptyFirstName;
                       MsgPrompt PromptFirstName ] |})
  /\ chiedi PromptFirstName MsgEmptyFirstName
       (mondo nessun_file [lit "  "; []])
     = Raise EOFError.
Proof.
  destruct (chiedi_skips_blank_lines PromptFirstName MsgEmptyFirstName
              (mondo nessun_file [lit "  "; []; lit " Ana "; lit "Li"])
              [lit "  "; []]) as [_ A]; [vm_compute; reflexivity|].
  destruct (A (lit " Ana ") [lit "Li"]) as [A1 _];
    [reflexivity | vm_compute; reflexivity |].
  destruct (chiedi_skips_blank_lines PromptFirstName MsgEmptyFirstName
              (mondo nessun_file [lit "  "; []])
              [lit "  "; []]) as [B _]; [vm_compute; reflexivity|].
  split; [exact A1 | apply B; reflexivity].
Defined.

(** ** Adding a student *)

Lemma aggiungi_studente_dati
    (path : string) (w w1 : world) (matricola nome cognome voti_input : pystr)
    (v : Z) (vs : list Z) :
  dati_studente w = Ok ((matricola, nome, cognome, voti_input), w1) ->
  parse_grade_list voti_input = Ok (v :: vs) ->
  aggiungi_studente path w
  = (studenti <- leggi_studenti_da_file path ;;
     studenti' <- lift (py_append studenti
                          (nuovo_studente matricola nome cognome (v :: vs))) ;;
     salva_studenti path studenti' ;;;
     print (MsgStudentAdded nome cognome)) w1.
Proof.
  intros H P. revert H. unfold aggiungi_studente, dati_studente, ret.
  unfold bind at 1 2 3 4 5 6 7 8 9.
  destruct (chiedi PromptStudentId MsgEmptyStudentId w) as [[m wa]|];
    [|discriminate].
  destruct (chiedi PromptFirstName MsgEmptyFirstName wa) as [[n wb]|];
    [|discriminate].
  destruct (chiedi PromptLastName MsgEmptyLastName wb) as [[c wc]|];
    [|discriminate].
  destruct (input PromptGrades wc) as [[vi wd]|]; [|discriminate].
  intros [= -> -> -> -> ->]. unfold lift at 1. rewrite P. reflexivity.
Qed.

Lemma testo_valido_list (l : list value) :
  testo_valido (VList l) = forallb testo_valido l.
Proof. reflexivity. Qed.

Lemma json_plain_list (l : list value) :
  json_plain (VList l) = forallb json_plain l.
Proof. reflexivity. Qed.

Lemma aggiungi_studente_salva
    (path : string) (w w1 w2 : world)
    (matricola nome cognome voti_input : pystr) (v : Z) (vs : list Z)
    (items : list value) :
  dati_studente w = Ok ((matricola, nome, cognome, voti_input), w1) ->
  parse_grade_list voti_input = Ok (v :: vs) ->
  leggi_studenti_da_file path w1 = Ok (VList items, w2) ->
  testo_valido
    (VList (items ++ [nuovo_studente matricola nome cognome (v :: vs)]))
  = true ->
  aggiungi_studente path w
  = Ok (tt, {| files := set_file path
                          (registro_di
                             (VList (items
                                     ++ [nuovo_studente matricola nome cognome
                                           (v :: vs)])))
                          (files w);
               stdin := stdin w1;
               stdout := stdout w2 ++ [MsgStudentAdded nome cognome] |}).
Proof.
  intros H P L T.
  rewrite (aggiungi_studente_dati path _ _ _ _ _ _ _ _ H P).
  destruct (leggi_frame _ _ _ _ L) as (F & S1 & _).
  pose proof (dati_studente_files _ _ _ H) as F1.
  unfold bind. rewrite L. cbn [lift py_append].
  destruct (salva_studenti_ok path _ w2 T) as (Sv & _).
  rewrite Sv. unfold print. cbn [files stdin stdout].
  rewrite F, F1, S1. reflexivity.
Qed.

Lemma json_plain_nuovo_studente (matricola nome cognome : pystr)
    (voti : list Z) :
  testo_ok matricola = true -> testo_ok nome = true ->
  testo_ok cognome = true ->
  json_plain (nuovo_studente matricola nome cognome voti) = true.
Proof.
  intros A B C. unfold nuovo_studente. rewrite json_plain_dict.
  cbn [keys_distinct forallb fst snd json_plain existsb].
  rewrite A, B, C.
  assert (V : forallb json_plain (map VInt voti) = true).
  { induction voti; simpl; auto. }
  rewrite V. vm_compute. reflexivity.
Qed.

Lemma leggi_scritto (path : string) (v : value) (w : world) :
  json_plain v = true ->
  files w path = Some (registro_di v) ->
  leggi_studenti_da_file path w = Ok (v, w).
Proof.
  intros P F.
  destruct (salva_studenti_ok path v w (json_plain_testo_valido _ P))
    as (_ & _ & D).
  rewrite (leggi_decoded path w _ _ F D), (json_loads_dumps _ P). reflexivity.
Qed.

(** X2.  The successful run of [aggiungi_studente]: with the three fields
    and at least one valid grade, the new record (identifier, names, grades,
    in this order) is appended at the end of the roster the store holds,
    whose records stay as they are, in their order, and the roster is saved.
    Nothing is checked against the records already there: the identifier may
    be one the roster already has.  Loading the store afterwards returns the
    roster with the new record last. *)
Theorem aggiungi_studente_appends_record
    (path : string) (w w1 w2 : world)
    (matricola nome cognome voti_input : pystr) (v : Z) (vs : list Z)
    (items : list value) :
  dati_studente w = Ok ((matricola, nome, cognome, voti_input), w1) ->
  parse_grade_list voti_input = Ok (v :: vs) ->
  leggi_studenti_da_file path w1 = Ok (VList items, w2) ->
  json_plain
    (VList (items ++ [nuovo_studente matricola nome cognome (v :: vs)]))
  = true ->
  let roster :=
    VList (items ++ [nuovo_studente matricola nome cognome (v :: vs)]) in
  let w' := {| files := set_file path (registro_di roster) (files w);
               stdin := stdin w1;
               stdout := stdout w2 ++ [MsgStudentAdded nome cognome] |} in
  aggiungi_studente path w = Ok (tt, w')
  /\ leggi_studenti_da_file path w' = Ok (roster, w').
Proof.
  intros H P L J roster w'. split.
  - apply (aggiungi_studente_salva path w w1 w2 _ _ _ _ _ _ _ H P L).
    apply json_plain_testo_valido, J.
  - apply leggi_scritto; [exact J|]. apply set_file_same.
Qed.

(** A run of X2: a student with an identifier the roster already has is
    added after the two records there; of the pieces 18, 31 and 30 the first
    and the last count. *)
Lemma aggiungi_studente_appends_record_witness :
  let roster := VList [ana; bruno; nuovo_studente (lit "S1") (lit "Eva")
                                     (lit "Po") [18; 30]] in
  let w' := {| files := set_file "registro.txt" (registro_di roster)
                          (un_file "registro.txt"
                             (registro_di (VList [ana; bruno])));
               stdin := [lit "1"];
               stdout := [ MsgPrompt PromptStudentId;
                           MsgPrompt PromptFirstName;
                           MsgPrompt PromptLastName; MsgPrompt PromptGrades;
                           MsgStudentAdded (lit "Eva") (lit "Po") ] |} in
  aggiungi_studente "registro.txt"
    (mondo (un_file "registro.txt" (registro_di (VList [ana; bruno])))
       [lit "S1"; lit " Eva"; lit "Po "; lit "18, 31, 30"; lit "1"])
  = Ok (tt, w')
  /\ leggi_studenti_da_file "registro.txt" w' = Ok (roster, w').
Proof.
  pose (fs := un_file "registro.txt" (registro_di (VList [ana; bruno]))).
  pose (w1 := {| files := fs; stdin := [lit "1"];
                 stdout := [ MsgPrompt PromptStudentId;
                             MsgPrompt PromptFirstName;
                             MsgPrompt PromptLastName;
                             MsgPrompt PromptGrades ] |}).
  apply (aggiungi_studente_appends_record "registro.txt"
           (mondo fs [lit "S1"; lit " Eva"; lit "Po "; lit "18, 31, 30";
                      lit "1"])
           w1 w1 (lit "S1") (lit "Eva") (lit "Po") (lit "18, 31, 30")
           18 [30] [ana; bruno]); vm_compute; reflexivity.
Defined.

(** X3.  When the store is missing, or holds text that is not JSON,
    [aggiungi_studente] starts from the empty roster it is given in that
    case: after a successful run the file holds the new record alone, and
    what the file held before is gone. *)
Theorem aggiungi_studente_replaces_unreadable_store
    (path : string) (w w1 : world)
    (matricola nome cognome voti_input : pystr) (v : Z) (vs : list Z) :
  dati_studente w = Ok ((matricola, nome, cognome, voti_input), w1) ->
  parse_grade_list voti_input = Ok (v :: vs) ->
  (files w path = None
   \/ exists bs text, files w path = Some bs /\ utf8_decode bs = Some text
                      /\ json_loads text = Raise JSONDecodeError) ->
  testo_ok matricola = true -> testo_ok nome = true ->
  testo_ok cognome = true ->
  aggiungi_studente path w
  = Ok (tt, {| files := set_file path
                          (registro_di
                             (VList [nuovo_studente matricola nome cognome
                                       (v :: vs)]))
                          (files w);
               stdin := stdin w1;
               stdout := stdout w1 ++ [ MsgErroreLettura;
                                        MsgStudentAdded nome cognome ] |}).
Proof.
  intros H P U A B C.
  pose proof (dati_studente_files _ _ _ H) as F1.
  rewrite <- F1 in U.
  pose proof (leggi_missing_or_malformed_text path w1 U) as L.
  rewrite (aggiungi_studente_salva path w w1 _ _ _ _ _ _ _ [] H P L).
  - cbn [app files stdin stdout]. rewrite <- app_assoc. reflexivity.
  - apply json_plain_testo_valido. cbn [app]. rewrite json_plain_list.
    cbn [forallb]. rewrite json_plain_nuovo_studente; auto.
Qed.

(** A run of X3: the store holds text with single quotes, which is not JSON;
    after the run it holds the new record alone. *)
Lemma aggiungi_studente_replaces_unreadable_store_witness :
  aggiungi_studente "registro.txt"
    (mondo (un_file "registro.txt" (lit "[{'matricola': 'S7'}]"))
       [lit "S1"; lit "Ana"; lit "Li"; lit "20,22"])
  = Ok (tt, {| files := set_file "registro.txt" (registro_di (VList [ana]))
                          (un_file "registro.txt"
                             (lit "[{'matricola': 'S7'}]"));
               stdin := [];
               stdout := [ MsgPrompt PromptStudentId;
                           MsgPrompt PromptFirstName;
                           MsgPrompt PromptLastName; MsgPrompt PromptGrades;
                           MsgErroreLettura;
                           MsgStudentAdded (lit "Ana") (lit "Li") ] |}).
Proof.
  pose (fs := un_file "registro.txt" (lit "[{'matricola': 'S7'}]")).
  apply (aggiungi_studente_replaces_unreadable_store "registro.txt"
           (mondo fs [lit "S1"; lit "Ana"; lit "Li"; lit "20,22"])
           {| files := fs; stdin := [];
              stdout := [ MsgPrompt PromptStudentId;
                          MsgPrompt PromptFirstName;
                          MsgPrompt PromptLastName;
                          MsgPrompt PromptGrades ] |}
           (lit "S1") (lit "Ana") (lit "Li") (lit "20,22") 20 [22]).
  - vm_compute. reflexivity.
  - vm_compute. reflexivity.
  - right.
    exists (lit "[{'matricola': 'S7'}]"), (lit "[{'matricola': 'S7'}]").
    repeat split; vm_compute; reflexivity.
  - reflexivity.
  - reflexivity.
  - reflexivity.
Defined.

(** ** Adding a grade *)

Lemma dict_get_app (a b : list (pystr * value)) (k : pystr) :
  dict_get (a ++ b) k
  = match dict_get a k with
    | Some x => Some x
    | None => dict_get b k
    end.
Proof.
  induction a as [|[k' v'] a IH]; simpl; [reflexivity|].
  destruct (str_eqb k' k); auto.
Qed.

Lemma dict_get_split (d : list (pystr * value)) (k : pystr) (x : value) :
  dict_get d k = Some x ->
  exists a b, d = a ++ (k, x) :: b /\ dict_get a k = None.
Proof.
  induction d as [|[k' v'] d IH]; simpl; [discriminate|].
  destruct (str_eqb k' k) eqn:E.
  - intros [= ->]. apply str_eqb_eq in E. subst k'. exists [], d. auto.
  - intros H. destruct (IH H) as (a & b & -> & N).
    exists ((k', v') :: a), b. simpl. rewrite E. auto.
Qed.

Lemma dict_set_split (a b : list (pystr * value)) (k : pystr) (x v : value) :
  dict_get a k = None ->
  dict_set (a ++ (k, x) :: b) k v = a ++ (k, v) :: b.
Proof.
  induction a as [|[k' v'] a IH]; simpl; intros N.
  - rewrite str_eqb_refl. reflexivity.
  - destruct (str_eqb k' k); [discriminate|]. rewrite (IH N). reflexivity.
Qed.

Lemma keys_distinct_keys (d d' : list (pystr * value)) :
  map fst d = map fst d' -> keys_distinct d = keys_distinct d'.
Proof.
  revert d'. induction d as [|[k v] d IH]; intros [|[k' v'] d'] E;
    try discriminate; [reflexivity|].
  simpl in E. injection E as -> E. simpl. rewrite (IH _ E). f_equal. f_equal.
  clear IH. revert d' E. induction d as [|[a x] d IH]; intros [|[a' x'] d'] E;
    try discriminate; [reflexivity|].
  simpl in E. injection E as -> E. simpl. rewrite (IH _ E). reflexivity.
Qed.

Lemma keys_distinct_snoc (d : list (pystr * value)) (k : pystr) (v : value) :
  keys_distinct d = true -> dict_get d k = None ->
  keys_distinct (d ++ [(k, v)]) = true.
Proof.
  induction d as [|[k' v'] d IH]; simpl; intros K N; [reflexivity|].
  apply andb_true_iff in K as [K1 K2].
  destruct (str_eqb k' k) eqn:E; [discriminate|].
  rewrite (IH K2 N), andb_true_r.
  rewrite existsb_app. simpl. rewrite E. apply negb_true_iff in K1.
  rewrite K1. reflexivity.
Qed.

Lemma aggiungi_a_voti_split (d : list (pystr * value)) (voto : Z) :
  match dict_get d (lit "voti") with
  | None =>
      aggiungi_a_voti (VDict d) voto
      = Ok (VDict (d ++ [(lit "voti", VList [VInt voto])]))
  | Some (VList l) =>
      exists a b,
        d = a ++ (lit "voti", VList l) :: b
        /\ dict_get a (lit "voti") = None
        /\ aggiungi_a_voti (VDict d) voto
           = Ok (VDict (a ++ (lit "voti", VList (l ++ [VInt voto])) :: b))
  | Some _ => aggiungi_a_voti (VDict d) voto = Raise AttributeError
  end.
Proof.
  cbn [aggiungi_a_voti].
  destruct (dict_get d (lit "voti")) as [x|] eqn:G; [|reflexivity].
  destruct x; try reflexivity.
  destruct (dict_get_split _ _ _ G) as (a & b & -> & N).
  exists a, b. rewrite (dict_set_split _ _ _ _ _ N). auto.
Qed.

Lemma aggiungi_a_voti_campi (d : list (pystr * value)) (voto : Z)
    (l : list value) :
  voti_di d = Some l ->
  exists d',
    aggiungi_a_voti (VDict d) voto = Ok (VDict d')
    /\ dict_get d' (lit "voti") = Some (VList (l ++ [VInt voto]))
    /\ forall k, str_eqb (lit "voti") k = false ->
                 dict_get d' k = dict_get d k.
Proof.
  pose proof (aggiungi_a_voti_split d voto) as S. unfold voti_di.
  destruct (dict_get d (lit "voti")) as [x|] eqn:G.
  - destruct x; try discriminate. intros [= <-].
    destruct S as (a & b & -> & N & ->).
    eexists. split; [reflexivity|]. split.
    + rewrite dict_get_app, N. reflexivity.
    + intros k Hk. rewrite !dict_get_app. cbn [dict_get]. rewrite Hk.
      reflexivity.
  - intros [= <-]. rewrite S. eexists. split; [reflexivity|]. split.
    + rewrite dict_get_app, G. reflexivity.
    + intros k Hk. rewrite dict_get_app. cbn [dict_get]. rewrite Hk.
      destruct (dict_get d k); reflexivity.
Qed.

(** X4.  [studente.setdefault("voti", []).append(voto)] on a record:
    afterwards the record's grades are the grades it had (none, when it had
    no ["voti"] key) followed by the new grade, and every other field is as
    it was.  When ["voti"] holds something that is not a list the call
    raises [AttributeError]. *)
Theorem aggiungi_a_voti_lookup (d : list (pystr * value)) (voto : Z) :
  match voti_di d with
  | Some l =>
      exists d',
        aggiungi_a_voti (VDict d) voto = Ok (VDict d')
        /\ dict_get d' (lit "voti") = Some (VList (l ++ [VInt voto]))
        /\ forall k, str_eqb (lit "voti") k = false ->
                     dict_get d' k = dict_get d k
  | None => aggiungi_a_voti (VDict d) voto = Raise AttributeError
  end.
Proof.
  destruct (voti_di d) as [l|] eqn:V; [apply aggiungi_a_voti_campi, V|].
  pose proof (aggiungi_a_voti_split d voto) as S. unfold voti_di in V.
  destruct (dict_get d (lit "voti")) as [x|]; [|discriminate].
  destruct x; try exact S. discriminate.
Qed.

Lemma aggiungi_a_voti_plain (d : list (pystr * value)) (voto : Z) (r' : value) :
  json_plain (VDict d) = true ->
  aggiungi_a_voti (VDict d) voto = Ok r' ->
  json_plain r' = true.
Proof.
  intros P. pose proof (aggiungi_a_voti_split d voto) as S.
  rewrite json_plain_dict in P.
  apply andb_true_iff in P as [P Pv]. apply andb_true_iff in P as [Pd Pk].
  destruct (dict_get d (lit "voti")) as [x|] eqn:G.
  - destruct x; try (rewrite S; discriminate).
    destruct S as (a & b & -> & N & ->). intros [= <-].
    rewrite json_plain_dict.
    rewrite forallb_app in Pk, Pv |- *. rewrite forallb_app.
    cbn [forallb fst snd] in Pk, Pv |- *.
    apply andb_true_iff in Pk as [Pk1 Pk2].
    apply andb_true_iff in Pv as [Pv1 Pv2].
    apply andb_true_iff in Pv2 as [Pl Pv2].
    rewrite Pk1, Pk2, Pv1, Pv2.
    rewrite (keys_distinct_keys _ (a ++ (lit "voti", VList l) :: b))
      by (rewrite !map_app; reflexivity).
    rewrite Pd. cbn [json_plain] in Pl |- *. rewrite forallb_app, Pl.
    reflexivity.
  - rewrite S. intros [= <-]. rewrite json_plain_dict.
    rewrite (keys_distinct_snoc _ _ _ Pd G), !forallb_app, Pk, Pv.
    reflexivity.
Qed.

Lemma json_plain_middle (pre post : list value) (r r' : value) :
  json_plain (VList (pre ++ r :: post)) = true ->
  json_plain r' = true ->
  json_plain (VList (pre ++ r' :: post)) = true.
Proof.
  rewrite !json_plain_list, !forallb_app. cbn [forallb]. intros H R.
  apply andb_true_iff in H as [H1 H2]. apply andb_true_iff in H2 as [_ H2].
  rewrite H1, R, H2. reflexivity.
Qed.

Lemma json_plain_middle_elim (pre post : list value) (r : value) :
  json_plain (VList (pre ++ r :: post)) = true ->
  json_plain r = true /\ json_plain (VList (pre ++ post)) = true.
Proof.
  rewrite !json_plain_list, !forallb_app. cbn [forallb]. intros H.
  apply andb_true_iff in H as [H1 H2]. apply andb_true_iff in H2 as [H2 H3].
  rewrite H1, H3. auto.
Qed.

Lemma parse_single_grade_some (s : pystr) (voto : Z) :
  py_int s = Some voto -> 18 <= voto <= 30 ->
  parse_single_grade s = Some voto.
Proof.
  intros H R. unfold parse_single_grade. rewrite H.
  destruct (Z.leb_spec 18 voto), (Z.leb_spec voto 30); try lia. reflexivity.
Qed.

Lemma parse_single_grade_none (s : pystr) :
  (forall n, py_int s = Some n -> n < 18 \/ 30 < n) ->
  parse_single_grade s = None.
Proof.
  intros H. unfold parse_single_grade.
  destruct (py_int s) as [n|]; [|reflexivity].
  destruct (H n eq_refl); destruct (Z.leb_spec 18 n), (Z.leb_spec n 30);
    try lia; reflexivity.
Qed.

(** C6.  On a roster of records, when no record has the identifier typed,
    [aggiungi_voto] prints that no student was found and returns: it asks
    for no grade, and every file is as it was before the call.  When some
    record has it, the operation works on the first such record, in roster
    order: given a valid grade, it is that record whose grades get the new
    grade at their end and whose names the confirmation shows, while the
    records before it and after it, those with the same identifier
    included, are written back as they were. *)
Theorem aggiungi_voto_student_not_found
    (path : string) (w w1 : world) (records : list value)
    (riga : pystr) (rest : list pystr) :
  leggi_studenti_da_file path w = Ok (VList records, w1) ->
  forallb is_record records = true ->
  stdin w = riga :: rest ->
  (existsb (ha_matricola (py_strip riga)) records = false ->
   aggiungi_voto path w
   = Ok (tt, {| files := files w; stdin := rest;
                stdout := stdout w1 ++ [ MsgPrompt PromptMatricola;
                                         MsgStudentNotFound (py_strip riga) ] |}))
  /\ (forall pre d post riga_voto rest' voto l nome cognome,
        records = pre ++ VDict d :: post ->
        existsb (ha_matricola (py_strip riga)) pre = false ->
        ha_matricola (py_strip riga) (VDict d) = true ->
        rest = riga_voto :: rest' ->
        py_int (py_strip riga_voto) = Some voto ->
        18 <= voto <= 30 ->
        voti_di d = Some l ->
        dict_get d (lit "nome") = Some nome ->
        dict_get d (lit "cognome") = Some cognome ->
        json_plain (VList records) = true ->
        exists d',
          dict_get d' (lit "voti") = Some (VList (l ++ [VInt voto]))
          /\ (forall k, str_eqb (lit "voti") k = false ->
                        dict_get d' k = dict_get d k)
          /\ aggiungi_voto path w
             = Ok (tt, {| files := set_file path
                                     (registro_di
                                        (VList (pre ++ VDict d' :: post)))
                                     (files w);
                          stdin := rest';
                          stdout := stdout w1
                                    ++ [ MsgPrompt PromptMatricola;
                                         MsgPrompt PromptNuovoVoto;
                                         MsgGradeAdded voto nome cognome ] |})).
Proof.
  intros L R I. destruct (leggi_frame _ _ _ _ L) as (F & S1 & _).
  split.
  - intros N. unfold aggiungi_voto, bind. rewrite L.
    unfold input. rewrite S1, I. cbn [lift py_iter].
    rewrite (cerca_studente_none _ _ _ R N). unfold lift, print.
    cbn [files stdin stdout]. rewrite F, <- app_assoc. reflexivity.
  - intros pre d post riga_voto rest' voto l nome cognome
      -> N H -> G B V Gn Gc J.
    rewrite forallb_app in R. apply andb_true_iff in R as [R1 _].
    destruct (aggiungi_a_voti_campi d voto l V) as (d' & A & A1 & A2).
    exists d'. split; [exact A1|]. split; [exact A2|].
    assert (J' : json_plain (VList (pre ++ VDict d' :: post)) = true).
    { apply (json_plain_middle _ _ _ _ J).
      apply (aggiungi_a_voti_plain d voto); [|exact A].
      apply (json_plain_middle_elim _ _ _ J). }
    apply (aggiungi_voto_first_match path w w1 pre post (VDict d) (VDict d')
             riga riga_voto rest' voto nome cognome L R1 N H I);
      [apply parse_single_grade_some; assumption | exact A | | |
       apply json_plain_testo_valido, J'].
    + cbn [py_getitem]. rewrite A2 by reflexivity. rewrite Gn. reflexivity.
    + cbn [py_getitem]. rewrite A2 by reflexivity. rewrite Gc. reflexivity.
Qed.

(** A run of C6.  No record of the roster has the identifier S9: the file
    is left alone and no grade is asked for.  And of the two records with
    the identifier S1 it is the first, Ana Li, the second of the roster,
    that gets the grade 25 and is named in the confirmation; the later
    record with the same identifier, Eva Po, is written back as it was. *)
Lemma aggiungi_voto_student_not_found_witness :
  aggiungi_voto "registro.txt"
    (mondo (un_file "registro.txt" (registro_di (VList [ana; bruno])))
       [lit " S9"; lit "25"])
  = Ok (tt, {| files := un_file "registro.txt" (registro_di (VList [ana; bruno]));
               stdin := [lit "25"];
               stdout := [] ++ [ MsgPrompt PromptMatricola;
                                 MsgStudentNotFound (py_strip (lit " S9")) ] |})
  /\ exists d',
       dict_get d' (lit "voti")
       = Some (VList ([VInt 20; VInt 22] ++ [VInt 25]))
       /\ (forall k, str_eqb (lit "voti") k = false ->
                     dict_get d' k
                     = dict_get [ (lit "matricola", VStr (lit "S1"));
                                  (lit "nome", VStr (lit "Ana"));
                                  (lit "cognome", VStr (lit "Li"));
                                  (lit "voti", VList [VInt 20; VInt 22]) ] k)
       /\ aggiungi_voto "registro.txt"
            (mondo (un_file "registro.txt"
                      (registro_di
                         (VList [bruno; ana; studente "S1" "Eva" "Po" [18]])))
               [lit "S1"; lit "25"])
          = Ok (tt, {| files := set_file "registro.txt"
                                  (registro_di
                                     (VList ([bruno] ++ VDict d'
                                             :: [studente "S1" "Eva" "Po"
                                                   [18]])))
                                  (un_file "registro.txt"
                                     (registro_di
                                        (VList [bruno; ana;
                                                studente "S1" "Eva" "Po"
                                                  [18]])));
                       stdin := [];
                       stdout := [] ++ [ MsgPrompt PromptMatricola;
                                         MsgPrompt PromptNuovoVoto;
                                         MsgGradeAdded 25 (VStr (lit "Ana"))
                                           (VStr (lit "Li")) ] |}).
Proof.
  split.
  - pose (w := mondo (un_file "registro.txt" (registro_di (VList [ana; bruno])))
                 [lit " S9"; lit "25"]).
    destruct (aggiungi_voto_student_not_found "registro.txt" w w [ana; bruno]
                (lit " S9") [lit "25"]) as [A _];
      [vm_compute; reflexivity .. | ].
    apply A. vm_compute. reflexivity.
  - pose (rs := [bruno; ana; studente "S1" "Eva" "Po" [18]]).
    pose (w := mondo (un_file "registro.txt" (registro_di (VList rs)))
                 [lit "S1"; lit "25"]).
    destruct (aggiungi_voto_student_not_found "registro.txt" w w rs
                (lit "S1") [lit "25"]) as [_ B];
      [vm_compute; reflexivity .. | ].
    apply (B [bruno]
             [ (lit "matricola", VStr (lit "S1"));
               (lit "nome", VStr (lit "Ana"));
               (lit "cognome", VStr (lit "Li"));
               (lit "voti", VList [VInt 20; VInt 22]) ]
             [studente "S1" "Eva" "Po" [18]] (lit "25") [] 25
             [VInt 20; VInt 22] (VStr (lit "Ana")) (VStr (lit "Li")));
      try (vm_compute; reflexivity).
    split; vm_compute; discriminate.
Defined.

(** X5.  The successful run of [aggiungi_voto]: the line typed for the grade
    is an integer in 18..30; the grade is put last among the grades of the
    first record with the identifier (a record without ["voti"] gets the
    list of that one grade), every other field of the record and every other
    record stay as they were, the roster is saved, and loading the store
    afterwards returns it. *)
Theorem aggiungi_voto_appends_grade
    (path : string) (w w1 : world) (pre post : list value)
    (d : list (pystr * value)) (l : list value)
    (riga riga_voto : pystr) (rest : list pystr) (voto : Z)
    (nome cognome : value) :
  leggi_studenti_da_file path w = Ok (VList (pre ++ VDict d :: post), w1) ->
  json_plain (VList (pre ++ VDict d :: post)) = true ->
  forallb is_record pre = true ->
  existsb (ha_matricola (py_strip riga)) pre = false ->
  ha_matricola (py_strip riga) (VDict d) = true ->
  stdin w = riga :: riga_voto :: rest ->
  py_int (py_strip riga_voto) = Some voto ->
  18 <= voto <= 30 ->
  voti_di d = Some l ->
  dict_get d (lit "nome") = Some nome ->
  dict_get d (lit "cognome") = Some cognome ->
  exists d',
    dict_get d' (lit "voti") = Some (VList (l ++ [VInt voto]))
    /\ (forall k, str_eqb (lit "voti") k = false ->
                  dict_get d' k = dict_get d k)
    /\ let roster := VList (pre ++ VDict d' :: post) in
       let w' := {| files := set_file path (registro_di roster) (files w);
                    stdin := rest;
                    stdout := stdout w1
                              ++ [ MsgPrompt PromptMatricola;
                                   MsgPrompt PromptNuovoVoto;
                                   MsgGradeAdded voto nome cognome ] |} in
       aggiungi_voto path w = Ok (tt, w')
       /\ leggi_studenti_da_file path w' = Ok (roster, w').
Proof.
  intros L J R N H I G B V Gn Gc.
  destruct (aggiungi_a_voti_campi d voto l V) as (d' & A & A1 & A2).
  exists d'. split; [exact A1|]. split; [exact A2|]. intros roster w'.
  assert (J' : json_plain roster = true).
  { apply (json_plain_middle _ _ _ _ J).
    apply (aggiungi_a_voti_plain d voto); [|exact A].
    apply (json_plain_middle_elim _ _ _ J). }
  split.
  - apply (aggiungi_voto_first_match path w w1 pre post (VDict d) (VDict d')
             riga riga_voto rest voto nome cognome L R N H I);
      [apply parse_single_grade_some; assumption | exact A | | |
       apply json_plain_testo_valido, J'].
    + cbn [py_getitem]. rewrite A2 by reflexivity. rewrite Gn. reflexivity.
    + cbn [py_getitem]. rewrite A2 by reflexivity. rewrite Gc. reflexivity.
  - apply leggi_scritto; [exact J'|]. apply set_file_same.
Qed.

(** A run of X5: of the two records with the identifier S2 the first gets
    the grade, typed as [+1_8] with spaces around it. *)
Lemma aggiungi_voto_appends_grade_witness :
  exists d',
    dict_get d' (lit "voti") = Some (VList ([VInt 30] ++ [VInt 18]))
    /\ (forall k, str_eqb (lit "voti") k = false ->
                  dict_get d' k
                  = dict_get [ (lit "matricola", VStr (lit "S2"));
                               (lit "nome", VStr (lit "Bruno"));
                               (lit "cognome", VStr (lit "Re"));
                               (lit "voti", VList [VInt 30]) ] k)
    /\ let roster := VList ([ana] ++ VDict d' :: [bruno]) in
       let w' := {| files := set_file "registro.txt" (registro_di roster)
                               (un_file "registro.txt"
                                  (registro_di (VList [ana; bruno; bruno])));
                    stdin := [];
                    stdout := [] ++ [ MsgPrompt PromptMatricola;
                                      MsgPrompt PromptNuovoVoto;
                                      MsgGradeAdded 18 (VStr (lit "Bruno"))
                                        (VStr (lit "Re")) ] |} in
       aggiungi_voto "registro.txt"
         (mondo (un_file "registro.txt"
                   (registro_di (VList [ana; bruno; bruno])))
            [lit "S2"; lit " +1_8 "])
       = Ok (tt, w')
       /\ leggi_studenti_da_file "registro.txt" w' = Ok (roster, w').
Proof.
  pose (w := mondo (un_file "registro.txt"
                      (registro_di (VList [ana; bruno; bruno])))
               [lit "S2"; lit " +1_8 "]).
  apply (aggiungi_voto_appends_grade "registro.txt" w w [ana] [bruno]
           [ (lit "matricola", VStr (lit "S2"));
             (lit "nome", VStr (lit "Bruno"));
             (lit "cognome", VStr (lit "Re"));
             (lit "voti", VList [VInt 30]) ]
           [VInt 30] (lit "S2") (lit " +1_8 ") [] 18
           (VStr (lit "Bruno")) (VStr (lit "Re")));
    try (vm_compute; reflexivity).
  split; vm_compute; discriminate.
Defined.

Lemma aggiungi_voto_trovato
    (path : string) (w w1 : world) (pre post : list value) (r : value)
    (riga riga_voto : pystr) (rest : list pystr) :
  leggi_studenti_da_file path w = Ok (VList (pre ++ r :: post), w1) ->
  forallb is_record pre = true ->
  existsb (ha_matricola (py_strip riga)) pre = false ->
  ha_matricola (py_strip riga) r = true ->
  stdin w = riga :: riga_voto :: rest ->
  aggiungi_voto path w
  = let w2 := {| files := files w; stdin := rest;
                 stdout := stdout w1 ++ [ MsgPrompt PromptMatricola;
                                          MsgPrompt PromptNuovoVoto ] |} in
    match parse_single_grade (py_strip riga_voto) with
    | None => print MsgInvalidGrade w2
    | Some voto =>
        (aggiornato <- lift (aggiungi_a_voti r voto) ;;
         salva_studenti path (VList (pre ++ aggiornato :: post)) ;;;
         nome <- lift (py_getitem aggiornato (lit "nome")) ;;
         cognome <- lift (py_getitem aggiornato (lit "cognome")) ;;
         print (MsgGradeAdded voto nome cognome)) w2
    end.
Proof.
  intros L R N H I.
  destruct (leggi_frame _ _ _ _ L) as (F & S1 & _).
  destruct (ha_matricola_record _ _ H) as [_ Tr].
  unfold aggiungi_voto. unfold bind at 1 2 3 4. rewrite L.
  unfold input at 1. rewrite S1, I.
  cbn [lift py_iter]. rewrite (cerca_studente_first _ _ _ _ 0%nat R N H).
  unfold lift at 1. rewrite Tr. cbn [negb]. unfold bind at 1. unfold input.
  cbn [stdin files stdout]. rewrite F, <- app_assoc. cbn [app].
  destruct (parse_single_grade (py_strip riga_voto)) as [voto|];
    [|reflexivity].
  unfold bind at 1 5. unfold lift at 1 4.
  destruct (aggiungi_a_voti r voto) as [r'|e]; [|reflexivity].
  cbn [Nat.add aggiorna_elemento].
  assert (E : replace_nth (List.length pre) r' (pre ++ r :: post)
              = pre ++ r' :: post).
  { clear. induction pre as [|x pre IH]; simpl; [reflexivity|].
    now rewrite IH. }
  rewrite E. reflexivity.
Qed.

(** X6.  A grade that is not an integer, or is an integer outside 18..30, is
    refused by [aggiungi_voto]: it prints the error and returns; the record
    found is not changed and every file is as it was. *)
Theorem aggiungi_voto_rejects_grade
    (path : string) (w w1 : world) (pre post : list value) (r : value)
    (riga riga_voto : pystr) (rest : list pystr) :
  leggi_studenti_da_file path w = Ok (VList (pre ++ r :: post), w1) ->
  forallb is_record pre = true ->
  existsb (ha_matricola (py_strip riga)) pre = false ->
  ha_matricola (py_strip riga) r = true ->
  stdin w = riga :: riga_voto :: rest ->
  (forall n, py_int (py_strip riga_voto) = Some n -> n < 18 \/ 30 < n) ->
  aggiungi_voto path w
  = Ok (tt, {| files := files w; stdin := rest;
               stdout := stdout w1 ++ [ MsgPrompt PromptMatricola;
                                        MsgPrompt PromptNuovoVoto;
                                        MsgInvalidGrade ] |}).
Proof.
  intros L R N H I G.
  rewrite (aggiungi_voto_trovato _ _ _ _ _ _ _ _ _ L R N H I).
  cbn zeta. rewrite (parse_single_grade_none _ G).
  unfold print. cbn [files stdin stdout]. rewrite <- app_assoc.
  reflexivity.
Qed.

(** A run of X6: the grade 31 is refused. *)
Lemma aggiungi_voto_rejects_grade_witness :
  aggiungi_voto "registro.txt"
    (mondo (un_file "registro.txt" (registro_di (VList [ana; bruno])))
       [lit "S2"; lit "31"])
  = Ok (tt, {| files := un_file "registro.txt"
                          (registro_di (VList [ana; bruno]));
               stdin := [];
               stdout := [] ++ [ MsgPrompt PromptMatricola;
                                 MsgPrompt PromptNuovoVoto;
                                 MsgInvalidGrade ] |}).
Proof.
  pose (w := mondo (un_file "registro.txt" (registro_di (VList [ana; bruno])))
               [lit "S2"; lit "31"]).
  apply (aggiungi_voto_rejects_grade "registro.txt" w w [ana] [] bruno
           (lit "S2") (lit "31") []); try (vm_compute; reflexivity).
  intros n E. vm_compute in E. injection E as <-. right. reflexivity.
Defined.

(** X7.  A record found by its identifier that has no ["nome"] or no
    ["cognome"]: [aggiungi_voto] raises [KeyError] when it formats its
    confirmation, which reads these fields with [studente['nome']], where
    the listing and the deletion read them with [get] and a default. *)
Theorem aggiungi_voto_missing_name
    (path : string) (w w1 : world) (pre post : list value)
    (d : list (pystr * value)) (l : list value)
    (riga riga_voto : pystr) (rest : list pystr) (voto : Z) :
  leggi_studenti_da_file path w = Ok (VList (pre ++ VDict d :: post), w1) ->
  json_plain (VList (pre ++ VDict d :: post)) = true ->
  forallb is_record pre = true ->
  existsb (ha_matricola (py_strip riga)) pre = false ->
  ha_matricola (py_strip riga) (VDict d) = true ->
  stdin w = riga :: riga_voto :: rest ->
  py_int (py_strip riga_voto) = Some voto ->
  18 <= voto <= 30 ->
  voti_di d = Some l ->
  dict_get d (lit "nome") = None \/ dict_get d (lit "cognome") = None ->
  aggiungi_voto path w = Raise KeyError.
Proof.
  intros L J R N H I G B V K.
  rewrite (aggiungi_voto_trovato _ _ _ _ _ _ _ _ _ L R N H I).
  cbn zeta. rewrite (parse_single_grade_some _ _ G B).
  destruct (aggiungi_a_voti_campi d voto l V) as (d' & A & A1 & A2).
  unfold bind at 1. rewrite A. cbn [lift].
  assert (J' : json_plain (VList (pre ++ VDict d' :: post)) = true).
  { apply (json_plain_middle _ _ _ _ J).
    apply (aggiungi_a_voti_plain d voto); [|exact A].
    apply (json_plain_middle_elim _ _ _ J). }
  destruct (salva_studenti_ok path (VList (pre ++ VDict d' :: post))
              {| files := files w; stdin := rest;
                 stdout := stdout w1 ++ [ MsgPrompt PromptMatricola;
                                          MsgPrompt PromptNuovoVoto ] |}
              (json_plain_testo_valido _ J')) as (Sv & _).
  unfold bind at 1. rewrite Sv. unfold bind, lift. cbn [py_getitem].
  rewrite !A2 by reflexivity.
  destruct K as [K|K]; rewrite K; [reflexivity|].
  destruct (dict_get d (lit "nome")); reflexivity.
Qed.

(** A run of X7: the record found has an identifier and nothing else. *)
Lemma aggiungi_voto_missing_name_witness :
  aggiungi_voto "registro.txt"
    (mondo (un_file "registro.txt"
              (registro_di
                 (VList [VDict [(lit "matricola", VStr (lit "S3"))]])))
       [lit "S3"; lit "25"])
  = Raise KeyError.
Proof.
  pose (w := mondo (un_file "registro.txt"
                      (registro_di
                         (VList [VDict [(lit "matricola", VStr (lit "S3"))]])))
               [lit "S3"; lit "25"]).
  apply (aggiungi_voto_missing_name "registro.txt" w w [] []
           [(lit "matricola", VStr (lit "S3"))] []
           (lit "S3") (lit "25") [] 25); try (vm_compute; reflexivity).
  - split; vm_compute; discriminate.
  - left. reflexivity.
Defined.

(** ** The average never overflows on grades *)

Lemma SFdiv_int_finite_ratio (s1 s2 : bool) (pa pb : positive) :
  Z.pos pa <= 2 ^ 1022 * Z.pos pb ->
  forall s', SFdiv prec emax (S754_finite s1 pa 0) (S754_finite s2 pb 0)
             <> S754_infinity s'.
Proof.
  intros B s'. unfold SFdiv, SFdiv_core_binary.
  rewrite fexp_eq.
  remember (Zdigits2 (Z.pos pa)) as d1 eqn:Hd1.
  remember (Zdigits2 (Z.pos pb)) as d2 eqn:Hd2.
  remember (Z.min (Z.max (d1 + 0 - (d2 + 0) - 53) (-1074)) (0 - 0)) as e' eqn:He.
  assert (E' : e' <= 0) by lia.
  remember (match 0 - 0 - e' with
            | 0 => Z.pos pa
            | Z.pos _ => Z.shiftl (Z.pos pa) (0 - 0 - e')
            | Z.neg _ => 0
            end) as m' eqn:Hm.
  assert (P2 : 0 < 2 ^ (- e')) by (apply Z.pow_pos_nonneg; lia).
  assert (M' : m' = Z.pos pa * 2 ^ (- e')).
  { subst m'. destruct (0 - 0 - e') as [|p|p] eqn:E; try lia.
    - replace (- e') with 0 by lia. rewrite Z.pow_0_r. lia.
    - rewrite Z.shiftl_mul_pow2 by lia. f_equal. f_equal. lia. }
  pose proof (Z_div_mod m' (Z.pos pb) ltac:(lia)) as DM.
  destruct (Z.div_eucl m' (Z.pos pb)) as [q r].
  destruct DM as [DM1 DM2].
  assert (Q0 : 0 <= q) by nia.
  assert (Q1 : q <= 2 ^ 1022 * 2 ^ (- e')).
  { apply (Z.mul_le_mono_pos_r _ _ (Z.pos pb)); [lia|].
    assert (q * Z.pos pb <= m') by lia.
    assert (m' <= 2 ^ 1022 * Z.pos pb * 2 ^ (- e')).
    { rewrite M'. apply Z.mul_le_mono_nonneg_r; lia. }
    lia. }
  apply binary_round_aux_finite; try lia.
  assert (Zdigits2 q <= 1023 - e').
  { apply Zdigits2_le; [|lia].
    replace (1023 - e') with (1 + 1022 + - e') by lia.
    rewrite !Z.pow_add_r by lia. rewrite Z.pow_1_r.
    assert (0 < 2 ^ 1022) by (apply Z.pow_pos_nonneg; lia). nia. }
  lia.
Qed.

Lemma int_truediv_returns_ratio (a b : Z) :
  Z.abs a <= 2 ^ 1022 * Z.abs b -> b <> 0 -> exists x, int_truediv a b = Ok x.
Proof.
  intros B Hb. unfold int_truediv.
  destruct a as [|pa|pa]; [destruct b; [congruence|eauto|eauto]| |].
  all: destruct b as [|pb|pb]; [congruence| |].
  all: cbn [Z.abs Z.to_pos].
  all: match goal with
       | |- context [SFdiv prec emax (S754_finite ?s1 ?m1 0) (S754_finite ?s2 ?m2 0)] =>
           pose proof (SFdiv_int_finite_ratio s1 s2 m1 m2
                         ltac:(cbn [Z.abs] in B; exact B)) as F;
           destruct (SFdiv prec emax (S754_finite s1 m1 0) (S754_finite s2 m2 0));
             eauto; exfalso; eapply F; reflexivity
       end.
Qed.

Lemma somma_bound (ns : list Z) (B : Z) :
  0 <= B ->
  Forall (fun n => Z.abs n <= B) ns ->
  Z.abs (somma ns) <= B * Z.of_nat (List.length ns).
Proof.
  intros HB H. induction H as [|n ns Hn _ IH]; [simpl; lia|].
  change (somma (n :: ns)) with (n + somma ns).
  rewrite length_cons, Nat2Z.inj_succ. lia.
Qed.

Lemma py_sum_from_interi (l : list value) (acc : Z) :
  forallb is_int_or_float l = true ->
  forallb intero_limitato l = true ->
  exists s, py_sum_from (VInt acc) l = Ok (VInt s)
            /\ Z.abs (s - acc) <= 2 ^ 1022 * Z.of_nat (List.length l).
Proof.
  revert acc. induction l as [|v r IH]; intros acc N B.
  - exists acc. split; [reflexivity|]. simpl. lia.
  - simpl in N, B. apply andb_true_iff in N as [Nv Nr].
    apply andb_true_iff in B as [Bv Br].
    assert (P : 0 < 2 ^ 1022) by (apply Z.pow_pos_nonneg; lia).
    destruct v as [|b|n| | | |]; try discriminate.
    + destruct (IH (acc + int_of_bool b) Nr Br) as (s & E & Hs).
      exists s. split; [exact E|].
      rewrite length_cons, Nat2Z.inj_succ.
      remember (2 ^ 1022) as K. destruct b; cbn [int_of_bool] in Hs; lia.
    + destruct (IH (acc + n) Nr Br) as (s & E & Hs).
      exists s. split; [exact E|]. cbn [intero_limitato] in Bv.
      apply Z.leb_le in Bv.
      rewrite length_cons, Nat2Z.inj_succ. remember (2 ^ 1022) as K. lia.
Qed.

Lemma intero_limitato_filter (items : list value) :
  forallb intero_limitato items = true ->
  forallb intero_limitato (voti_validi items) = true.
Proof.
  intros H. apply forallb_forall. intros v Hv.
  apply filter_In in Hv as [Hv _]. rewrite forallb_forall in H. auto.
Qed.

Lemma media_aritmetica_interi (v : value) (r : list value) :
  forallb is_int_or_float (v :: r) = true ->
  forallb intero_limitato (v :: r) = true ->
  exists m,
    rbind (py_sum (v :: r))
      (fun s => py_truediv s (Z.of_nat (List.length (v :: r)))) = Ok m.
Proof.
  intros N B.
  destruct (py_sum_from_interi (v :: r) 0 N B) as (s & Hs & Hb).
  unfold py_sum. rewrite Hs. cbn [rbind py_truediv].
  apply int_truediv_returns_ratio.
  - rewrite Z.sub_0_r in Hb. rewrite (Z.abs_eq (Z.of_nat _)) by lia. exact Hb.
  - simpl List.length. lia.
Qed.

(** X8.  [calcola_media] returns, whatever the length of the list, when the
    list holds no float and no integer larger than [2 ** 1022] in magnitude:
    the sum of integers is exact and its quotient by their number is within
    the range of a double.  (The lists the program itself stores hold
    integers between 18 and 30.) *)
Theorem calcola_media_returns_on_integers (items : list value) :
  forallb intero_limitato items = true ->
  exists m, calcola_media (VList items) = Ok m.
Proof.
  intros B. unfold calcola_media. cbn [py_iter rbind].
  pose proof (voti_validi_all items) as N.
  pose proof (intero_limitato_filter items B) as B'.
  destruct (voti_validi items) as [|v r]; [eauto|].
  apply media_aritmetica_interi; assumption.
Qed.

(** A run of X8: the integer [2 ** 1022], a grade, a string and [None]. *)
Lemma calcola_media_returns_on_integers_witness :
  exists m,
    calcola_media (VList [VInt (2 ^ 1022); VStr (lit "x"); VInt 30; VNone])
    = Ok m.
Proof.
  apply (calcola_media_returns_on_integers
           [VInt (2 ^ 1022); VStr (lit "x"); VInt 30; VNone]).
  vm_compute. reflexivity.
Defined.

(** ** The listing of a roster *)

Lemma riga_studente_elencabile (r : value) :
  record_elencabile r = true ->
  exists media, riga_studente r = Ok (riga_con_media (r, media)).
Proof.
  destruct r as [| | | | | |d]; try discriminate. intros H.
  unfold riga_studente, riga_con_media. cbn [fst snd].
  assert (C : exists m, calcola_media (campo (VDict d) (lit "voti") (VList []))
                        = Ok m).
  { cbn [campo record_elencabile] in *.
    destruct (dict_get d (lit "voti")) as [x|]; [|eexists; reflexivity].
    destruct x as [| | | |s|l|d']; try discriminate.
    - exists float_zero. unfold calcola_media. cbn [py_iter rbind].
      change (voti_validi (map (fun c => VStr [c]) s))
        with (filter is_int_or_float (map (fun c => VStr [c]) s)).
      assert (E : filter is_int_or_float (map (fun c => VStr [c]) s) = []).
      { induction s; simpl; auto. }
      rewrite E. reflexivity.
    - unfold calcola_media. cbn [py_iter rbind].
      pose proof (voti_validi_all l) as N.
      pose proof (intero_limitato_filter l H) as B.
      destruct (voti_validi l) as [|v r]; [eauto|].
      apply media_aritmetica_interi; assumption.
    - exists float_zero. unfold calcola_media. cbn [py_iter rbind].
      change (voti_validi (map (fun kv => VStr (fst kv)) d'))
        with (filter is_int_or_float (map (fun kv => VStr (fst kv)) d')).
      assert (E : filter is_int_or_float (map (fun kv => VStr (fst kv)) d')
                  = []).
      { induction d'; simpl; auto. }
      rewrite E. reflexivity. }
  destruct C as (m & ->). exists m. reflexivity.
Qed.

Lemma righe_elencabili (rs : list value) :
  forallb record_elencabile rs = true ->
  exists medie,
    List.length medie = List.length rs
    /\ righe rs = Ok (map riga_con_media (combine rs medie)).
Proof.
  induction rs as [|r rs IH]; intros H.
  - exists []. auto.
  - simpl in H. apply andb_true_iff in H as [Hr Hrs].
    destruct (riga_studente_elencabile r Hr) as (m & Em).
    destruct (IH Hrs) as (ms & L & E).
    exists (m :: ms). split; [simpl; congruence|].
    cbn [righe]. rewrite Em. cbn [rbind]. rewrite E. reflexivity.
Qed.

Lemma stampa_studenti_righe (rs : list value) (w : world) :
  stampa_studenti (VList rs) w
  = match righe rs with
    | Ok lines =>
        Ok (tt, {| files := files w; stdin := stdin w;
                   stdout := stdout w ++ MsgStudentList :: lines |})
    | Raise e => Raise e
    end.
Proof.
  unfold stampa_studenti, bind, print, lift. cbn [py_iter].
  rewrite stampa_righe_projection. cbn [files stdin stdout].
  destruct (righe rs); [|reflexivity].
  rewrite <- app_assoc. reflexivity.
Qed.



(** ** What a run leaves alone *)

Lemma passo_refl (path : string) (w : world) : passo path w w.
Proof.
  split; [auto|split]; [exists []; now rewrite app_nil_r | exists []; auto].
Qed.

Lemma passo_trans (path : string) (w1 w2 w3 : world) :
  passo path w1 w2 -> passo path w2 w3 -> passo path w1 w3.
Proof.
  intros (F1 & (o1 & O1) & (u1 & U1)) (F2 & (o2 & O2) & (u2 & U2)).
  split; [|split].
  - intros p Hp. rewrite (F2 p Hp). auto.
  - exists (o1 ++ o2). rewrite O2, O1, app_assoc. reflexivity.
  - exists (u1 ++ u2). rewrite U1, U2, app_assoc. reflexivity.
Qed.

Lemma mantiene_ret {A} (path : string) (a : A) : mantiene path (ret a).
Proof. intros w x w' [= _ <-]. apply passo_refl. Qed.

Lemma mantiene_bind {A B} (path : string) (m : M A) (k : A -> M B) :
  mantiene path m -> (forall a, mantiene path (k a)) ->
  mantiene path (bind m k).
Proof.
  intros Hm Hk w b w'. unfold bind.
  destruct (m w) as [[a w1]|] eqn:E; [|discriminate].
  intros K. eapply passo_trans; [eapply Hm, E|eapply Hk, K].
Qed.

Lemma mantiene_lift {A} (path : string) (r : result A) :
  mantiene path (lift r).
Proof.
  intros w a w'. unfold lift. destruct r; [|discriminate].
  intros [= _ <-]. apply passo_refl.
Qed.

Lemma mantiene_print (path : string) (m : message) : mantiene path (print m).
Proof.
  intros w a w' [= _ <-]. split; [auto|split]; cbn [files stdin stdout].
  - eexists. reflexivity.
  - exists []. reflexivity.
Qed.

Lemma mantiene_input (path : string) (p : prompt) : mantiene path (input p).
Proof.
  intros w a w'. unfold input. destruct (stdin w) as [|l r] eqn:E;
    [discriminate|].
  intros [= _ <-]. split; [auto|split]; cbn [files stdin stdout].
  - eexists. reflexivity.
  - exists [l]. rewrite E. reflexivity.
Qed.

Lemma leggi_non_vuoto_passo (p : prompt) (avviso : message)
    (lines : list pystr) (out : list message) (x : pystr)
    (r : list pystr) (out' : list message) :
  leggi_non_vuoto p avviso lines out = Ok (x, (r, out')) ->
  (exists o, out' = out ++ o)
  /\ exists used l, lines = used ++ l :: r /\ x = py_strip l /\ x <> [].
Proof.
  revert out. induction lines as [|l ls IH]; intros out; [discriminate|].
  cbn [leggi_non_vuoto]. destruct (py_strip l) as [|c t] eqn:E.
  - intros H. destruct (IH _ H) as ((o & ->) & used & l' & -> & -> & N).
    split.
    + eexists. rewrite <- app_assoc. reflexivity.
    + exists (l :: used), l'. auto.
  - intros [= <- <- <-]. split; [eexists; reflexivity|].
    exists [], l. repeat split; [symmetry; exact E|discriminate].
Qed.

Lemma mantiene_chiedi (path : string) (p : prompt) (avviso : message) :
  mantiene path (chiedi p avviso).
Proof.
  intros w a w'. unfold chiedi.
  destruct (leggi_non_vuoto p avviso (stdin w) (stdout w))
    as [[x [r out]]|] eqn:E; [|discriminate].
  intros [= _ <-].
  destruct (leggi_non_vuoto_passo _ _ _ _ _ _ _ E)
    as ((o & ->) & used & l & U & _).
  split; [auto|split]; cbn [files stdin stdout].
  - eexists. reflexivity.
  - exists (used ++ [l]). rewrite U, <- app_assoc. reflexivity.
Qed.

Lemma mantiene_leggi (path p : string) :
  mantiene path (leggi_studenti_da_file p).
Proof.
  intros w a w' L. destruct (leggi_frame _ _ _ _ L) as (F & S & O).
  split; [|split].
  - intros q _. rewrite F. reflexivity.
  - destruct O as [->| ->]; [exists []; now rewrite app_nil_r|eexists; eauto].
  - exists []. rewrite S. reflexivity.
Qed.

Lemma mantiene_salva (path : string) (v : value) :
  mantiene path (salva_studenti path v).
Proof.
  intros w a w'. unfold salva_studenti, write_text.
  destruct (utf8_encode (json_dumps v)); [|discriminate].
  intros [= _ <-]. split; [|split]; cbn [files stdin stdout].
  - intros p Hp. apply set_file_other, Hp.
  - exists []. now rewrite app_nil_r.
  - exists []. reflexivity.
Qed.

Ltac passi :=
  repeat first
    [ apply mantiene_ret | apply mantiene_lift | apply mantiene_print
    | apply mantiene_input | apply mantiene_chiedi | apply mantiene_leggi
    | apply mantiene_salva
    | apply mantiene_bind; [|intros]
    | match goal with
      | |- mantiene _ (match ?x with _ => _ end) => destruct x
      | |- mantiene _ (if ?b then _ else _) => destruct b
      | |- mantiene _ (let _ := _ in _) => cbv zeta
      end ].

Lemma mantiene_stampa_righe (path : string) (items : list value) :
  mantiene path (stampa_righe items).
Proof. induction items as [|r rest IH]; cbn [stampa_righe]; passi. exact IH. Qed.

Lemma mantiene_esegui_processo (path : string) :
  mantiene path (esegui_processo path).
Proof.
  unfold esegui_processo, stampa_studenti. passi. apply mantiene_stampa_righe.
Qed.

Lemma mantiene_aggiungi_studente (path : string) :
  mantiene path (aggiungi_studente path).
Proof. unfold aggiungi_studente. passi. Qed.

Lemma mantiene_aggiungi_voto (path : string) :
  mantiene path (aggiungi_voto path).
Proof. unfold aggiungi_voto. passi. Qed.

Lemma mantiene_cancella_studente (path : string) :
  mantiene path (cancella_studente path).
Proof. unfold cancella_studente. passi. Qed.

Lemma mantiene_menu (path : string) (n : nat) : mantiene path (menu n path).
Proof.
  induction n as [|n IH]; cbn [menu]; [intros w a w'; discriminate|].
  repeat first
    [ exact IH | apply mantiene_esegui_processo
    | apply mantiene_aggiungi_studente | apply mantiene_aggiungi_voto
    | apply mantiene_cancella_studente | apply mantiene_print
    | apply mantiene_input
    | apply mantiene_bind; [|intros]
    | match goal with
      | |- mantiene _ (if ?b then _ else _) => destruct b
      | |- mantiene _ (let _ := _ in _) => cbv zeta
      end ].
Qed.

Lemma menu_esce (path : string) (n : nat) (w w' : world) :
  menu n path w = Ok (tt, w') ->
  exists out, stdout w' = stdout w ++ out ++ [MsgExit].
Proof.
  revert w. induction n as [|n IH]; intros w; cbn [menu]; [discriminate|].
  unfold bind at 1 2. cbn [print]. unfold input. cbn [files stdin stdout].
  destruct (stdin w) as [|riga r]; [discriminate|].
  cbv zeta.
  set (w1 := {| files := files w; stdin := r;
                stdout := (stdout w ++ [MsgMenu]) ++ [MsgPrompt PromptScelta] |}).
  assert (K : forall (op : M unit),
             mantiene path op ->
             bind op (fun _ => menu n path) w1 = Ok (tt, w') ->
             exists out, stdout w' = stdout w ++ out ++ [MsgExit]).
  { intros op Hop. unfold bind.
    destruct (op w1) as [[[] w2]|] eqn:O; [|discriminate].
    destruct (Hop _ _ _ O) as (_ & (o & Ho) & _). intros H.
    destruct (IH _ H) as (out & ->). rewrite Ho. cbn [stdout w1].
    exists ([MsgMenu; MsgPrompt PromptScelta] ++ o ++ out).
    rewrite <- !app_assoc. reflexivity. }
  repeat match goal with
         | |- (if ?b then _ else _) _ = _ -> _ => destruct b
         end;
    try (apply K;
         first [ apply mantiene_esegui_processo
               | apply mantiene_aggiungi_studente
               | apply mantiene_aggiungi_voto
               | apply mantiene_cancella_studente
               | apply mantiene_print ]).
  unfold print. intros [= <-]. cbn [stdout w1].
  exists [MsgMenu; MsgPrompt PromptScelta]. rewrite <- !app_assoc.
  reflexivity.
Qed.

Lemma menu_step (n : nat) (path : string) (w : world) :
  menu (S n) path w
  = match stdin w with
    | [] => Raise EOFError
    | riga :: r =>
        let w1 := {| files := files w; stdin := r;
                     stdout := stdout w
                               ++ [MsgMenu; MsgPrompt PromptScelta] |} in
        let scelta := py_strip riga in
        if str_eqb scelta (lit "1") then
          (esegui_processo path ;;; menu n path) w1
        else if str_eqb scelta (lit "2") then
          (aggiungi_studente path ;;; menu n path) w1
        else if str_eqb scelta (lit "3") then
          (aggiungi_voto path ;;; menu n path) w1
        else if str_eqb scelta (lit "4") then
          (cancella_studente path ;;; menu n path) w1
        else if str_eqb scelta (lit "0") then print MsgExit w1
        else (print MsgInvalidChoice ;;; menu n path) w1
    end.
Proof.
  cbn [menu]. unfold bind at 1 2. cbn [print]. unfold input.
  cbn [files stdin stdout]. destruct (stdin w) as [|riga r]; [reflexivity|].
  rewrite <- app_assoc. cbn [app]. cbv zeta.
  repeat match goal with
         | |- (if ?b then _ else _) _ = _ => destruct b
         end; reflexivity.
Qed.

(** X21.  On the lines typed, the loop of the menu ends: every turn reads at
    least one line, so a run makes at most one turn more than there are
    lines, and allowing more turns than that changes nothing. *)
Theorem menu_ends_with_the_input (path : string) (n m : nat) (w : world) :
  (List.length (stdin w) < n)%nat -> (List.length (stdin w) < m)%nat ->
  menu n path w = menu m path w.
Proof.
  revert m w. induction n as [|n IH]; intros m w Hn Hm; [lia|].
  destruct m as [|m]; [lia|]. rewrite !menu_step.
  destruct (stdin w) as [|riga r] eqn:E; [reflexivity|].
  cbv zeta. cbn [List.length] in Hn, Hm.
  set (w1 := {| files := files w; stdin := r;
                stdout := stdout w ++ [MsgMenu; MsgPrompt PromptScelta] |}).
  assert (K : forall (op : M unit),
             mantiene path op ->
             bind op (fun _ => menu n path) w1
             = bind op (fun _ => menu m path) w1).
  { intros op Hop. unfold bind.
    destruct (op w1) as [[[] w2]|] eqn:O; [|reflexivity].
    destruct (Hop _ _ _ O) as (_ & _ & (used & U)).
    cbn [stdin w1] in U.
    assert (List.length (stdin w2) <= List.length r)%nat.
    { rewrite U, length_app. lia. }
    apply IH; lia. }
  repeat match goal with
         | |- (if ?b then _ else _) = _ => destruct b
         end;
    first [ reflexivity
          | apply K;
            first [ apply mantiene_esegui_processo
                  | apply mantiene_aggiungi_studente
                  | apply mantiene_aggiungi_voto
                  | apply mantiene_cancella_studente
                  | apply mantiene_print ] ].
Qed.

(** A run of X21: two lines allow three turns; fifty turns give the same
    run. *)
Lemma menu_ends_with_the_input_witness :
  menu 3 "registro.txt" (mondo nessun_file [lit "1"; lit "7"])
  = menu 50 "registro.txt" (mondo nessun_file [lit "1"; lit "7"]).
Proof.
  apply (menu_ends_with_the_input "registro.txt" 3 50
           (mondo nessun_file [lit "1"; lit "7"])); simpl; lia.
Defined.

(** X10.  A run of the whole program that ends normally changes no file
    other than the store, leaves what was printed before in place and only
    adds to it, reads the lines typed from the first on, in order, and ends
    with the farewell message of choice 0. *)
Theorem programma_touches_only_the_store (path : string) (w w' : world) :
  programma path w = Ok (tt, w') ->
  (forall p, p <> path -> files w' p = files w p)
  /\ (exists out, stdout w' = stdout w ++ out ++ [MsgExit])
  /\ (exists used, stdin w = used ++ stdin w').
Proof.
  unfold programma. intros H.
  destruct (mantiene_menu path _ _ _ _ H) as (F & _ & U).
  split; [exact F|split; [|exact U]].
  apply (menu_esce _ _ _ _ H).
Qed.

(** A run of X10: a student is added, a line that is no choice is refused,
    and choice 0 ends the program; the other file is as it was and the line
    after the 0 is not read. *)
Lemma programma_touches_only_the_store_witness :
  let w := mondo (un_file "altro.txt" [1; 2; 3])
             [lit "2"; lit "S1"; lit "Ana"; lit "Li"; lit "20,22"; lit "x";
              lit "0"; lit "1"] in
  let w' := {| files := set_file "registro.txt" (registro_di (VList [ana]))
                          (un_file "altro.txt" [1; 2; 3]);
               stdin := [lit "1"];
               stdout := [ MsgMenu; MsgPrompt PromptScelta;
                           MsgPrompt PromptStudentId;
                           MsgPrompt PromptFirstName;
                           MsgPrompt PromptLastName; MsgPrompt PromptGrades;
                           MsgErroreLettura;
                           MsgStudentAdded (lit "Ana") (lit "Li");
                           MsgMenu; MsgPrompt PromptScelta; MsgInvalidChoice;
                           MsgMenu; MsgPrompt PromptScelta; MsgExit ] |} in
  (forall p, p <> "registro.txt"%string -> files w' p = files w p)
  /\ (exists out, stdout w' = stdout w ++ out ++ [MsgExit])
  /\ (exists used, stdin w = used ++ stdin w').
Proof.
  apply (programma_touches_only_the_store "registro.txt"
           (mondo (un_file "altro.txt" [1; 2; 3])
              [lit "2"; lit "S1"; lit "Ana"; lit "Li"; lit "20,22"; lit "x";
               lit "0"; lit "1"])).
  vm_compute. reflexivity.
Defined.

(** ** The store stays in order *)

Lemma record_del_programma_inv (r : value) :
  record_del_programma r = true ->
  exists m n c voti,
    r = VDict [ (lit "matricola", VStr m); (lit "nome", VStr n);
                (lit "cognome", VStr c); (lit "voti", VList voti) ]
    /\ campo_compilato m = true /\ campo_compilato n = true
    /\ campo_compilato c = true /\ forallb voto_ammesso voti = true
    /\ voti <> [].
Proof.
  unfold record_del_programma.
  repeat match goal with
         | |- match ?x with _ => _ end = true -> _ =>
             destruct x; try discriminate
         | |- (let (_, _) := ?x in _) = true -> _ => destruct x
         end.
  intros H. repeat (apply andb_true_iff in H; destruct H as [H ?]).
  repeat match goal with
         | E : str_eqb _ _ = true |- _ => apply str_eqb_eq in E; subst
         end.
  do 4 eexists. split; [reflexivity|]. repeat split; try assumption.
  destruct l; [discriminate|discriminate].
Qed.

Lemma campo_compilato_testo (s : pystr) :
  campo_compilato s = true -> testo_ok s = true.
Proof.
  unfold campo_compilato. intros H.
  apply andb_true_iff in H as [H _]. apply andb_true_iff in H as [H _].
  exact H.
Qed.

Lemma voto_ammesso_plain (voti : list value) :
  forallb voto_ammesso voti = true -> forallb json_plain voti = true.
Proof.
  induction voti as [|v r IH]; [reflexivity|]. simpl. intros H.
  apply andb_true_iff in H as [Hv Hr]. rewrite (IH Hr), andb_true_r.
  destruct v; try discriminate. reflexivity.
Qed.

Lemma voto_ammesso_limitato (voti : list value) :
  forallb voto_ammesso voti = true -> forallb intero_limitato voti = true.
Proof.
  induction voti as [|v r IH]; [reflexivity|]. simpl. intros H.
  apply andb_true_iff in H as [Hv Hr]. rewrite (IH Hr), andb_true_r.
  destruct v; try discriminate. cbn [voto_ammesso intero_limitato] in *.
  apply andb_true_iff in Hv as [A B]. apply Z.leb_le in A, B.
  apply Z.leb_le.
  assert (2 ^ 5 <= 2 ^ 1022) by (apply Z.pow_le_mono_r; lia).
  change (2 ^ 5) with 32 in *. lia.
Qed.

Lemma record_del_programma_plain (r : value) :
  record_del_programma r = true -> json_plain r = true.
Proof.
  intros H.
  destruct (record_del_programma_inv r H)
    as (m & n & c & voti & -> & Hm & Hn & Hc & Hv & _).
  rewrite json_plain_dict.
  cbn [keys_distinct forallb fst snd json_plain existsb].
  rewrite (campo_compilato_testo _ Hm), (campo_compilato_testo _ Hn),
    (campo_compilato_testo _ Hc), (voto_ammesso_plain _ Hv).
  vm_compute. reflexivity.
Qed.

Lemma registro_plain (roster : list value) :
  forallb record_del_programma roster = true ->
  json_plain (VList roster) = true.
Proof.
  intros H. rewrite json_plain_list. apply forallb_forall. intros r Hr.
  rewrite forallb_forall in H. apply record_del_programma_plain. auto.
Qed.

Lemma record_del_programma_elencabile (r : value) :
  record_del_programma r = true -> record_elencabile r = true.
Proof.
  intros H.
  destruct (record_del_programma_inv r H)
    as (m & n & c & voti & -> & _ & _ & _ & Hv & _).
  unfold record_elencabile.
  change (dict_get [ (lit "matricola", VStr m); (lit "nome", VStr n);
                     (lit "cognome", VStr c); (lit "voti", VList voti) ]
            (lit "voti"))
    with (Some (VList voti)).
  apply voto_ammesso_limitato, Hv.
Qed.

Lemma registro_in_ordine_files (path : string) (w w' : world) :
  files w' path = files w path ->
  registro_in_ordine path w' = registro_in_ordine path w.
Proof. unfold registro_in_ordine. intros ->. reflexivity. Qed.

Lemma registro_leggi (path : string) (w : world) :
  registro_in_ordine path w = true ->
  exists roster w1,
    leggi_studenti_da_file path w = Ok (VList roster, w1)
    /\ forallb record_del_programma roster = true
    /\ files w1 = files w /\ stdin w1 = stdin w.
Proof.
  unfold registro_in_ordine. intros H.
  destruct (files w path) as [bs|] eqn:F.
  - destruct (utf8_decode bs) as [text|] eqn:D; [|discriminate].
    destruct (json_loads text) as [v|] eqn:J; [|discriminate].
    destruct v; try discriminate.
    exists l, w. rewrite (leggi_decoded _ _ _ _ F D), J. auto.
  - do 2 eexists. rewrite (leggi_missing _ _ F). auto.
Qed.

Lemma registro_scritto (path : string) (roster : list value) (w : world) :
  forallb record_del_programma roster = true ->
  files w path = Some (registro_di (VList roster)) ->
  registro_in_ordine path w = true.
Proof.
  intros H F. unfold registro_in_ordine. rewrite F.
  pose proof (registro_plain _ H) as P.
  destruct (salva_studenti_ok path (VList roster) w
              (json_plain_testo_valido _ P)) as (_ & _ & D).
  rewrite D, (json_loads_dumps _ P). exact H.
Qed.

Lemma leggi_non_vuoto_eof (p : prompt) (avviso : message)
    (lines : list pystr) (out : list message) (e : exn) :
  leggi_non_vuoto p avviso lines out = Raise e -> e = EOFError.
Proof.
  revert out. induction lines as [|l ls IH]; intros out.
  - intros [= <-]. reflexivity.
  - cbn [leggi_non_vuoto]. destruct (py_strip l); [apply IH|discriminate].
Qed.

Lemma testo_ok_strip (l : pystr) :
  testo_ok l = true -> testo_ok (py_strip l) = true.
Proof.
  unfold testo_ok. rewrite !forallb_forall. intros H c Hc.
  apply H, py_strip_sublist, Hc.
Qed.

Lemma campo_compilato_strip (l : pystr) :
  testo_ok l = true -> py_strip l <> [] -> campo_compilato (py_strip l) = true.
Proof.
  intros T N. unfold campo_compilato, riga_vuota.
  rewrite (testo_ok_strip _ T), py_strip_idempotent, str_eqb_refl.
  destruct (py_strip l); [contradiction|reflexivity].
Qed.

Lemma chiedi_esito (p : prompt) (avviso : message) (w : world) :
  forallb testo_ok (stdin w) = true ->
  match chiedi p avviso w with
  | Ok (x, w') =>
      campo_compilato x = true /\ files w' = files w
      /\ forallb testo_ok (stdin w') = true
  | Raise e => e = EOFError
  end.
Proof.
  intros V. unfold chiedi.
  destruct (leggi_non_vuoto p avviso (stdin w) (stdout w))
    as [[x [r out]]|e] eqn:E.
  - destruct (leggi_non_vuoto_passo _ _ _ _ _ _ _ E)
      as (_ & used & l & U & -> & N).
    rewrite U, forallb_app in V. apply andb_true_iff in V as [_ V].
    simpl in V. apply andb_true_iff in V as [Vl Vr].
    cbn [files stdin]. auto using campo_compilato_strip.
  - eapply leggi_non_vuoto_eof, E.
Qed.

Lemma input_esito (p : prompt) (w : world) :
  forallb testo_ok (stdin w) = true ->
  match input p w with
  | Ok (x, w') =>
      testo_ok x = true /\ files w' = files w
      /\ forallb testo_ok (stdin w') = true
      /\ stdin w = x :: stdin w'
  | Raise e => e = EOFError
  end.
Proof.
  intros V. unfold input. destruct (stdin w) as [|l r]; [reflexivity|].
  simpl in V. apply andb_true_iff in V as [Vl Vr]. cbn [files stdin]. auto.
Qed.

Lemma voti_conformi_ammessi (ps : list pystr) :
  forallb voto_ammesso (map VInt (voti_conformi ps)) = true.
Proof.
  unfold voti_conformi. induction ps as [|p ps IH]; [reflexivity|].
  cbn [filter]. destruct (pezzo_conforme p) eqn:E; [|exact IH].
  cbn [map forallb]. rewrite IH, andb_true_r.
  unfold pezzo_conforme in E. cbn [voto_ammesso].
  apply andb_true_iff in E as [E B]. apply andb_true_iff in E as [_ A].
  rewrite A, B. reflexivity.
Qed.

Lemma parse_grade_list_ammessi (voti_input : pystr) :
  exists voti,
    parse_grade_list voti_input = Ok voti
    /\ forallb voto_ammesso (map VInt voti) = true.
Proof.
  rewrite parse_grade_list_pezzi. eexists. split; [reflexivity|].
  destruct (existsb pezzo_illeggibile (pezzi voti_input));
    [reflexivity|apply voti_conformi_ammessi].
Qed.

Lemma sicuro_esegui_processo (path : string) :
  sicuro path (esegui_processo path).
Proof.
  intros w I V.
  destruct (registro_leggi path w I) as (roster & w1 & L & R & F & S).
  unfold esegui_processo, bind. rewrite L.
  destruct (righe_elencabili roster) as (medie & _ & E).
  { apply forallb_forall. intros r Hr. rewrite forallb_forall in R.
    apply record_del_programma_elencabile. auto. }
  rewrite stampa_studenti_righe, E.
  rewrite <- I. apply registro_in_ordine_files. cbn [files]. rewrite F.
  reflexivity.
Qed.

Lemma record_del_programma_nuovo (m n c : pystr) (voti : list value) :
  campo_compilato m = true -> campo_compilato n = true ->
  campo_compilato c = true -> forallb voto_ammesso voti = true ->
  voti <> [] ->
  record_del_programma
    (VDict [ (lit "matricola", VStr m); (lit "nome", VStr n);
             (lit "cognome", VStr c); (lit "voti", VList voti) ]) = true.
Proof.
  intros Cm Cn Cc Hv N. unfold record_del_programma.
  rewrite !str_eqb_refl, Cm, Cn, Cc, Hv.
  destruct voti; [contradiction|reflexivity].
Qed.

Lemma sicuro_aggiungi_studente (path : string) :
  sicuro path (aggiungi_studente path).
Proof.
  intros w I V. unfold aggiungi_studente, bind.
  pose proof (chiedi_esito PromptStudentId MsgEmptyStudentId w V) as A.
  destruct (chiedi PromptStudentId MsgEmptyStudentId w) as [[m wa]|e];
    [|exact A].
  destruct A as (Cm & Fa & Va).
  pose proof (chiedi_esito PromptFirstName MsgEmptyFirstName wa Va) as B.
  destruct (chiedi PromptFirstName MsgEmptyFirstName wa) as [[n wb]|e];
    [|exact B].
  destruct B as (Cn & Fb & Vb).
  pose proof (chiedi_esito PromptLastName MsgEmptyLastName wb Vb) as C.
  destruct (chiedi PromptLastName MsgEmptyLastName wb) as [[c wc]|e];
    [|exact C].
  destruct C as (Cc & Fc & Vc).
  pose proof (input_esito PromptGrades wc Vc) as D.
  destruct (input PromptGrades wc) as [[vi wd]|e]; [|exact D].
  destruct D as (_ & Fd & Vd & _).
  destruct (parse_grade_list_ammessi vi) as (voti & P & Hv).
  rewrite P. cbn [lift].
  assert (Id : registro_in_ordine path wd = true).
  { rewrite <- I. apply registro_in_ordine_files. congruence. }
  destruct voti as [|v vs].
  - unfold print. rewrite <- Id. apply registro_in_ordine_files. reflexivity.
  - destruct (registro_leggi path wd Id) as (roster & w1 & L & R & F & S).
    rewrite L. cbn [py_append].
    set (nuovo := VDict [ (lit "matricola", VStr m); (lit "nome", VStr n);
                          (lit "cognome", VStr c);
                          (lit "voti", VList (map VInt (v :: vs))) ]).
    assert (Rn : forallb record_del_programma (roster ++ [nuovo]) = true).
    { rewrite forallb_app, R. cbn [forallb]. rewrite andb_true_r.
      apply record_del_programma_nuovo; auto. discriminate. }
    destruct (salva_studenti_ok path (VList (roster ++ [nuovo])) w1
                (json_plain_testo_valido _ (registro_plain _ Rn)))
      as (Sv & _).
    unfold lift. rewrite Sv. unfold print.
    apply (registro_scritto path (roster ++ [nuovo])); [exact Rn|].
    cbn [files]. apply set_file_same.
Qed.

Lemma existsb_first {A} (f : A -> bool) (l : list A) :
  existsb f l = true ->
  exists pre x post,
    l = pre ++ x :: post /\ existsb f pre = false /\ f x = true.
Proof.
  induction l as [|y l IH]; [discriminate|]. simpl.
  destruct (f y) eqn:E.
  - intros _. exists [], y, l. auto.
  - intros H. destruct (IH H) as (pre & x & post & -> & N & Hx).
    exists (y :: pre), x, post. simpl. rewrite E. auto.
Qed.

Lemma registro_records (roster : list value) :
  forallb record_del_programma roster = true ->
  forallb is_record roster = true.
Proof.
  intros H. apply forallb_forall. intros r Hr.
  rewrite forallb_forall in H.
  destruct (record_del_programma_inv r (H r Hr)) as (? & ? & ? & ? & -> & _).
  reflexivity.
Qed.

Lemma cerca_esito (matricola : pystr) (roster : list value) :
  forallb is_record roster = true ->
  cerca_studente matricola roster 0 = Ok None
  \/ exists pre r post,
       roster = pre ++ r :: post
       /\ ha_matricola matricola r = true
       /\ cerca_studente matricola roster 0
          = Ok (Some (List.length pre, r)).
Proof.
  intros R. destruct (existsb (ha_matricola matricola) roster) eqn:E.
  - right. destruct (existsb_first _ _ E) as (pre & r & post & -> & N & H).
    exists pre, r, post. split; [reflexivity|]. split; [exact H|].
    rewrite forallb_app in R. apply andb_true_iff in R as [R1 _].
    apply (cerca_studente_first _ _ _ _ 0%nat R1 N H).
  - left. apply cerca_studente_none; assumption.
Qed.

Lemma replace_nth_middle {A} (pre post : list A) (r r' : A) :
  replace_nth (List.length pre) r' (pre ++ r :: post) = pre ++ r' :: post.
Proof. induction pre as [|x pre IH]; simpl; [reflexivity|]. now rewrite IH. Qed.

Lemma parse_single_grade_range (s : pystr) (voto : Z) :
  parse_single_grade s = Some voto -> voto_ammesso (VInt voto) = true.
Proof.
  unfold parse_single_grade. destruct (py_int s) as [n|]; [|discriminate].
  destruct ((18 <=? n) && (n <=? 30)) eqn:E; [|discriminate].
  intros [= <-]. exact E.
Qed.

Lemma forallb_middle {A} (f : A -> bool) (pre post : list A) (r : A) :
  forallb f (pre ++ r :: post) = true ->
  forallb f pre = true /\ f r = true /\ forallb f post = true.
Proof.
  rewrite forallb_app. cbn [forallb]. intros H.
  apply andb_true_iff in H as [H1 H2]. apply andb_true_iff in H2 as [H2 H3].
  auto.
Qed.

Lemma sicuro_aggiungi_voto (path : string) :
  sicuro path (aggiungi_voto path).
Proof.
  intros w I V.
  destruct (registro_leggi path w I) as (roster & w1 & L & R & F & S).
  unfold aggiungi_voto. unfold bind at 1. rewrite L.
  assert (I1 : registro_in_ordine path w1 = true).
  { rewrite <- I. apply registro_in_ordine_files. congruence. }
  assert (V1 : forallb testo_ok (stdin w1) = true) by (rewrite S; exact V).
  unfold bind at 1.
  pose proof (input_esito PromptMatricola w1 V1) as A.
  destruct (input PromptMatricola w1) as [[riga w2]|e]; [|exact A].
  destruct A as (_ & F2 & V2 & _).
  assert (I2 : registro_in_ordine path w2 = true).
  { rewrite <- I1. apply registro_in_ordine_files. congruence. }
  cbv zeta. unfold bind at 1. cbn [lift py_iter]. unfold bind at 1.
  destruct (cerca_esito (py_strip riga) roster (registro_records _ R))
    as [C|(pre & r & post & -> & H & C)]; rewrite C; cbn [lift].
  - unfold print. rewrite <- I2. apply registro_in_ordine_files. reflexivity.
  - destruct (ha_matricola_record _ _ H) as [_ Tr]. rewrite Tr. cbn [negb].
    unfold bind at 1.
    pose proof (input_esito PromptNuovoVoto w2 V2) as B.
    destruct (input PromptNuovoVoto w2) as [[riga_voto w3]|e]; [|exact B].
    destruct B as (_ & F3 & V3 & _).
    assert (I3 : registro_in_ordine path w3 = true).
    { rewrite <- I2. apply registro_in_ordine_files. congruence. }
    destruct (parse_single_grade (py_strip riga_voto)) as [voto|] eqn:G.
    + apply parse_single_grade_range in G.
      destruct (forallb_middle _ _ _ _ R) as (Rpre & Rr & Rpost).
      destruct (record_del_programma_inv r Rr)
        as (m & n & c & voti & -> & Cm & Cn & Cc & Hv & Nv).
      change (aggiungi_a_voti
                (VDict [ (lit "matricola", VStr m); (lit "nome", VStr n);
                         (lit "cognome", VStr c); (lit "voti", VList voti) ])
                voto)
        with (Ok (VDict [ (lit "matricola", VStr m); (lit "nome", VStr n);
                          (lit "cognome", VStr c);
                          (lit "voti", VList (voti ++ [VInt voto])) ])).
      unfold bind at 1. cbn [lift aggiorna_elemento].
      rewrite replace_nth_middle.
      set (r' := VDict [ (lit "matricola", VStr m); (lit "nome", VStr n);
                         (lit "cognome", VStr c);
                         (lit "voti", VList (voti ++ [VInt voto])) ]).
      assert (Rn : forallb record_del_programma (pre ++ r' :: post) = true).
      { rewrite forallb_app, Rpre. cbn [forallb]. rewrite Rpost, andb_true_r.
        apply record_del_programma_nuovo; auto.
        - rewrite forallb_app, Hv. cbn [forallb]. rewrite G. reflexivity.
        - destruct voti; discriminate. }
      destruct (salva_studenti_ok path (VList (pre ++ r' :: post)) w3
                  (json_plain_testo_valido _ (registro_plain _ Rn)))
        as (Sv & _).
      unfold bind at 1. rewrite Sv.
      change (py_getitem r' (lit "nome")) with (Ok (VStr n)).
      change (py_getitem r' (lit "cognome")) with (Ok (VStr c)).
      unfold bind, lift, print.
      apply (registro_scritto path (pre ++ r' :: post)); [exact Rn|].
      cbn [files]. apply set_file_same.
    + unfold print. rewrite <- I3. apply registro_in_ordine_files.
      reflexivity.
Qed.

Lemma sicuro_cancella_studente (path : string) :
  sicuro path (cancella_studente path).
Proof.
  intros w I V.
  destruct (registro_leggi path w I) as (roster & w1 & L & R & F & S).
  unfold cancella_studente. unfold bind at 1. rewrite L.
  assert (I1 : registro_in_ordine path w1 = true).
  { rewrite <- I. apply registro_in_ordine_files. congruence. }
  assert (V1 : forallb testo_ok (stdin w1) = true) by (rewrite S; exact V).
  destruct (py_truthy (VList roster)) eqn:T; cbn [negb].
  2:{ unfold print. rewrite <- I1. apply registro_in_ordine_files.
      reflexivity. }
  unfold bind at 1.
  pose proof (input_esito PromptMatricolaCancella w1 V1) as A.
  destruct (input PromptMatricolaCancella w1) as [[riga w2]|e]; [|exact A].
  destruct A as (_ & F2 & V2 & _).
  assert (I2 : registro_in_ordine path w2 = true).
  { rewrite <- I1. apply registro_in_ordine_files. congruence. }
  cbv zeta. unfold bind at 1. cbn [lift py_iter]. unfold bind at 1.
  destruct (cerca_esito (py_strip riga) roster (registro_records _ R))
    as [C|(pre & r & post & -> & H & C)]; rewrite C; cbn [lift].
  - unfold print. rewrite <- I2. apply registro_in_ordine_files. reflexivity.
  - unfold bind at 1. cbn [py_index]. rewrite nth_error_middle.
    destruct (ha_matricola_record _ _ H) as [Hr _].
    destruct r as [| | | | | |d]; try discriminate.
    cbn [lift]. unfold bind at 1. rewrite py_get_campo. cbn [lift].
    unfold bind at 1. rewrite py_get_campo. cbn [lift].
    unfold bind at 1.
    match goal with
    | |- context [input ?p w2] =>
        pose proof (input_esito p w2 V2) as B;
        destruct (input p w2) as [[risposta w3]|e]; [|exact B]
    end.
    destruct B as (_ & F3 & V3 & _).
    assert (I3 : registro_in_ordine path w3 = true).
    { rewrite <- I2. apply registro_in_ordine_files. congruence. }
    cbv zeta.
    destruct (str_eqb (py_lower (py_strip risposta)) (lit "s")); cbn [negb].
    + unfold bind at 1. cbn [py_pop]. rewrite nth_error_middle.
      cbn [lift]. rewrite remove_nth_middle.
      destruct (forallb_middle _ _ _ _ R) as (Rpre & _ & Rpost).
      assert (Rn : forallb record_del_programma (pre ++ post) = true).
      { rewrite forallb_app, Rpre, Rpost. reflexivity. }
      destruct (salva_studenti_ok path (VList (pre ++ post)) w3
                  (json_plain_testo_valido _ (registro_plain _ Rn)))
        as (Sv & _).
      unfold bind. rewrite Sv. unfold print.
      apply (registro_scritto path (pre ++ post)); [exact Rn|].
      cbn [files]. apply set_file_same.
    + unfold print. rewrite <- I3. apply registro_in_ordine_files.
      reflexivity.
Qed.

Lemma sicuro_print (path : string) (m : message) : sicuro path (print m).
Proof.
  intros w I V. unfold print. rewrite <- I.
  apply registro_in_ordine_files. reflexivity.
Qed.

Lemma forallb_suffix {A} (f : A -> bool) (used rest : list A) :
  forallb f (used ++ rest) = true -> forallb f rest = true.
Proof. rewrite forallb_app. intros H. apply andb_true_iff in H. tauto. Qed.

Lemma sicuro_menu (path : string) (n : nat) : sicuro path (menu n path).
Proof.
  induction n as [|n IH]; intros w I V; [reflexivity|].
  rewrite menu_step. destruct (stdin w) as [|riga r] eqn:E; [reflexivity|].
  cbv zeta.
  set (w1 := {| files := files w; stdin := r;
                stdout := stdout w ++ [MsgMenu; MsgPrompt PromptScelta] |}).
  assert (I1 : registro_in_ordine path w1 = true).
  { rewrite <- I. apply registro_in_ordine_files. reflexivity. }
  assert (V1 : forallb testo_ok (stdin w1) = true).
  { simpl in V. apply andb_true_iff in V as [_ V]. exact V. }
  assert (K : forall (op : M unit),
             sicuro path op -> mantiene path op ->
             match bind op (fun _ => menu n path) w1 with
             | Ok (_, w') => registro_in_ordine path w' = true
             | Raise e => e = EOFError
             end).
  { intros op Hs Hm. unfold bind. pose proof (Hs w1 I1 V1) as Q.
    destruct (op w1) as [[[] w2]|e] eqn:O; [|exact Q].
    destruct (Hm _ _ _ O) as (_ & _ & (used & U)).
    apply IH; [exact Q|]. rewrite U in V1. eapply forallb_suffix, V1. }
  repeat match goal with
         | |- match (if ?b then _ else _) with _ => _ end => destruct b
         end;
    first [ apply K;
            [ first [ apply sicuro_esegui_processo
                    | apply sicuro_aggiungi_studente
                    | apply sicuro_aggiungi_voto
                    | apply sicuro_cancella_studente
                    | apply sicuro_print ]
            | first [ apply mantiene_esegui_processo
                    | apply mantiene_aggiungi_studente
                    | apply mantiene_aggiungi_voto
                    | apply mantiene_cancella_studente
                    | apply mantiene_print ] ]
          | exact I1 ].
Qed.

(** X11.  The program keeps the store in order.  Starting with no store
    file, or with one that holds a list of records as the program writes
    them (identifier and names filled in, at least one grade, every grade an
    integer in 18..30), and with lines of Unicode text typed in, every run
    that ends leaves a store of the same kind: no sequence of menu choices
    and answers can put anything else into it. *)
Theorem programma_keeps_store_in_order (path : string) (w w' : world) :
  registro_in_ordine path w = true ->
  forallb testo_ok (stdin w) = true ->
  programma path w = Ok (tt, w') ->
  registro_in_ordine path w' = true.
Proof.
  intros I V H.
  pose proof (sicuro_menu path (S (List.length (stdin w))) w I V) as Q.
  unfold programma in H. rewrite H in Q. exact Q.
Qed.

(** X12.  With the store in order and lines of Unicode text typed in, no
    operation of the program raises: a run ends with choice 0, or, when the
    lines typed run out, with [EOFError], and in no other way. *)
Theorem programma_ends_by_exit_or_end_of_input (path : string) (w : world) :
  registro_in_ordine path w = true ->
  forallb testo_ok (stdin w) = true ->
  (exists w', programma path w = Ok (tt, w'))
  \/ programma path w = Raise EOFError.
Proof.
  intros I V.
  pose proof (sicuro_menu path (S (List.length (stdin w))) w I V) as Q.
  unfold programma.
  destruct (menu (S (List.length (stdin w))) path w) as [[[] w']|e].
  - left. eauto.
  - right. rewrite Q. reflexivity.
Qed.

(** A run of X11: starting without a store, a student is added (after a
    blank identifier, and with two pieces of the grade line dropped), and
    the program is left. *)
Lemma programma_keeps_store_in_order_witness :
  registro_in_ordine "registro.txt"
    {| files := set_file "registro.txt" (registro_di (VList [ana]))
                  nessun_file;
       stdin := [];
       stdout := [ MsgMenu; MsgPrompt PromptScelta;
                   MsgPrompt PromptStudentId; MsgEmptyStudentId;
                   MsgPrompt PromptStudentId; MsgPrompt PromptFirstName;
                   MsgPrompt PromptLastName; MsgPrompt PromptGrades;
                   MsgErroreLettura; MsgStudentAdded (lit "Ana") (lit "Li");
                   MsgMenu; MsgPrompt PromptScelta; MsgExit ] |}
  = true.
Proof.
  apply (programma_keeps_store_in_order "registro.txt"
           (mondo nessun_file
              [lit "2"; lit "  "; lit " S1 "; lit "Ana"; lit "Li";
               lit "20, 17, 22, x"; lit "0"])).
  - reflexivity.
  - reflexivity.
  - vm_compute. reflexivity.
Defined.

(** A run of X12: a listing, a grade added, and a deletion whose
    confirmation is never typed. *)
Lemma programma_ends_by_exit_or_end_of_input_witness :
  (exists w',
     programma "registro.txt"
       (mondo (un_file "registro.txt" (registro_di (VList [ana; bruno])))
          [lit "1"; lit "3"; lit "S2"; lit "18"; lit "4"; lit "S1"])
     = Ok (tt, w'))
  \/ programma "registro.txt"
       (mondo (un_file "registro.txt" (registro_di (VList [ana; bruno])))
          [lit "1"; lit "3"; lit "S2"; lit "18"; lit "4"; lit "S1"])
     = Raise EOFError.
Proof.
  apply (programma_ends_by_exit_or_end_of_input "registro.txt"
           (mondo (un_file "registro.txt" (registro_di (VList [ana; bruno])))
              [lit "1"; lit "3"; lit "S2"; lit "18"; lit "4"; lit "S1"])).
  - vm_compute. reflexivity.
  - reflexivity.
Defined.

(** ** Saving and loading any value *)



(** ** Adding and then deleting *)

(** X14.  Adding a student whose identifier no record of the roster has, and
    then deleting that identifier with the confirmation [s], gives the
    roster back: the deletion finds the record just added, removes it, and
    the store holds the encoding of the records it held before, in their
    order. *)
Theorem aggiungi_poi_cancella
    (path : string) (w w1 w2 : world)
    (matricola nome cognome voti_input : pystr) (v : Z) (vs : list Z)
    (items : list value) (riga risposta : pystr) (rest : list pystr) :
  dati_studente w = Ok ((matricola, nome, cognome, voti_input), w1) ->
  parse_grade_list voti_input = Ok (v :: vs) ->
  leggi_studenti_da_file path w1 = Ok (VList items, w2) ->
  json_plain
    (VList (items ++ [nuovo_studente matricola nome cognome (v :: vs)]))
  = true ->
  forallb is_record items = true ->
  existsb (ha_matricola matricola) items = false ->
  stdin w1 = riga :: risposta :: rest ->
  py_strip riga = matricola ->
  py_lower (py_strip risposta) = lit "s" ->
  exists wa wb,
    aggiungi_studente path w = Ok (tt, wa)
    /\ cancella_studente path wa = Ok (tt, wb)
    /\ files wb path = Some (registro_di (VList items))
    /\ stdin wb = rest
    /\ leggi_studenti_da_file path wb = Ok (VList items, wb).
Proof.
  intros H P L J R N I Em Es.
  set (nuovo := nuovo_studente matricola nome cognome (v :: vs)) in *.
  pose proof (aggiungi_studente_salva path w w1 w2 _ _ _ _ _ _ _ H P L
                (json_plain_testo_valido _ J)) as A.
  fold nuovo in A.
  set (wa := {| files := set_file path (registro_di (VList (items ++ [nuovo])))
                           (files w);
                stdin := stdin w1;
                stdout := stdout w2 ++ [MsgStudentAdded nome cognome] |}) in *.
  assert (La : leggi_studenti_da_file path wa
               = Ok (VList (items ++ [nuovo]), wa)).
  { apply leggi_scritto; [exact J|apply set_file_same]. }
  assert (Hn : ha_matricola (py_strip riga) nuovo = true).
  { rewrite Em. unfold nuovo, nuovo_studente, ha_matricola.
    change (dict_get _ (lit "matricola")) with (Some (VStr matricola)).
    apply str_eqb_refl. }
  rewrite <- Em in N.
  pose proof (cancella_studente_found path wa wa items [] nuovo riga risposta
                rest La R N Hn I) as C.
  cbv zeta in C. rewrite Es, str_eqb_refl, app_nil_r in C.
  assert (Ji : json_plain (VList items) = true).
  { rewrite json_plain_list, forallb_app in J.
    apply andb_true_iff in J as [J _]. exact J. }
  destruct (salva_studenti_ok path (VList items) wa
              (json_plain_testo_valido _ Ji)) as (_ & E & _).
  rewrite E in C.
  eexists wa, _. split; [exact A|]. split; [exact C|].
  cbn [files stdin]. split; [apply set_file_same|]. split; [reflexivity|].
  apply leggi_scritto; [exact Ji|]. cbn [files]. apply set_file_same.
Qed.

(** A run of X14: the student S3 is added to the roster of the examples and
    deleted again, the confirmation typed as a capital S. *)
Lemma aggiungi_poi_cancella_witness :
  exists wa wb,
    aggiungi_studente "registro.txt"
      (mondo (un_file "registro.txt" (registro_di (VList [ana; bruno])))
         [lit "S3"; lit "Eva"; lit "Po"; lit "18"; lit " S3"; lit "S"])
    = Ok (tt, wa)
    /\ cancella_studente "registro.txt" wa = Ok (tt, wb)
    /\ files wb "registro.txt" = Some (registro_di (VList [ana; bruno]))
    /\ stdin wb = []
    /\ leggi_studenti_da_file "registro.txt" wb
       = Ok (VList [ana; bruno], wb).
Proof.
  pose (fs := un_file "registro.txt" (registro_di (VList [ana; bruno]))).
  pose (w1 := {| files := fs; stdin := [lit " S3"; lit "S"];
                 stdout := [ MsgPrompt PromptStudentId;
                             MsgPrompt PromptFirstName;
                             MsgPrompt PromptLastName;
                             MsgPrompt PromptGrades ] |}).
  apply (aggiungi_poi_cancella "registro.txt"
           (mondo fs [lit "S3"; lit "Eva"; lit "Po"; lit "18"; lit " S3";
                      lit "S"])
           w1 w1 (lit "S3") (lit "Eva") (lit "Po") (lit "18") 18 []
           [ana; bruno] (lit " S3") (lit "S") []);
    vm_compute; reflexivity.
Defined.

(** ** The lookup *)

(** X15.  The lookup by identifier on a roster that was extended: a match
    among the records that were there wins, and so does an error there; the
    records appended are looked at only when none of the earlier ones has
    the identifier.  A record added with an identifier the roster already
    has is therefore out of reach of [aggiungi_voto] and [cancella_studente]
    as long as the earlier record stays. *)
Theorem cerca_studente_earlier_record_wins
    (matricola : pystr) (items extra : list value) (i : nat) :
  cerca_studente matricola (items ++ extra) i
  = match cerca_studente matricola items i with
    | Ok None => cerca_studente matricola extra (i + List.length items)
    | found => found
    end.
Proof.
  revert i. induction items as [|s rest IH]; intros i.
  - cbn [app cerca_studente List.length]. rewrite Nat.add_0_r. reflexivity.
  - cbn [app cerca_studente List.length].
    destruct (py_get s (lit "matricola") VNone) as [m|e]; cbn [rbind];
      [|reflexivity].
    destruct (py_eq_str m matricola); [reflexivity|].
    rewrite IH. replace (S i + List.length rest)%nat
      with (i + S (List.length rest))%nat by lia.
    reflexivity.
Qed.

(** ** The menu *)

Lemma scelta_ignota_spec (riga : pystr) :
  scelta_ignota riga = true ->
  str_eqb (py_strip riga) (lit "1") = false
  /\ str_eqb (py_strip riga) (lit "2") = false
  /\ str_eqb (py_strip riga) (lit "3") = false
  /\ str_eqb (py_strip riga) (lit "4") = false
  /\ str_eqb (py_strip riga) (lit "0") = false.
Proof.
  unfold scelta_ignota. intros H. apply negb_true_iff in H.
  cbn [existsb] in H.
  repeat (apply orb_false_iff in H; destruct H as [? H]). auto.
Qed.

Lemma menu_rifiuti (path : string) (junk : list pystr) (riga : pystr)
    (rest : list pystr) :
  forallb scelta_ignota junk = true ->
  py_strip riga = lit "0" ->
  forall n w,
    stdin w = junk ++ riga :: rest ->
    (List.length junk < n)%nat ->
    menu n path w
    = Ok (tt, {| files := files w; stdin := rest;
                 stdout := stdout w ++ rifiuti junk
                           ++ [MsgMenu; MsgPrompt PromptScelta; MsgExit] |}).
Proof.
  intros J Z. induction junk as [|l junk IH]; intros n w E Hn.
  - destruct n as [|n]; [simpl in Hn; lia|]. rewrite menu_step.
    cbn [app] in E. rewrite E. cbv zeta. rewrite Z.
    change (str_eqb (lit "0") (lit "1")) with false.
    change (str_eqb (lit "0") (lit "2")) with false.
    change (str_eqb (lit "0") (lit "3")) with false.
    change (str_eqb (lit "0") (lit "4")) with false.
    change (str_eqb (lit "0") (lit "0")) with true. cbv iota.
    unfold print. cbn [files stdin stdout rifiuti flat_map app].
    rewrite <- app_assoc. reflexivity.
  - destruct n as [|n]; [simpl in Hn; lia|]. rewrite menu_step.
    cbn [app] in E. rewrite E. cbv zeta.
    simpl in J. apply andb_true_iff in J as [Jl Jr].
    destruct (scelta_ignota_spec l Jl) as (A1 & A2 & A3 & A4 & A0).
    rewrite A1, A2, A3, A4, A0. unfold bind, print.
    rewrite (IH Jr n); cbn [files stdin stdout List.length] in *;
      [|reflexivity|lia].
    unfold rifiuti. cbn [flat_map]. rewrite <- !app_assoc. reflexivity.
Qed.

(** X16.  Lines that are none of the choices 0 to 4 (stripped) are answered
    with the complaint and the menu again, and change nothing; the choice 0
    then ends the program, which reads no line after it and leaves every
    file as it was. *)
Theorem programma_skips_unknown_choices
    (path : string) (w : world) (junk : list pystr) (riga : pystr)
    (rest : list pystr) :
  stdin w = junk ++ riga :: rest ->
  forallb scelta_ignota junk = true ->
  py_strip riga = lit "0" ->
  programma path w
  = Ok (tt, {| files := files w; stdin := rest;
               stdout := stdout w ++ rifiuti junk
                         ++ [MsgMenu; MsgPrompt PromptScelta; MsgExit] |}).
Proof.
  intros E J Z. unfold programma.
  apply (menu_rifiuti path junk riga rest J Z _ w E).
  rewrite E, length_app. simpl. lia.
Qed.

(** A run of X16: four lines that are no choice (a 5, an empty line, a word,
    01), then 0 with spaces around it. *)
Lemma programma_skips_unknown_choices_witness :
  programma "registro.txt"
    (mondo (un_file "registro.txt" (lit "[]"))
       [lit "5"; []; lit "uno"; lit "01"; lit " 0 "; lit "2"])
  = Ok (tt, {| files := files (mondo (un_file "registro.txt" (lit "[]")) []);
               stdin := [lit "2"];
               stdout := [] ++ rifiuti [lit "5"; []; lit "uno"; lit "01"]
                         ++ [MsgMenu; MsgPrompt PromptScelta; MsgExit] |}).
Proof.
  apply (programma_skips_unknown_choices "registro.txt"
           (mondo (un_file "registro.txt" (lit "[]"))
              [lit "5"; []; lit "uno"; lit "01"; lit " 0 "; lit "2"])
           [lit "5"; []; lit "uno"; lit "01"] (lit " 0 ") [lit "2"]);
    vm_compute; reflexivity.
Defined.

(** ** Stores that are no roster *)

Lemma json_loads_blank (text : pystr) :
  forallb is_json_ws text = true -> json_loads text = Raise JSONDecodeError.
Proof.
  intros H.
  assert (E : skip_ws text = []).
  { unfold skip_ws. induction text as [|c r IH]; [reflexivity|].
    simpl in H |- *. apply andb_true_iff in H as [Hc Hr]. rewrite Hc. auto. }
  unfold json_loads. rewrite E.
  destruct text as [|c r]; [reflexivity|].
  simpl in H. apply andb_true_iff in H as [Hc _].
  destruct (Z.eq_dec c 65279) as [->|Hn]; [discriminate|].
  destruct c as [|p|p]; try reflexivity.
  repeat (destruct p as [p|p|]; try reflexivity; try contradiction).
Qed.

(** X17.  A store file that is empty, or holds nothing but spaces, tabs and
    line ends, is not an empty roster: loading it prints the error message
    (and returns the empty list), as for a file that is not JSON. *)
Theorem leggi_blank_store (path : string) (w : world) (bs : list Z)
    (text : pystr) :
  files w path = Some bs ->
  utf8_decode bs = Some text ->
  forallb is_json_ws text = true ->
  leggi_studenti_da_file path w
  = Ok (VList [], {| files := files w; stdin := stdin w;
                     stdout := stdout w ++ [MsgErroreLettura] |}).
Proof.
  intros F D B.
  rewrite (leggi_decoded _ _ _ _ F D), (json_loads_blank _ B). reflexivity.
Qed.

(** A run of X17: the empty file, and a file of a space, a tab and line
    ends. *)
Lemma leggi_blank_store_witness :
  leggi_studenti_da_file "registro.txt"
    (mondo (un_file "registro.txt" []) [])
  = Ok (VList [], {| files := files (mondo (un_file "registro.txt" []) []);
                     stdin := stdin (mondo (un_file "registro.txt" []) []);
                     stdout := stdout (mondo (un_file "registro.txt" []) [])
                               ++ [MsgErroreLettura] |})
  /\ leggi_studenti_da_file "registro.txt"
       (mondo (un_file "registro.txt" [32; 10; 9; 13; 10]) [])
     = Ok (VList [],
           {| files := files (mondo (un_file "registro.txt"
                                       [32; 10; 9; 13; 10]) []);
              stdin := [];
              stdout := [] ++ [MsgErroreLettura] |}).
Proof.
  split.
  - apply (leggi_blank_store "registro.txt"
             (mondo (un_file "registro.txt" []) []) [] []); reflexivity.
  - apply (leggi_blank_store "registro.txt"
             (mondo (un_file "registro.txt" [32; 10; 9; 13; 10]) [])
             [32; 10; 9; 13; 10] [32; 10; 9; 13; 10]); reflexivity.
Defined.

(** X18.  When the store holds JSON that is not a list (an object, a string,
    a number, [true], [null]), [aggiungi_studente] asks for all its input
    and then raises [AttributeError] at [studenti.append]: the value loaded
    is used as it is. *)
Theorem aggiungi_studente_store_not_a_list
    (path : string) (w w1 w2 : world)
    (matricola nome cognome voti_input : pystr) (v : Z) (vs : list Z)
    (studenti : value) :
  dati_studente w = Ok ((matricola, nome, cognome, voti_input), w1) ->
  parse_grade_list voti_input = Ok (v :: vs) ->
  leggi_studenti_da_file path w1 = Ok (studenti, w2) ->
  (forall items, studenti <> VList items) ->
  aggiungi_studente path w = Raise AttributeError.
Proof.
  intros H P L N.
  rewrite (aggiungi_studente_dati path _ _ _ _ _ _ _ _ H P).
  unfold bind. rewrite L.
  destruct studenti; try reflexivity. exfalso. apply (N l). reflexivity.
Qed.

(** A run of X18: the store holds the empty object. *)
Lemma aggiungi_studente_store_not_a_list_witness :
  aggiungi_studente "registro.txt"
    (mondo (un_file "registro.txt" (lit "{}"))
       [lit "S1"; lit "Ana"; lit "Li"; lit "20,22"])
  = Raise AttributeError.
Proof.
  pose (fs := un_file "registro.txt" (lit "{}")).
  pose (w1 := {| files := fs; stdin := [];
                 stdout := [ MsgPrompt PromptStudentId;
                             MsgPrompt PromptFirstName;
                             MsgPrompt PromptLastName;
                             MsgPrompt PromptGrades ] |}).
  apply (aggiungi_studente_store_not_a_list "registro.txt"
           (mondo fs [lit "S1"; lit "Ana"; lit "Li"; lit "20,22"])
           w1 w1 (lit "S1") (lit "Ana") (lit "Li") (lit "20,22") 20 [22]
           (VDict [])).
  - vm_compute. reflexivity.
  - vm_compute. reflexivity.
  - vm_compute. reflexivity.
  - intros items. discriminate.
Defined.

(** ** The listing reads only *)

Lemma stampa_righe_frame (items : list value) (w w' : world) :
  stampa_righe items w = Ok (tt, w') ->
  files w' = files w /\ stdin w' = stdin w.
Proof.
  revert w. induction items as [|r rest IH]; intros w.
  - intros [= <-]. auto.
  - rewrite stampa_righe_step. destruct (riga_studente r); [|discriminate].
    intros H. apply IH in H. cbn [files stdin] in H. exact H.
Qed.

(** X19.  Choice 1 of the menu only reads: whatever the store holds, and
    also when there is none, a listing that ends has changed no file,
    created none, and read no line.  On a missing store, and on one that is
    not JSON, it prints the error message and the header of an empty list. *)
Theorem esegui_processo_changes_nothing (path : string) (w : world) :
  (forall w', esegui_processo path w = Ok (tt, w') ->
              files w' = files w /\ stdin w' = stdin w)
  /\ ((files w path = None
       \/ exists bs text, files w path = Some bs
                          /\ utf8_decode bs = Some text
                          /\ json_loads text = Raise JSONDecodeError) ->
      esegui_processo path w
      = Ok (tt, {| files := files w; stdin := stdin w;
                   stdout := stdout w
                             ++ [MsgErroreLettura; MsgStudentList] |})).
Proof.
  split.
  - intros w'. unfold esegui_processo. unfold bind at 1.
    destruct (leggi_studenti_da_file path w) as [[v w1]|] eqn:L;
      [|discriminate].
    destruct (leggi_frame _ _ _ _ L) as (F & S & _).
    unfold stampa_studenti, bind, print, lift.
    destruct (py_iter v) as [items|]; [|discriminate].
    intros H. apply stampa_righe_frame in H. cbn [files stdin] in H.
    destruct H as [H1 H2]. split; congruence.
  - intros U. unfold esegui_processo, bind.
    rewrite (leggi_missing_or_malformed_text path w U).
    unfold stampa_studenti, bind, print, lift. cbn [py_iter stampa_righe ret].
    cbn [files stdin stdout]. rewrite <- app_assoc. reflexivity.
Qed.

(** A run of X19: the store holds text that is not JSON. *)
Lemma esegui_processo_changes_nothing_witness :
  esegui_processo "registro.txt"
    (mondo (un_file "registro.txt" (lit "not json")) [lit "x"])
  = Ok (tt, {| files := files (mondo (un_file "registro.txt" (lit "not json"))
                                 [lit "x"]);
               stdin := stdin (mondo (un_file "registro.txt" (lit "not json"))
                                 [lit "x"]);
               stdout := stdout (mondo (un_file "registro.txt"
                                          (lit "not json")) [lit "x"])
                         ++ [MsgErroreLettura; MsgStudentList] |}).
Proof.
  apply (esegui_processo_changes_nothing "registro.txt"
           (mondo (un_file "registro.txt" (lit "not json")) [lit "x"])).
  right. exists (lit "not json"), (lit "not json").
  repeat split; vm_compute; reflexivity.
Defined.

(** ** One grade, typed in two places *)

Lemma py_split_no_sep (sep : Z) (s : pystr) :
  forallb (fun c => negb (c =? sep)) s = true -> py_split sep s = [s].
Proof.
  induction s as [|c r IH]; [reflexivity|]. simpl. intros H.
  apply andb_true_iff in H as [Hc Hr]. apply negb_true_iff in Hc.
  rewrite Hc, (IH Hr). reflexivity.
Qed.

(** X20.  A single grade that [aggiungi_studente] accepts on its grade line
    is accepted by [aggiungi_voto] too, with the same value.  The converse
    does not hold:  [aggiungi_voto] reads the grade with [int] alone, which
    takes a sign and underscores, and so accepts [+25] and [2_5], which
    [aggiungi_studente], asking [isdigit] first, drops. *)
Theorem grade_of_line_is_grade_of_prompt (p : pystr) (n : Z) :
  forallb (fun c => negb (c =? 44)) p = true ->
  parse_grade_list p = Ok [n] ->
  parse_single_grade (py_strip p) = Some n
  /\ parse_single_grade (py_strip (lit "+25")) = Some 25
  /\ parse_grade_list (lit "+25") = Ok []
  /\ parse_single_grade (py_strip (lit "2_5")) = Some 25
  /\ parse_grade_list (lit "2_5") = Ok [].
Proof.
  intros C P. split; [|repeat split; vm_compute; reflexivity].
  rewrite parse_grade_list_pezzi in P. unfold pezzi in P.
  rewrite (py_split_no_sep _ _ C) in P. cbn [map existsb] in P.
  rewrite orb_false_r in P. unfold voti_conformi in P. cbn [filter] in P.
  destruct (pezzo_illeggibile (py_strip p)); [discriminate|].
  destruct (pezzo_conforme (py_strip p)) eqn:E; [|discriminate].
  injection P as <-. unfold pezzo_conforme in E.
  apply andb_true_iff in E as [E B]. apply andb_true_iff in E as [E A].
  apply andb_true_iff in E as [D Dec].
  unfold parse_single_grade. rewrite (py_int_of_digits _ D), Dec, A, B.
  reflexivity.
Qed.

(** A run of X20: the grade 27 with spaces around it. *)
Lemma grade_of_line_is_grade_of_prompt_witness :
  parse_single_grade (py_strip (lit " 27 ")) = Some 27
  /\ parse_single_grade (py_strip (lit "+25")) = Some 25
  /\ parse_grade_list (lit "+25") = Ok []
  /\ parse_single_grade (py_strip (lit "2_5")) = Some 25
  /\ parse_grade_list (lit "2_5") = Ok [].
Proof.
  apply (grade_of_line_is_grade_of_prompt (lit " 27 ") 27);
    vm_compute; reflexivity.
Defined.

(** ** The path of the store *)

Lemma drop_while_app_all (f : codepoint -> bool) (l m : pystr) :
  forallb f l = true -> drop_while f (l ++ m) = drop_while f m.
Proof.
  induction l as [|c l IH]; [reflexivity|]. simpl. intros H.
  apply andb_true_iff in H as [Hc Hl]. rewrite Hc. auto.
Qed.

Lemma drop_while_stop (f : codepoint -> bool) (c : Z) (m : pystr) :
  f c = false -> drop_while f (c :: m) = c :: m.
Proof. intros H. simpl. rewrite H. reflexivity. Qed.

Lemma path_head_app_name (a name : pystr) :
  forallb (fun c => negb (is_sep c)) name = true ->
  ends_with_sep a = true ->
  path_head (a ++ name) = a.
Proof.
  intros N E. unfold path_head. rewrite rev_app_distr.
  rewrite drop_while_app_all.
  - unfold ends_with_sep, starts_with_sep in E.
    destruct (rev a) as [|c t] eqn:R; [discriminate|].
    rewrite drop_while_stop by (rewrite E; reflexivity).
    rewrite <- (rev_involutive a), R. reflexivity.
  - rewrite forallb_forall in N |- *. intros c Hc. apply N, in_rev, Hc.
Qed.

Lemma path_head_name (name : pystr) :
  forallb (fun c => negb (is_sep c)) name = true -> path_head name = [].
Proof.
  intros N. unfold path_head.
  rewrite <- (app_nil_r (rev name)), drop_while_app_all; [reflexivity|].
  rewrite forallb_forall in N |- *. intros c Hc. apply N, in_rev, Hc.
Qed.

Lemma path_head_cases (p : pystr) :
  path_head p = [] \/ ends_with_sep (path_head p) = true.
Proof.
  unfold path_head, ends_with_sep. rewrite rev_involutive.
  destruct (drop_while (fun c => negb (is_sep c)) (rev p)) as [|c t] eqn:E;
    [left; reflexivity|right].
  apply drop_while_head_false in E. apply negb_false_iff in E. exact E.
Qed.

Lemma rstrip_sep_cases (head : pystr) :
  forallb is_sep head = false ->
  exists t c, rstrip_sep head = t ++ [c] /\ is_sep c = false.
Proof.
  intros H. unfold rstrip_sep.
  destruct (drop_while is_sep (rev head)) as [|c t] eqn:E.
  - exfalso. destruct (drop_while_split is_sep (rev head)) as (ws & Es & A).
    rewrite E, app_nil_r in Es. rewrite <- Es in A.
    assert (forallb is_sep head = true); [|congruence].
    rewrite forallb_forall in A |- *. intros x Hx. apply A, in_rev.
    rewrite rev_involutive. exact Hx.
  - exists (rev t), c. split; [reflexivity|].
    eapply drop_while_head_false, E.
Qed.

Lemma ends_with_sep_snoc (t : pystr) (c : Z) :
  ends_with_sep (t ++ [c]) = is_sep c.
Proof. unfold ends_with_sep. rewrite rev_app_distr. reflexivity. Qed.

Lemma dirname_cases (p : pystr) :
  dirname p = []
  \/ (dirname p <> [] /\ forallb is_sep (dirname p) = true)
  \/ exists t c, dirname p = t ++ [c] /\ is_sep c = false.
Proof.
  unfold dirname. destruct (path_head p) as [|h0 hs] eqn:Hd; [auto|].
  cbv zeta iota. right. destruct (forallb is_sep (h0 :: hs)) eqn:A.
  - left. split; [discriminate|exact A].
  - right. apply rstrip_sep_cases, A.
Qed.

Lemma dirname_name (name : pystr) :
  forallb (fun c => negb (is_sep c)) name = true -> dirname name = [].
Proof. intros N. unfold dirname. rewrite (path_head_name _ N). reflexivity. Qed.

Lemma ends_with_sep_all (d : pystr) :
  d <> [] -> forallb is_sep d = true -> ends_with_sep d = true.
Proof.
  intros Hd A. unfold ends_with_sep, starts_with_sep.
  destruct (rev d) as [|c t] eqn:R.
  - apply (f_equal (@rev Z)) in R. rewrite rev_involutive in R. contradiction.
  - rewrite forallb_forall in A. apply A, in_rev. rewrite R. now left.
Qed.

Lemma dirname_seps (d name : pystr) :
  d <> [] -> forallb is_sep d = true ->
  forallb (fun c => negb (is_sep c)) name = true ->
  dirname (d ++ name) = d.
Proof.
  intros Hd A N. unfold dirname.
  rewrite (path_head_app_name _ _ N (ends_with_sep_all _ Hd A)), A.
  destruct d; [contradiction|reflexivity].
Qed.

Lemma dirname_dir (t : pystr) (c : Z) (name : pystr) :
  is_sep c = false ->
  forallb (fun c => negb (is_sep c)) name = true ->
  dirname ((t ++ [c]) ++ [47] ++ name) = t ++ [c].
Proof.
  intros Hc N. unfold dirname.
  replace ((t ++ [c]) ++ [47] ++ name) with (((t ++ [c]) ++ [47]) ++ name)
    by (rewrite <- !app_assoc; reflexivity).
  rewrite (path_head_app_name _ _ N)
    by (rewrite ends_with_sep_snoc; reflexivity).
  destruct ((t ++ [c]) ++ [47]) as [|x xs] eqn:X; [destruct t; discriminate|].
  rewrite <- X. clear X x xs.
  rewrite !forallb_app. cbn [forallb]. rewrite Hc, andb_false_r.
  cbn [andb]. unfold rstrip_sep. rewrite !rev_app_distr.
  cbn [rev app drop_while]. change (is_sep 47) with true. cbv iota.
  rewrite Hc. cbn [rev]. rewrite rev_involutive. reflexivity.
Qed.

(** X22.  The store sits beside the script: the path the program uses,
    [os.path.join(os.path.dirname(__file__), 'registro.txt')], has the
    directory of the script as its directory, whatever the path of the
    script is, and the name [registro.txt] after a slash (or alone, when the
    script was given without a directory).  It does not depend on the
    directory the program is started from.  ([os.path] is that of POSIX.) *)
Theorem file_path_beside_the_script (file : pystr) :
  dirname (file_path file) = dirname file
  /\ exists d,
       file_path file = d ++ lit "registro.txt"
       /\ (d = [] \/ ends_with_sep d = true).
Proof.
  assert (N : forallb (fun c => negb (is_sep c)) (lit "registro.txt") = true)
    by reflexivity.
  unfold file_path, main_dir, path_join.
  change (starts_with_sep (lit "registro.txt")) with false. cbv iota.
  destruct (dirname_cases file) as [E|[[Hd A]|(t & c & E & Hc)]].
  - rewrite E. cbn [app]. split; [apply dirname_name, N|].
    exists []. auto.
  - pose proof (ends_with_sep_all _ Hd A) as S. rewrite S.
    destruct (dirname file) as [|x xs] eqn:D; [contradiction|].
    split; [apply dirname_seps; assumption|].
    exists (x :: xs). auto.
  - rewrite E, ends_with_sep_snoc, Hc. clear E.
    destruct (t ++ [c]) as [|x xs] eqn:X; [destruct t; discriminate|].
    rewrite <- X. clear X x xs.
    split; [apply dirname_dir; assumption|].
    exists ((t ++ [c]) ++ [47]). split.
    + rewrite <- !app_assoc. reflexivity.
    + right. rewrite ends_with_sep_snoc. reflexivity.
Qed.

(** Two scripts and their stores. *)
Example file_path_examples :
  file_path (lit "/home/ana/corso/registro_studenti_ai.py")
  = lit "/home/ana/corso/registro.txt"
  /\ file_path (lit "registro_studenti_ai.py") = lit "registro.txt".
Proof. split; vm_compute; reflexivity. Qed.
